(** * BioLit-Miner: the prompt-to-structured-data pipelines

    A shallow embedding of the pipelines of [src/biolit_miner]:
    [method_extractor.py] (extraction and persistence of the extracted
    methods), [code_generator.py] (grouping by category, one generation
    call per category, parsing of the reply, the files written),
    [qa_interface.py] (the conversational engine and its bounded
    history) and [paper_ingestion.py] (the text of a PDF and the
    lookups in PubMed).

    Conventions of the embedding.
    - Python values that come out of [json.loads] are untyped: the
      dataclasses of the source store whatever they are given, so their
      fields hold a [value], and the type annotations of the source
      appear as the predicates of [Module Typed].  A float is kept as
      its sign, mantissa and exponent.
    - A [str] is a [string]: a sequence of characters with code points
      below 256.  Whitespace and case folding are those of Python on
      these code points.
    - Exceptions are values of [exn]; a computation that may raise
      returns a [result]; a computation that also talks to the outside
      world (the remote completion service, the file system, the clock,
      the object store) runs in the monad [M] over [World].
    - What the Python runtime and its libraries decide ([json.loads],
      [json.dumps], [repr], the text of interpreter error messages, the
      rendering of the clock, a search with a pattern that is not plain
      text) is the interface [PyRuntime]: the embedding and the general
      theorems are generic in it, and [Module Mini] is the instance on
      which the statements about concrete inputs are run.
    - The two PDF readers and the network are oracles: a reader gives
      the pages of a file or the exception it raised, the network the
      root of the document a request is answered with; the requests
      made are logged in the monad [N].  So is the file system for the
      writers of scripts: it says whether a directory can be made and
      a file opened.
    - Of the source, what the properties below are about is embedded:
      the constructors (which look up the credential and read the
      templates) and the page of the application are not. *)

From Stdlib Require Import ZArith Lia Ascii String Floats.SpecFloat.
From stdpp Require Import base option list strings pretty gmap fin_maps.
From stdpp Require Import sorting.

Set Warnings "-register-all".
Local Open Scope string_scope.
Local Open Scope list_scope.
Local Open Scope Z_scope.

(** ** Python values *)

Inductive value : Type :=
  | VNone
  | VBool (b : bool)
  | VInt (n : Z)
  | VFloat (x : spec_float)
  | VStr (s : string)
  | VList (items : list value)
  | VDict (items : list (string * value)).

(** A [dict] with [str] keys, in insertion order. *)
Abbreviation dict := (list (string * value)).

Fixpoint dict_lookup (k : string) (d : dict) : option value :=
  match d with
  | [] => None
  | (k', v) :: d' => if String.eqb k k' then Some v else dict_lookup k d'
  end.

Definition dict_keys (d : dict) : list string := map fst d.

(** ** Exceptions *)

(** The [TypeError]s the interpreter raises in the embedded code. *)
Inductive type_error : Type :=
  | UnexpectedKeyword (cls key : string)
  | MissingArguments (cls : string) (fields : list string)
  | NotAMapping (cls : string)
  | NotIterable
  | NotSubscriptable
  | Unhashable
  | JoinNotIterable
  | JoinItem (i : nat).

Inductive exn : Type :=
  | Exception (msg : string)
  | ValueError (msg : string)
  | JSONDecodeError (msg : string)
  | TypeError (why : type_error)
  | KeyError (key : string)
  | AttributeError (attr : string)
  | FileNotFoundError (path : string)
  | ReError (msg : string)
  | APIError (msg : string).

Inductive result (A : Type) : Type :=
  | Ok (a : A)
  | Raise (e : exn).
Arguments Ok {A} a.
Arguments Raise {A} e.

Definition is_ok {A} (r : result A) : bool :=
  match r with Ok _ => true | Raise _ => false end.

Module Res.
Definition bind {A B} (r : result A) (k : A -> result B) : result B :=
  match r with
  | Ok a => k a
  | Raise e => Raise e
  end.

(** [try: r except Exception as e: h e] *)
Definition try_except {A} (r : result A) (h : exn -> result A) : result A :=
  match r with
  | Ok a => Ok a
  | Raise e => h e
  end.

(** A list comprehension whose element expression may raise: elements
    are evaluated left to right and the first exception escapes. *)
Fixpoint traverse {A B} (f : A -> result B) (l : list A) : result (list B) :=
  match l with
  | [] => Ok []
  | x :: l' =>
      match f x with
      | Raise e => Raise e
      | Ok y =>
          match traverse f l' with
          | Raise e => Raise e
          | Ok ys => Ok (y :: ys)
          end
      end
  end.
End Res.

Declare Scope res_scope.
Delimit Scope res_scope with res.
Notation "x <- e ;; k" := (Res.bind e (fun x => k))
  (at level 100, e at next level, right associativity) : res_scope.

(** ** The Python runtime *)

Class PyRuntime : Type := {
  (** [json.loads]: the decoded value, or the message of the
      [JSONDecodeError] *)
  json_decode : string -> string + value;
  (** [json.dumps(_, indent=2)] *)
  json_encode : value -> string;
  (** [repr] of a value *)
  py_repr : value -> string;
  (** [str(e)] for the exceptions the interpreter raises itself *)
  interp_message : exn -> string;
  (** [datetime.now().isoformat()] at a given reading of the clock *)
  isoformat : nat -> string;
  (** [re.search(pattern, text, re.DOTALL | re.IGNORECASE)] followed by
      [.group(1)] on a match, for a pattern that is not plain text: the
      group, [None] without a match, or the exception raised *)
  re_search_group : string -> string -> result (option string)
}.

Section Builtins.
Context `{PyRuntime}.

Definition json_loads (s : string) : result value :=
  match json_decode s with
  | inr v => Ok v
  | inl msg => Raise (JSONDecodeError msg)
  end.

(** [str(e)], as interpolated by [f"...{e}"] *)
Definition exn_str (e : exn) : string :=
  match e with
  | Exception msg | ValueError msg | JSONDecodeError msg | APIError msg => msg
  | _ => interp_message e
  end.

(** [str(v)], as interpolated by [f"...{v}"] *)
Definition py_str (v : value) : string :=
  match v with
  | VStr s => s
  | _ => py_repr v
  end.
End Builtins.

(** ** [str] methods and slices *)

Module PyStr.
(** The double quote character, which a string literal cannot hold. *)
Definition dq : string := String (ascii_of_nat 34) EmptyString.
Definition quoted (s : string) : string := dq +:+ s +:+ dq.
Definition newline : string := String (ascii_of_nat 10) EmptyString.

Fixpoint find_from (sub s : string) (i : Z) : Z :=
  if String.prefix sub s then i
  else match s with
       | EmptyString => -1
       | String _ s' => find_from sub s' (i + 1)
       end.

(** [s.find(sub)]: lowest index of [sub] in [s], or -1 *)
Definition find (s sub : string) : Z := find_from sub s 0.

Fixpoint rfind_from (sub s : string) (i : Z) : Z :=
  match s with
  | EmptyString => if String.prefix sub s then i else -1
  | String _ s' =>
      let r := rfind_from sub s' (i + 1) in
      if r =? -1 then (if String.prefix sub s then i else -1) else r
  end.

(** [s.rfind(sub)]: highest index of [sub] in [s], or -1 *)
Definition rfind (s sub : string) : Z := rfind_from sub s 0.

Fixpoint take (n : nat) (s : string) : string :=
  match n, s with
  | S n', String c s' => String c (take n' s')
  | _, _ => EmptyString
  end.

Fixpoint drop (n : nat) (s : string) : string :=
  match n, s with
  | S n', String _ s' => drop n' s'
  | _, _ => s
  end.

(** Python's normalisation of a slice bound against a length *)
Definition clamp (i len : Z) : Z :=
  if i <? 0 then Z.max 0 (i + len) else Z.min i len.

(** [s[start:stop]] *)
Definition slice (s : string) (start stop : Z) : string :=
  let len := Z.of_nat (String.length s) in
  let a := clamp start len in
  let b := clamp stop len in
  take (Z.to_nat (b - a)) (drop (Z.to_nat a) s).

(** [s[:stop]] *)
Definition slice_to (s : string) (stop : Z) : string := slice s 0 stop.

(** [c.isspace()] on code points below 256 *)
Definition isspace (c : ascii) : bool :=
  let n := nat_of_ascii c in
  ((9 <=? n) && (n <=? 13) || (28 <=? n) && (n <=? 32)
   || (n =? 133) || (n =? 160))%nat.

Fixpoint lstrip (s : string) : string :=
  match s with
  | String c s' => if isspace c then lstrip s' else s
  | EmptyString => EmptyString
  end.

Fixpoint rstrip (s : string) : string :=
  match s with
  | EmptyString => EmptyString
  | String c s' =>
      match rstrip s' with
      | EmptyString => if isspace c then EmptyString else String c EmptyString
      | r => String c r
      end
  end.

(** [s.strip()] *)
Definition strip (s : string) : string := rstrip (lstrip s).

(** [s.split(sep)] for a one-character separator *)
Fixpoint split (sep : ascii) (s : string) : list string :=
  match s with
  | EmptyString => [EmptyString]
  | String c s' =>
      if Ascii.eqb c sep then EmptyString :: split sep s'
      else match split sep s' with
           | w :: ws => String c w :: ws
           | [] => [String c EmptyString]
           end
  end.

(** [sep.join(parts)] *)
Fixpoint join (sep : string) (parts : list string) : string :=
  match parts with
  | [] => EmptyString
  | [p] => p
  | p :: ps => p +:+ sep +:+ join sep ps
  end.

(** The characters of a string, each as a one-character string *)
Fixpoint chars (s : string) : list string :=
  match s with
  | EmptyString => []
  | String c s' => String c EmptyString :: chars s'
  end.

(** [s.endswith(suffix)] *)
Definition endswith (s suffix : string) : bool :=
  String.eqb (drop (String.length s - String.length suffix) s) suffix.

(** [a <= b] on [str]: the order of the code points, a proper prefix
    coming first. *)
Definition le (a b : string) : Prop := String.leb a b = true.

#[global] Instance le_dec (a b : string) : Decision (le a b) :=
  decide (String.leb a b = true).

(** [sorted(items)] on strings *)
Definition sorted (items : list string) : list string := merge_sort le items.
End PyStr.

(** ** Paths *)

Module OsPath.
(** [os.path.join(a, b)], with [/] as the separator: an absolute [b]
    replaces [a]. *)
Definition join (a b : string) : string :=
  if String.prefix "/" b then b
  else if String.eqb a EmptyString || PyStr.endswith a "/" then a +:+ b
  else a +:+ "/" +:+ b.
End OsPath.

(** ** Iteration, subscripts and keyword arguments on untyped values *)

Module Py.
(** [for x in v]: the elements a [for] loop or a comprehension sees. *)
Definition iter (v : value) : result (list value) :=
  match v with
  | VList items => Ok items
  | VStr s => Ok (map VStr (PyStr.chars s))
  | VDict d => Ok (map VStr (dict_keys d))
  | VNone | VBool _ | VInt _ | VFloat _ => Raise (TypeError NotIterable)
  end.

(** [v.get(key, default)] *)
Definition get (v : value) (key : string) (default : value) : result value :=
  match v with
  | VDict d => Ok (match dict_lookup key d with Some x => x | None => default end)
  | _ => Raise (AttributeError "get")
  end.

(** [v[key]] for a [str] key *)
Definition getitem (v : value) (key : string) : result value :=
  match v with
  | VDict d =>
      match dict_lookup key d with
      | Some x => Ok x
      | None => Raise (KeyError key)
      end
  | _ => Raise (TypeError NotSubscriptable)
  end.

(** [sep.join(v)] *)
Fixpoint join_items (i : nat) (items : list value) : result (list string) :=
  match items with
  | [] => Ok []
  | VStr s :: rest =>
      match join_items (S i) rest with
      | Ok ss => Ok (s :: ss)
      | Raise e => Raise e
      end
  | _ :: _ => Raise (TypeError (JoinItem i))
  end.

Definition join (sep : string) (v : value) : result string :=
  match v with
  | VList items =>
      match join_items 0 items with
      | Ok ss => Ok (PyStr.join sep ss)
      | Raise e => Raise e
      end
  | VStr s => Ok (PyStr.join sep (PyStr.chars s))
  | VDict d => Ok (PyStr.join sep (dict_keys d))
  | VNone | VBool _ | VInt _ | VFloat _ => Raise (TypeError JoinNotIterable)
  end.

(** Values that can be keys of a [dict]. *)
Definition hashable (v : value) : bool :=
  match v with
  | VList _ | VDict _ => false
  | _ => true
  end.

(** What a key is compared by.  Numbers compare by their value whatever
    their type, so that [True], [1] and [1.0] are one key: a number is
    kept as [m * 2 ^ e] with [m] odd, or as [0 * 2 ^ 0].  A NaN equals
    nothing, but a [dict] finds an object again by identity before it
    compares, and every NaN that [json.loads] returns is one object:
    the NaNs of a document are one key. *)
Inductive key : Type :=
  | KNone
  | KStr (s : string)
  | KNum (m e : Z)
  | KInf (negative : bool)
  | KNaN.

Fixpoint odd_part (m : positive) (e : Z) : positive * Z :=
  match m with
  | xO m' => odd_part m' (e + 1)
  | _ => (m, e)
  end.

Definition dyadic (negative : bool) (m : positive) (e : Z) : key :=
  let '(m', e') := odd_part m e in
  KNum (if negative then Zneg m' else Zpos m') e'.

(** The key of a value that has one. *)
Definition key_of (v : value) : option key :=
  match v with
  | VNone => Some KNone
  | VBool b => Some (KNum (if b then 1 else 0) 0)
  | VInt Z0 => Some (KNum 0 0)
  | VInt (Zpos m) => Some (dyadic false m 0)
  | VInt (Zneg m) => Some (dyadic true m 0)
  | VFloat (S754_zero _) => Some (KNum 0 0)
  | VFloat (S754_finite negative m e) => Some (dyadic negative m e)
  | VFloat (S754_infinity negative) => Some (KInf negative)
  | VFloat S754_nan => Some KNaN
  | VStr s => Some (KStr s)
  | VList _ | VDict _ => None
  end.

Definition key_beq (a b : key) : bool :=
  match a, b with
  | KNone, KNone => true
  | KStr x, KStr y => String.eqb x y
  | KNum m e, KNum m' e' => (m =? m') && (e =? e')
  | KInf x, KInf y => Bool.eqb x y
  | KNaN, KNaN => true
  | _, _ => false
  end.

(** The two values are one key of a [dict]. *)
Definition key_eqb (a b : value) : bool :=
  match key_of a, key_of b with
  | Some x, Some y => key_beq x y
  | _, _ => false
  end.

(** [bool(v)], as [if v:] and [v or w] read it *)
Definition truthy (v : value) : bool :=
  match v with
  | VNone => false
  | VBool b => b
  | VInt n => negb (n =? 0)
  | VFloat (S754_zero _) => false
  | VFloat _ => true
  | VStr s => negb (String.eqb s EmptyString)
  | VList items => match items with [] => false | _ => true end
  | VDict items => match items with [] => false | _ => true end
  end.

(** The parameters of a generated [__init__]: the fields in order,
    each with its default when it has one. *)
Definition signature := list (string * option value).

Fixpoint first_unexpected (sig : signature) (kw : dict) : option string :=
  match kw with
  | [] => None
  | (k, _) :: kw' =>
      if existsb (String.eqb k) (map fst sig) then first_unexpected sig kw'
      else Some k
  end.

Definition missing (sig : signature) (kw : dict) : list string :=
  map fst
    (List.filter (fun p => match snd p, dict_lookup (fst p) kw with
                      | None, None => true
                      | _, _ => false
                      end) sig).

Definition bound (sig : signature) (kw : dict) (field : string) : value :=
  match dict_lookup field kw with
  | Some v => v
  | None =>
      match dict_lookup field (omap (fun p => pair (fst p) <$> snd p) sig) with
      | Some v => v
      | None => VNone
      end
  end.

(** A call of [cls] on the unpacked mapping [arg] binds its items to the
    parameters of [cls.__init__]; the values are stored as they are. *)
Definition bind_arguments (cls : string) (sig : signature) (arg : value)
  : result (string -> value) :=
  match arg with
  | VDict kw =>
      match first_unexpected sig kw with
      | Some k => Raise (TypeError (UnexpectedKeyword cls k))
      | None =>
          match missing sig kw with
          | [] => Ok (bound sig kw)
          | fs => Raise (TypeError (MissingArguments cls fs))
          end
      end
  | _ => Raise (TypeError (NotAMapping cls))
  end.
End Py.

(** ** The data model: the dataclasses of the three modules *)

Module ComputationalMethod.
Record t : Type := mk {
  name : value;
  description : value;
  software_tools : value;
  programming_languages : value;
  parameters : value;
  category : value
}.

Definition signature : Py.signature :=
  [("name", None); ("description", None); ("software_tools", None);
   ("programming_languages", None); ("parameters", None); ("category", None)].

(** [ComputationalMethod] called on the unpacked [method] *)
Definition init (method : value) : result t :=
  (arg <- Py.bind_arguments "ComputationalMethod" signature method ;;
   Ok (mk (arg "name") (arg "description") (arg "software_tools")
          (arg "programming_languages") (arg "parameters") (arg "category")))%res.

Definition asdict (m : t) : value :=
  VDict [("name", name m); ("description", description m);
         ("software_tools", software_tools m);
         ("programming_languages", programming_languages m);
         ("parameters", parameters m); ("category", category m)].
End ComputationalMethod.

Module Dataset.
Record t : Type := mk {
  name : value;
  description : value;
  source : value;
  format : value;
  size : value
}.

(** [size: Optional[str] = None] is the one field with a default. *)
Definition signature : Py.signature :=
  [("name", None); ("description", None); ("source", None);
   ("format", None); ("size", Some VNone)].

(** [Dataset] called on the unpacked [dataset] *)
Definition init (dataset : value) : result t :=
  (arg <- Py.bind_arguments "Dataset" signature dataset ;;
   Ok (mk (arg "name") (arg "description") (arg "source") (arg "format")
          (arg "size")))%res.

Definition asdict (d : t) : value :=
  VDict [("name", name d); ("description", description d);
         ("source", source d); ("format", format d); ("size", size d)].
End Dataset.

Module Workflow.
Record t : Type := mk {
  name : value;
  steps : value;
  input_data : value;
  output_data : value;
  dependencies : value
}.

Definition signature : Py.signature :=
  [("name", None); ("steps", None); ("input_data", None);
   ("output_data", None); ("dependencies", None)].

(** [Workflow] called on the unpacked [workflow] *)
Definition init (workflow : value) : result t :=
  (arg <- Py.bind_arguments "Workflow" signature workflow ;;
   Ok (mk (arg "name") (arg "steps") (arg "input_data") (arg "output_data")
          (arg "dependencies")))%res.

Definition asdict (w : t) : value :=
  VDict [("name", name w); ("steps", steps w);
         ("input_data", input_data w); ("output_data", output_data w);
         ("dependencies", dependencies w)].
End Workflow.

Module ExtractedMethods.
Record t : Type := mk {
  computational_methods : list ComputationalMethod.t;
  datasets : list Dataset.t;
  workflows : list Workflow.t;
  key_findings : value;
  reproducibility_notes : value
}.

(** [dataclasses.asdict]: nested dataclasses become dicts, field by
    field and in field order; other values are copied. *)
Definition asdict (m : t) : value :=
  VDict [("computational_methods",
           VList (map ComputationalMethod.asdict (computational_methods m)));
         ("datasets", VList (map Dataset.asdict (datasets m)));
         ("workflows", VList (map Workflow.asdict (workflows m)));
         ("key_findings", key_findings m);
         ("reproducibility_notes", reproducibility_notes m)].
End ExtractedMethods.

Module PaperMetadata.
Record t : Type := mk {
  title : string;
  authors : list string;
  abstract : string;
  doi : string;
  pubmed_id : string;
  journal : string;
  year : string;
  full_text : string
}.
End PaperMetadata.

Module GeneratedCode.
Record t : Type := mk {
  script_content : string;
  language : string;
  dependencies : list string;
  description : string;
  usage_instructions : string
}.
End GeneratedCode.

Module QAExchange.
Record t : Type := mk {
  question : value;
  answer : value;
  timestamp : value;
  context_used : string
}.
End QAExchange.

(** ** The outside world *)

(** One call of [client.messages.create]. *)
Record request : Type := mk_request {
  model : string;
  max_tokens : Z;
  content : string
}.

(** What the call gives back: the text of the first content block, or
    the exception raised by the call or by reading an empty reply. *)
Inductive reply : Type :=
  | Reply (text : string)
  | Failure (e : exn).

(** The remote completion service: its answer may depend on the request
    and on every request made before it. *)
Definition Gateway : Type := list request -> request -> reply.

(** The object store: lists and exchanges are mutable objects, held by
    reference. *)
Abbreviation loc := nat.

Inductive object : Type :=
  | ListObj (items : list loc)
  | ExchangeObj (e : QAExchange.t).

Record World : Type := mk_world {
  (** the requests made to the service so far, oldest first *)
  calls : list request;
  (** the text files, by path *)
  files : gmap string string;
  (** the lines printed so far, oldest first *)
  stdout : list string;
  (** the number of readings of the clock so far *)
  clock : nat;
  (** the live objects, by reference *)
  heap : gmap loc object
}.

Definition set_calls (c : list request) (w : World) : World :=
  mk_world c (files w) (stdout w) (clock w) (heap w).
Definition set_files (f : gmap string string) (w : World) : World :=
  mk_world (calls w) f (stdout w) (clock w) (heap w).
Definition set_stdout (o : list string) (w : World) : World :=
  mk_world (calls w) (files w) o (clock w) (heap w).
Definition set_clock (t : nat) (w : World) : World :=
  mk_world (calls w) (files w) (stdout w) t (heap w).
Definition set_heap (h : gmap loc object) (w : World) : World :=
  mk_world (calls w) (files w) (stdout w) (clock w) h.

(** Computations that may raise and that act on the world; an exception
    keeps the effects made before it. *)
Definition M (A : Type) : Type := World -> result A * World.

(** ** The file system *)

(** What the writers of scripts ask of the file system. *)
Inductive fs_op : Type :=
  | MakeDirs (path : string)
  | OpenWrite (path : string).

(** What the operating system makes of an operation in a world: the
    exception it raises, when it raises.  The world holds the texts of
    the files; the directories and the rights are the system's own, and
    so is the verdict. *)
Definition FileSystem : Type := World -> fs_op -> option exn.

Module Eff.
Definition ret {A} (a : A) : M A := fun w => (Ok a, w).

Definition raise {A} (e : exn) : M A := fun w => (Raise e, w).

Definition lift {A} (r : result A) : M A := fun w => (r, w).

Definition bind {A B} (m : M A) (k : A -> M B) : M B :=
  fun w =>
    match m w with
    | (Ok a, w') => k a w'
    | (Raise e, w') => (Raise e, w')
    end.

(** [try: m except Exception as e: h e] *)
Definition try_except {A} (m : M A) (h : exn -> M A) : M A :=
  fun w =>
    match m w with
    | (Ok a, w') => (Ok a, w')
    | (Raise e, w') => h e w'
    end.

(** [client.messages.create(...)] followed by [.content[0].text] *)
Definition messages_create (client : Gateway) (req : request) : M string :=
  fun w =>
    let w' := set_calls (calls w ++ [req]) w in
    match client (calls w) req with
    | Reply text => (Ok text, w')
    | Failure e => (Raise e, w')
    end.

(** [with open(path, 'r') as f: f.read()] *)
Definition read_file (path : string) : M string :=
  fun w =>
    match files w !! path with
    | Some text => (Ok text, w)
    | None => (Raise (FileNotFoundError path), w)
    end.

(** [with open(path, 'w') as f: f.write(text)], on a path that the
    system lets the program write *)
Definition write_file (path text : string) : M unit :=
  fun w => (Ok tt, set_files (<[path := text]> (files w)) w).

(** [os.makedirs(path, exist_ok=True)]: it raises what the system
    raises; the directories it makes are not part of the world. *)
Definition makedirs (fs : FileSystem) (path : string) : M unit :=
  fun w =>
    match fs w (MakeDirs path) with
    | Some e => (Raise e, w)
    | None => (Ok tt, w)
    end.

(** [with open(path, 'w') as f: f.write(text)] where the system is
    asked: when [open] raises, nothing is written; a file that is open
    takes the text. *)
Definition open_write (fs : FileSystem) (path text : string) : M unit :=
  fun w =>
    match fs w (OpenWrite path) with
    | Some e => (Raise e, w)
    | None => write_file path text w
    end.

(** [print(line)] *)
Definition print (line : string) : M unit :=
  fun w => (Ok tt, set_stdout (stdout w ++ [line]) w).

(** [datetime.now().isoformat()] *)
Definition now `{PyRuntime} : M string :=
  fun w => (Ok (isoformat (clock w)), set_clock (S (clock w)) w).

(** A new object, at a reference no live object has. *)
Definition alloc (o : object) : M loc :=
  fun w =>
    let l := fresh (dom (heap w)) in
    (Ok l, set_heap (<[l := o]> (heap w)) w).

(** In-place update of the object at a reference. *)
Definition store (l : loc) (o : object) : M unit :=
  fun w => (Ok tt, set_heap (<[l := o]> (heap w)) w).
End Eff.

Declare Scope eff_scope.
Delimit Scope eff_scope with eff.
Notation "x <- e ;; k" := (Eff.bind e (fun x => k))
  (at level 100, e at next level, right associativity) : eff_scope.
Notation "e ;;; k" := (Eff.bind e (fun _ => k))
  (at level 100, right associativity) : eff_scope.

(** The model every call passes to the service. *)
Definition MODEL : string := "claude-3-sonnet-20240229".

(** * [method_extractor.py] *)

Module MethodExtractor.
Section WithRuntime.
Context `{PyRuntime}.
(** [self.client] *)
Variable client : Gateway.

Definition unlines (ls : list string) : string :=
  fold_right (fun l acc => l +:+ PyStr.newline +:+ acc) EmptyString ls.

Definition _create_extraction_prompt (paper_text paper_title : string) : string :=
  let q := PyStr.quoted in
  unlines [
    EmptyString;
    "Analyze the following research paper and extract computational methods, datasets, and workflows in a structured JSON format.";
    EmptyString;
    "Paper Title: " +:+ paper_title;
    EmptyString;
    "Paper Text:";
    PyStr.slice_to paper_text 15000 +:+ "  # Limit text to avoid token limits";
    EmptyString;
    "Please extract and structure the following information as a JSON object:";
    EmptyString;
    "1. **Computational Methods**: Identify all computational approaches, algorithms, statistical methods, and analysis techniques used. For each method include:";
    "   - name: The name/type of method";
    "   - description: Brief description of what it does";
    "   - software_tools: List of software/tools mentioned (e.g., R, Python, MATLAB, specific packages)";
    "   - programming_languages: Languages used";
    "   - parameters: Key parameters or settings mentioned";
    "   - category: Type of analysis (statistical_analysis, machine_learning, bioinformatics, image_analysis, etc.)";
    EmptyString;
    "2. **Datasets**: Identify all datasets used. For each dataset include:";
    "   - name: Dataset name or identifier";
    "   - description: What the dataset contains";
    "   - source: Where it came from (database, experiment, etc.)";
    "   - format: File format or data type";
    "   - size: Size if mentioned";
    EmptyString;
    "3. **Workflows**: Identify analysis workflows or pipelines. For each workflow include:";
    "   - name: Workflow name or purpose";
    "   - steps: Ordered list of analysis steps";
    "   - input_data: What data goes in";
    "   - output_data: What results are produced";
    "   - dependencies: Required software/tools";
    EmptyString;
    "4. **Key Findings**: List the main computational/methodological findings or results";
    EmptyString;
    "5. **Reproducibility Notes**: Any notes about code availability, data sharing, or reproducibility";
    EmptyString;
    "Return your response as a valid JSON object with the following structure:";
    "{";
    "  " +:+ q "computational_methods" +:+ ": [";
    "    {";
    "      " +:+ q "name" +:+ ": " +:+ q "string" +:+ ",";
    "      " +:+ q "description" +:+ ": " +:+ q "string" +:+ ",";
    "      " +:+ q "software_tools" +:+ ": [" +:+ q "string" +:+ "],";
    "      " +:+ q "programming_languages" +:+ ": [" +:+ q "string" +:+ "],";
    "      " +:+ q "parameters" +:+ ": {" +:+ q "param" +:+ ": " +:+ q "value" +:+ "},";
    "      " +:+ q "category" +:+ ": " +:+ q "string";
    "    }";
    "  ],";
    "  " +:+ q "datasets" +:+ ": [";
    "    {";
    "      " +:+ q "name" +:+ ": " +:+ q "string" +:+ ",";
    "      " +:+ q "description" +:+ ": " +:+ q "string" +:+ ",";
    "      " +:+ q "source" +:+ ": " +:+ q "string" +:+ ",";
    "      " +:+ q "format" +:+ ": " +:+ q "string" +:+ ",";
    "      " +:+ q "size" +:+ ": " +:+ q "string";
    "    }";
    "  ],";
    "  " +:+ q "workflows" +:+ ": [";
    "    {";
    "      " +:+ q "name" +:+ ": " +:+ q "string" +:+ ",";
    "      " +:+ q "steps" +:+ ": [" +:+ q "string" +:+ "],";
    "      " +:+ q "input_data" +:+ ": [" +:+ q "string" +:+ "],";
    "      " +:+ q "output_data" +:+ ": [" +:+ q "string" +:+ "],";
    "      " +:+ q "dependencies" +:+ ": [" +:+ q "string" +:+ "]";
    "    }";
    "  ],";
    "  " +:+ q "key_findings" +:+ ": [" +:+ q "string" +:+ "],";
    "  " +:+ q "reproducibility_notes" +:+ ": " +:+ q "string";
    "}";
    EmptyString;
    "Focus on extracting concrete, actionable information that could be used to reproduce the computational aspects of the research."
  ].

(** [[cls(item) for item in v]] *)
Definition construct_all {A} (init : value -> result A) (v : value)
  : result (list A) :=
  (items <- Py.iter v ;; Res.traverse init items)%res.

(** The body of the [try] block of [_parse_extraction_result]. *)
Definition parse_body (result_text : string) : result ExtractedMethods.t :=
  let json_start := PyStr.find result_text "{" in
  let json_end := PyStr.rfind result_text "}" + 1 in
  if (json_start =? -1) || (json_end =? 0) then
    Raise (ValueError "No JSON found in response")
  else
    let json_str := PyStr.slice result_text json_start json_end in
    (data <- json_loads json_str ;;
     ms <- Py.get data "computational_methods" (VList []) ;;
     computational_methods <- construct_all ComputationalMethod.init ms ;;
     ds <- Py.get data "datasets" (VList []) ;;
     datasets <- construct_all Dataset.init ds ;;
     ws <- Py.get data "workflows" (VList []) ;;
     workflows <- construct_all Workflow.init ws ;;
     key_findings <- Py.get data "key_findings" (VList []) ;;
     reproducibility_notes <- Py.get data "reproducibility_notes" (VStr EmptyString) ;;
     Ok (ExtractedMethods.mk computational_methods datasets workflows
           key_findings reproducibility_notes))%res.

(** The two [except] clauses, tried in order. *)
Definition parse_handler (e : exn) : result ExtractedMethods.t :=
  match e with
  | JSONDecodeError _ =>
      Raise (Exception ("Failed to parse JSON response: " +:+ exn_str e))
  | _ =>
      Raise (Exception ("Failed to parse extraction result: " +:+ exn_str e))
  end.

Definition _parse_extraction_result (result_text : string)
  : result ExtractedMethods.t :=
  Res.try_except (parse_body result_text) parse_handler.

Definition extract_methods (paper_text paper_title : string)
  : M ExtractedMethods.t :=
  let prompt := _create_extraction_prompt paper_text paper_title in
  Eff.try_except
    (result_text <- Eff.messages_create client (mk_request MODEL 4000 prompt) ;;
     Eff.lift (_parse_extraction_result result_text))%eff
    (fun e => Eff.raise
       (Exception ("Failed to extract methods using Claude: " +:+ exn_str e))).

Definition save_extracted_methods (methods : ExtractedMethods.t)
    (output_path : string) : M unit :=
  Eff.write_file output_path (json_encode (ExtractedMethods.asdict methods)).

Definition load_extracted_methods (input_path : string)
  : M ExtractedMethods.t :=
  (text <- Eff.read_file input_path ;;
   Eff.lift
     (data <- json_loads text ;;
      ms <- Py.getitem data "computational_methods" ;;
      computational_methods <- construct_all ComputationalMethod.init ms ;;
      ds <- Py.getitem data "datasets" ;;
      datasets <- construct_all Dataset.init ds ;;
      ws <- Py.getitem data "workflows" ;;
      workflows <- construct_all Workflow.init ws ;;
      key_findings <- Py.getitem data "key_findings" ;;
      reproducibility_notes <- Py.getitem data "reproducibility_notes" ;;
      Ok (ExtractedMethods.mk computational_methods datasets workflows
            key_findings reproducibility_notes))%res)%eff.
End WithRuntime.
End MethodExtractor.

(** * Regular expressions of [code_generator.py]

    The searches the parser makes, for the patterns it uses: plain text
    (matched case-insensitively under [re.IGNORECASE]), the lazy group
    [(.*?)] under [re.DOTALL], greedy [\s*], the lookahead and [$]. *)

Module Re.
(** The characters with a meaning of their own in a pattern. *)
Definition is_meta (c : ascii) : bool :=
  existsb (Ascii.eqb c) (list_ascii_of_string "\.^$*+?{}[]|()").

(** A pattern fragment that is plain ASCII text. *)
Definition literal (p : string) : bool :=
  forallb (fun c => (nat_of_ascii c <? 128)%nat && negb (is_meta c))
          (list_ascii_of_string p).

Definition lower (c : ascii) : ascii :=
  let n := nat_of_ascii c in
  if ((65 <=? n) && (n <=? 90))%nat then ascii_of_nat (n + 32) else c.

(** Two characters match; [ci] is [re.IGNORECASE]. *)
Definition char_match (ci : bool) (a b : ascii) : bool :=
  if ci then Ascii.eqb (lower a) (lower b) else Ascii.eqb a b.

(** Plain text [p] at the start of [s]: what follows it. *)
Fixpoint match_literal (ci : bool) (p s : string) : option string :=
  match p with
  | EmptyString => Some s
  | String a p' =>
      match s with
      | EmptyString => None
      | String b s' =>
          if char_match ci a b then match_literal ci p' s' else None
      end
  end.

Definition looking_at (ci : bool) (p s : string) : bool :=
  match match_literal ci p s with Some _ => true | None => false end.

(** [(.*?)] followed by the rest of the pattern, [stop]: the shortest
    prefix of [s] after which [stop] matches. *)
Fixpoint lazy_until (stop : string -> bool) (s : string) : option string :=
  if stop s then Some EmptyString
  else match s with
       | EmptyString => None
       | String c s' =>
           match lazy_until stop s' with
           | Some g => Some (String c g)
           | None => None
           end
       end.

(** [$] without [re.MULTILINE]: at the end of the text, or before a
    newline that ends it. *)
Definition at_end (s : string) : bool :=
  match s with
  | EmptyString => true
  | String c EmptyString => Ascii.eqb c (ascii_of_nat 10)
  | _ => false
  end.

(** [re.search]: the match at the leftmost position that has one. *)
Fixpoint search {A} (m : string -> option A) (s : string) : option A :=
  match m s with
  | Some r => Some r
  | None =>
      match s with
      | EmptyString => None
      | String _ s' => search m s'
      end
  end.

Definition fence : string := "```".

(** An opener in plain text, [(.*?)], and the closing fence. *)
Definition fenced_block (ci : bool) (opener : string) (s : string)
  : option string :=
  match match_literal ci opener s with
  | Some rest => lazy_until (looking_at ci fence) rest
  | None => None
  end.

(** [```language(.*?)```] with DOTALL and IGNORECASE *)
Definition tagged_block (language : string) : string -> option string :=
  fenced_block true (fence +:+ language).

(** [```(.*?)```] with DOTALL *)
Definition any_block : string -> option string :=
  fenced_block false fence.

(** [label\s*(.*?)(?=next|$)] with DOTALL and IGNORECASE; after the
    greedy [\s*] the rest always matches, at the end of the text at the
    latest, so [\s*] never gives a character back. *)
Definition section_until (label next : string) (s : string) : option string :=
  match match_literal true label s with
  | Some rest =>
      lazy_until (fun r => looking_at true next r || at_end r)
                 (PyStr.lstrip rest)
  | None => None
  end.

(** [label\s*(.*?)$] with DOTALL and IGNORECASE *)
Definition section_to_end (label : string) (s : string) : option string :=
  match match_literal true label s with
  | Some rest => lazy_until at_end (PyStr.lstrip rest)
  | None => None
  end.

(** The longest start of [s] whose characters are all in the class, and
    what follows it: a greedy repetition of the class. *)
Fixpoint span (class : ascii -> bool) (s : string) : string * string :=
  match s with
  | String c s' =>
      if class c then let '(run, rest) := span class s' in (String c run, rest)
      else (EmptyString, s)
  | EmptyString => (EmptyString, EmptyString)
  end.

(** [\d] on code points below 256 *)
Definition is_digit (c : ascii) : bool :=
  let n := nat_of_ascii c in ((48 <=? n) && (n <=? 57))%nat.

(** [doi:?\s*(10\.\d+/[^\s]+)] with IGNORECASE, at the start of [s]:
    the group.  After each repetition comes a character the repetition
    cannot take, so none gives a character back. *)
Definition doi_group (s : string) : option string :=
  match match_literal true "doi" s with
  | None => None
  | Some after_doi =>
      let after_colon :=
        match after_doi with
        | String c r => if Ascii.eqb c ":" then r else after_doi
        | EmptyString => after_doi
        end in
      match match_literal true "10." (PyStr.lstrip after_colon) with
      | None => None
      | Some after_prefix =>
          let '(registrant, after_digits) := span is_digit after_prefix in
          match registrant, after_digits with
          | String _ _, String c after_slash =>
              if Ascii.eqb c "/" then
                let '(suffix, _) :=
                  span (fun c => negb (PyStr.isspace c)) after_slash in
                match suffix with
                | String _ _ => Some ("10." +:+ registrant +:+ "/" +:+ suffix)
                | EmptyString => None
                end
              else None
          | _, _ => None
          end
      end
  end.

(** [re.search(r'^([^\n]{10,200})', s)] followed by [.group(1)]: at
    most 200 characters of the first line, when it has at least 10. *)
Definition title_group (s : string) : option string :=
  let line := fst (span (fun c => negb (Ascii.eqb c (ascii_of_nat 10))) s) in
  if (10 <=? String.length line)%nat then Some (PyStr.take 200 line) else None.
End Re.

(** * [code_generator.py] *)

Module CodeGenerator.
Section WithRuntime.
Context `{PyRuntime}.
(** [self.client] and [self.templates] *)
Variable client : Gateway.
Variable templates : gmap string string.

(** [methods_by_category]: a [dict] from category to the list of its
    methods, in insertion order of the categories. *)
Definition groups : Type := list (value * list ComputationalMethod.t).

(** The body of the grouping loop, on an entry that is or is not there:
    the first key inserted stays, the method goes to the end of its
    list. *)
Fixpoint add_method (category : value) (method : ComputationalMethod.t)
    (by_category : groups) : groups :=
  match by_category with
  | [] => [(category, [method])]
  | (c, ms) :: rest =>
      if Py.key_eqb category c then (c, ms ++ [method]) :: rest
      else (c, ms) :: add_method category method rest
  end.

(** The grouping loop; a category that cannot be hashed raises. *)
Fixpoint group_methods (methods : list ComputationalMethod.t)
    (by_category : groups) : result groups :=
  match methods with
  | [] => Ok by_category
  | method :: rest =>
      let category := ComputationalMethod.category method in
      if Py.hashable category then
        group_methods rest (add_method category method by_category)
      else Raise (TypeError Unhashable)
  end.

Definition category_mapping : list (string * string) :=
  [("statistical_analysis", "statistical_analysis");
   ("machine_learning", "machine_learning");
   ("bioinformatics", "bioinformatics");
   ("data_analysis", "statistical_analysis");
   ("image_analysis", "statistical_analysis")].

Definition _get_template_for_category (category : value) : string :=
  let template_name :=
    match category with
    | VStr c =>
        match List.find (fun p => String.eqb c (fst p)) category_mapping with
        | Some p => snd p
        | None => "statistical_analysis"
        end
    | _ => "statistical_analysis"
    end in
  match templates !! template_name with
  | Some t => t
  | None => EmptyString
  end.

Definition method_text (method : ComputationalMethod.t) : result string :=
  (tools <- Py.join ", " (ComputationalMethod.software_tools method) ;;
   Ok ("- " +:+ py_str (ComputationalMethod.name method) +:+ ": "
       +:+ py_str (ComputationalMethod.description method) +:+ PyStr.newline
       +:+ "  Tools: " +:+ tools +:+ PyStr.newline
       +:+ "  Parameters: " +:+ py_str (ComputationalMethod.parameters method)
       +:+ PyStr.newline))%res.

Definition dataset_text (dataset : Dataset.t) : string :=
  "- " +:+ py_str (Dataset.name dataset) +:+ ": "
  +:+ py_str (Dataset.description dataset)
  +:+ " (Format: " +:+ py_str (Dataset.format dataset) +:+ ")".

(** [[f"  {i+1}. {step}" for i, step in enumerate(steps)]] *)
Fixpoint numbered_steps (i : nat) (steps : list value) : list string :=
  match steps with
  | [] => []
  | step :: rest =>
      ("  " +:+ pretty (i + 1)%nat +:+ ". " +:+ py_str step)
      :: numbered_steps (S i) rest
  end.

Definition workflow_text (workflow : Workflow.t) : result string :=
  (steps <- Py.iter (Workflow.steps workflow) ;;
   Ok ("- " +:+ py_str (Workflow.name workflow) +:+ ":" +:+ PyStr.newline
       +:+ PyStr.join PyStr.newline (numbered_steps 0 steps)))%res.

Definition _create_code_generation_prompt (category : value)
    (methods : list ComputationalMethod.t)
    (extracted_methods : ExtractedMethods.t)
    (paper_title language template : string) : result string :=
  (method_texts <- Res.traverse method_text methods ;;
   let methods_text := PyStr.join PyStr.newline method_texts in
   let datasets_text :=
     PyStr.join PyStr.newline
       (map dataset_text (ExtractedMethods.datasets extracted_methods)) in
   workflow_texts <-
     Res.traverse workflow_text (ExtractedMethods.workflows extracted_methods) ;;
   let workflows_text := PyStr.join PyStr.newline workflow_texts in
   Ok (MethodExtractor.unlines [
    EmptyString;
    "Generate a complete " +:+ language +:+ " script that reproduces the computational analysis from this research paper.";
    EmptyString;
    "Paper Title: " +:+ paper_title;
    EmptyString;
    "Category: " +:+ py_str category;
    EmptyString;
    "Methods to implement:";
    methods_text;
    EmptyString;
    "Available Datasets:";
    datasets_text;
    EmptyString;
    "Analysis Workflows:";
    workflows_text;
    EmptyString;
    "Template (modify and extend as needed):";
    template;
    EmptyString;
    "Requirements:";
    "1. Create a complete, runnable script in " +:+ language;
    "2. Include all necessary imports and dependencies";
    "3. Implement the specific methods mentioned above";
    "4. Add data loading functions that work with the specified dataset formats";
    "5. Include proper error handling and logging";
    "6. Add visualization functions where appropriate";
    "7. Include parameter settings that match those described in the paper";
    "8. Add comprehensive comments explaining each step";
    "9. Make the code modular and reusable";
    "10. Include example usage at the bottom";
    EmptyString;
    "Return your response in this format:";
    EmptyString;
    "```" +:+ language;
    "[COMPLETE SCRIPT CODE HERE]";
    "```";
    EmptyString;
    "DEPENDENCIES:";
    "[LIST ALL REQUIRED PACKAGES/LIBRARIES]";
    EmptyString;
    "DESCRIPTION:";
    "[BRIEF DESCRIPTION OF WHAT THE SCRIPT DOES]";
    EmptyString;
    "USAGE:";
    "[INSTRUCTIONS ON HOW TO RUN THE SCRIPT]";
    EmptyString;
    "Focus on creating production-ready code that closely follows the methodology described in the paper."
   ]))%res.

(** The first search of the parser.  The requested language is pasted
    into the pattern as it is: when it is plain text the search is the
    one of [Re.tagged_block], otherwise the pattern means what the
    [re] module makes of it. *)
Definition search_tagged_block (language result_text : string)
  : result (option string) :=
  if Re.literal language then
    Ok (Re.search (Re.tagged_block language) result_text)
  else
    re_search_group ("```" +:+ language +:+ "(.*?)```") result_text.

(** [[dep.strip() for dep in deps_text.split('\n') if dep.strip()]] *)
Definition dependency_lines (deps_text : string) : list string :=
  List.filter (fun dep => negb (String.eqb dep EmptyString))
    (map PyStr.strip (PyStr.split (ascii_of_nat 10) deps_text)).

Definition _parse_code_generation_result (result_text : string)
    (category : value) (language : string) : result GeneratedCode.t :=
  (tagged <- search_tagged_block language result_text ;;
   let code_match :=
     match tagged with
     | Some g => Some g
     | None => Re.search Re.any_block result_text
     end in
   let script_content :=
     match code_match with
     | Some g => PyStr.strip g
     | None => result_text
     end in
   let deps_match :=
     Re.search (Re.section_until "DEPENDENCIES:" "DESCRIPTION:") result_text in
   let dependencies :=
     match deps_match with
     | Some g => dependency_lines (PyStr.strip g)
     | None => []
     end in
   let desc_match :=
     Re.search (Re.section_until "DESCRIPTION:" "USAGE:") result_text in
   let description :=
     match desc_match with
     | Some g => PyStr.strip g
     | None => "Generated " +:+ py_str category +:+ " analysis script"
     end in
   let usage_match := Re.search (Re.section_to_end "USAGE:") result_text in
   let usage_instructions :=
     match usage_match with
     | Some g => PyStr.strip g
     | None => "Run the script with your data files"
     end in
   Ok (GeneratedCode.mk script_content language dependencies description
         usage_instructions))%res.

Definition _generate_category_script (category : value)
    (methods : list ComputationalMethod.t)
    (extracted_methods : ExtractedMethods.t)
    (paper_title language : string) : M (option GeneratedCode.t) :=
  let template := _get_template_for_category category in
  (prompt <- Eff.lift (_create_code_generation_prompt category methods
                         extracted_methods paper_title language template) ;;
   Eff.try_except
     (result_text <- Eff.messages_create client (mk_request MODEL 4000 prompt) ;;
      script <- Eff.lift (_parse_code_generation_result result_text category
                            language) ;;
      Eff.ret (Some script))
     (fun e =>
        Eff.print ("Failed to generate code for category "
                   +:+ py_str category +:+ ": " +:+ exn_str e) ;;;
        Eff.ret None))%eff.

(** The loop over [methods_by_category.items()]. *)
Fixpoint generate_scripts (by_category : groups)
    (extracted_methods : ExtractedMethods.t) (paper_title language : string)
    (generated_scripts : list GeneratedCode.t) : M (list GeneratedCode.t) :=
  match by_category with
  | [] => Eff.ret generated_scripts
  | (category, methods) :: rest =>
      (script <- _generate_category_script category methods extracted_methods
                   paper_title language ;;
       generate_scripts rest extracted_methods paper_title language
         (match script with
          | Some sc => generated_scripts ++ [sc]
          | None => generated_scripts
          end))%eff
  end.

Definition generate_code_from_methods (extracted_methods : ExtractedMethods.t)
    (paper_title preferred_language : string) : M (list GeneratedCode.t) :=
  (methods_by_category <-
     Eff.lift (group_methods
                 (ExtractedMethods.computational_methods extracted_methods) []) ;;
   generate_scripts methods_by_category extracted_methods paper_title
     preferred_language [])%eff.

(** What [save_generated_code] writes to the metadata file. *)
Definition metadata_text (generated_code : GeneratedCode.t) : string :=
  "Description: " +:+ GeneratedCode.description generated_code
  +:+ PyStr.newline +:+ PyStr.newline
  +:+ "Dependencies:" +:+ PyStr.newline
  +:+ MethodExtractor.unlines
        (map (fun dep => "- " +:+ dep) (GeneratedCode.dependencies generated_code))
  +:+ PyStr.newline +:+ "Usage Instructions:" +:+ PyStr.newline
  +:+ GeneratedCode.usage_instructions generated_code.

(** The file system the scripts are written to. *)
Variable fs : FileSystem.

Definition save_generated_code (generated_code : GeneratedCode.t)
    (output_dir filename : string) : M (string * string) :=
  (Eff.makedirs fs output_dir ;;;
   let script_path := OsPath.join output_dir (filename +:+ ".py") in
   Eff.open_write fs script_path (GeneratedCode.script_content generated_code) ;;;
   let metadata_path := OsPath.join output_dir (filename +:+ "_metadata.txt") in
   Eff.open_write fs metadata_path (metadata_text generated_code) ;;;
   Eff.ret (script_path, metadata_path))%eff.

(** [all_deps] after the loop over the scripts *)
Definition all_dependencies (generated_scripts : list GeneratedCode.t)
  : gset string :=
  fold_left (fun all_deps script =>
               all_deps ∪ list_to_set (GeneratedCode.dependencies script))
            generated_scripts ∅.

Definition generate_requirements_file (generated_scripts : list GeneratedCode.t)
    (output_path : string) : M string :=
  (Eff.open_write fs output_path
     (MethodExtractor.unlines
        (PyStr.sorted (elements (all_dependencies generated_scripts)))) ;;;
   Eff.ret output_path)%eff.
End WithRuntime.
End CodeGenerator.

(** ** Lists held by reference *)

Module PyList.
(** [l[start:]] *)
Definition slice_from {A} (l : list A) (start : Z) : list A :=
  drop (Z.to_nat (PyStr.clamp start (Z.of_nat (length l)))) l.

(** The list object at a reference.  Every reference the embedded code
    follows is live and of the right class; [well_formed] below says
    so, and outside it a dead reference reads as an empty list. *)
Definition items (h : gmap loc object) (l : loc) : list loc :=
  match h !! l with
  | Some (ListObj xs) => xs
  | _ => []
  end.

Definition exchange_at (h : gmap loc object) (l : loc) : option QAExchange.t :=
  match h !! l with
  | Some (ExchangeObj e) => Some e
  | _ => None
  end.

(** The exchanges a list of references denotes. *)
Definition exchanges (h : gmap loc object) (ls : list loc) : list QAExchange.t :=
  omap (exchange_at h) ls.

Definition load (l : loc) : M (list loc) :=
  fun w => (Ok (items (heap w) l), w).

(** A comprehension whose element expression acts on the world. *)
Fixpoint traverse {A B} (f : A -> M B) (l : list A) : M (list B) :=
  match l with
  | [] => Eff.ret []
  | x :: l' =>
      (y <- f x ;; ys <- traverse f l' ;; Eff.ret (y :: ys))%eff
  end.
End PyList.

(** * [qa_interface.py] *)

Module InteractiveQA.
(** The attributes of the engine; [conversation_history] refers to a
    list object of references to exchange objects. *)
Record t : Type := mk {
  paper_metadata : option PaperMetadata.t;
  extracted_methods : option ExtractedMethods.t;
  conversation_history : loc
}.

Definition GUIDANCE : string :=
  "Please load a paper first before asking questions.".

Definition CONTEXT_USED : string := "paper_content_and_methods".

Definition FALLBACK_QUESTIONS : list string :=
  ["What computational methods were used in this study?";
   "What software tools and programming languages were employed?";
   "How was the data preprocessed?";
   "What were the key parameters used in the analysis?";
   "Is the code available for reproduction?";
   "What datasets were used and where can I access them?";
   "What are the main computational findings?"].

Section WithRuntime.
Context `{PyRuntime}.
(** [self.client] *)
Variable client : Gateway.

Definition unlines := MethodExtractor.unlines.

(** [__init__], after the credential has been found *)
Definition init : M t :=
  (l <- Eff.alloc (ListObj []) ;; Eff.ret (mk None None l))%eff.

Definition load_paper_context (paper_metadata : PaperMetadata.t)
    (extracted_methods : ExtractedMethods.t) (self : t) : t :=
  mk (Some paper_metadata) (Some extracted_methods) (conversation_history self).

(** The exchanges of the history, oldest first. *)
Definition history (self : t) (h : gmap loc object) : list QAExchange.t :=
  PyList.exchanges h (PyList.items h (conversation_history self)).

Definition paper_context (pm : PaperMetadata.t) : string :=
  unlines [
    EmptyString;
    "Paper Title: " +:+ PaperMetadata.title pm;
    "Authors: " +:+ PyStr.join ", " (PaperMetadata.authors pm);
    "Journal: " +:+ PaperMetadata.journal pm +:+ " (" +:+ PaperMetadata.year pm +:+ ")";
    "DOI: " +:+ PaperMetadata.doi pm;
    EmptyString;
    "Abstract:";
    PaperMetadata.abstract pm;
    EmptyString;
    "Full Text (excerpt):";
    PyStr.slice_to (PaperMetadata.full_text pm) 8000 +:+ "  # Limit to avoid token limits"
  ].

Definition method_context (method : ComputationalMethod.t) : result string :=
  (tools <- Py.join ", " (ComputationalMethod.software_tools method) ;;
   languages <- Py.join ", " (ComputationalMethod.programming_languages method) ;;
   Ok (unlines [
     EmptyString;
     "- " +:+ py_str (ComputationalMethod.name method) +:+ ":";
     "  Description: " +:+ py_str (ComputationalMethod.description method);
     "  Software Tools: " +:+ tools;
     "  Programming Languages: " +:+ languages;
     "  Parameters: " +:+ py_str (ComputationalMethod.parameters method);
     "  Category: " +:+ py_str (ComputationalMethod.category method)
   ]))%res.

Definition dataset_context (dataset : Dataset.t) : string :=
  unlines [
    EmptyString;
    "- " +:+ py_str (Dataset.name dataset) +:+ ":";
    "  Description: " +:+ py_str (Dataset.description dataset);
    "  Source: " +:+ py_str (Dataset.source dataset);
    "  Format: " +:+ py_str (Dataset.format dataset)
  ].

(** The separator of the steps is an arrow, written here with the
    characters of its encoding. *)
Definition workflow_context (workflow : Workflow.t) : result string :=
  (steps <- Py.join " → " (Workflow.steps workflow) ;;
   input_data <- Py.join ", " (Workflow.input_data workflow) ;;
   output_data <- Py.join ", " (Workflow.output_data workflow) ;;
   dependencies <- Py.join ", " (Workflow.dependencies workflow) ;;
   Ok (unlines [
     EmptyString;
     "- " +:+ py_str (Workflow.name workflow) +:+ ":";
     "  Steps: " +:+ steps;
     "  Input Data: " +:+ input_data;
     "  Output Data: " +:+ output_data;
     "  Dependencies: " +:+ dependencies
   ]))%res.

Definition exchange_context (exchange : QAExchange.t) : string :=
  "Q: " +:+ py_str (QAExchange.question exchange) +:+ PyStr.newline
  +:+ "A: " +:+ py_str (QAExchange.answer exchange) +:+ PyStr.newline
  +:+ PyStr.newline.

Definition concat_strings (ss : list string) : string :=
  fold_right String.append EmptyString ss.

(** The recent conversation: nothing for an empty history, else the
    last three exchanges, oldest first. *)
Definition history_context (conversation : list QAExchange.t) : string :=
  match conversation with
  | [] => EmptyString
  | _ =>
      "Recent Conversation:" +:+ PyStr.newline
      +:+ concat_strings (map exchange_context (PyList.slice_from conversation (-3)))
  end.

(** The prompt of a question, read off the engine and the store. *)
Definition _create_qa_prompt (self : t) (h : gmap loc object)
    (question : string) : result string :=
  match paper_metadata self, extracted_methods self with
  | Some pm, Some em =>
      (method_contexts <-
         Res.traverse method_context (ExtractedMethods.computational_methods em) ;;
       let methods_context :=
         "Extracted Computational Methods:" +:+ PyStr.newline
         +:+ concat_strings method_contexts in
       let datasets_context :=
         "Datasets Used:" +:+ PyStr.newline
         +:+ concat_strings (map dataset_context (ExtractedMethods.datasets em)) in
       workflow_contexts <-
         Res.traverse workflow_context (ExtractedMethods.workflows em) ;;
       let workflows_context :=
         "Analysis Workflows:" +:+ PyStr.newline
         +:+ concat_strings workflow_contexts in
       key_findings <- Py.join PyStr.newline (ExtractedMethods.key_findings em) ;;
       Ok (unlines [
         EmptyString;
         "You are an expert research assistant helping to answer questions about a scientific paper's methodology and computational approaches.";
         EmptyString;
         paper_context pm;
         EmptyString;
         methods_context;
         EmptyString;
         datasets_context;
         EmptyString;
         workflows_context;
         EmptyString;
         history_context (history self h);
         EmptyString;
         "Key Findings from the Paper:";
         key_findings;
         EmptyString;
         "Reproducibility Notes:";
         py_str (ExtractedMethods.reproducibility_notes em);
         EmptyString;
         "User Question: " +:+ question;
         EmptyString;
         "Please provide a detailed, accurate answer based on the paper's content and methodology. Focus on:";
         "1. Specific methodological details";
         "2. Computational approaches and parameters";
         "3. Data processing steps";
         "4. Software tools and implementations";
         "5. Reproducibility considerations";
         EmptyString;
         "If the question cannot be answered from the provided paper content, clearly state that and suggest what additional information might be needed."
       ]))%res
  | None, _ => Raise (AttributeError "title")
  | Some _, None => Raise (AttributeError "computational_methods")
  end.

Definition _add_to_history (question answer : string) (self : t) : M t :=
  (timestamp <- Eff.now ;;
   exchange <- Eff.alloc (ExchangeObj
                 (QAExchange.mk (VStr question) (VStr answer) (VStr timestamp)
                    CONTEXT_USED)) ;;
   items <- PyList.load (conversation_history self) ;;
   Eff.store (conversation_history self) (ListObj (items ++ [exchange])) ;;;
   items <- PyList.load (conversation_history self) ;;
   if (10 <? length items)%nat then
     (kept <- Eff.alloc (ListObj (PyList.slice_from items (-10))) ;;
      Eff.ret (mk (paper_metadata self) (extracted_methods self) kept))
   else Eff.ret self)%eff.

Definition ask_question (question : string) (self : t) : M (string * t) :=
  match paper_metadata self, extracted_methods self with
  | Some _, Some _ =>
      (prompt <- (fun w => (_create_qa_prompt self (heap w) question, w)) ;;
       Eff.try_except
         (answer <- Eff.messages_create client (mk_request MODEL 2000 prompt) ;;
          self' <- _add_to_history question answer self ;;
          Eff.ret (answer, self'))
         (fun e => Eff.ret ("Error processing question: " +:+ exn_str e, self)))%eff
  | _, _ => Eff.ret (GUIDANCE, self)
  end.

(** [self.conversation_history.copy()]: a new list object with the
    same references. *)
Definition get_conversation_history (self : t) : M loc :=
  (items <- PyList.load (conversation_history self) ;;
   Eff.alloc (ListObj items))%eff.

(** [self.conversation_history.clear()], in place *)
Definition clear_conversation (self : t) : M unit :=
  Eff.store (conversation_history self) (ListObj []).

Definition suggestion_prompt (pm : PaperMetadata.t) (em : ExtractedMethods.t)
  : string :=
  unlines [
    EmptyString;
    "Based on this research paper's methodology and computational approaches, suggest 5-7 relevant questions that would help someone understand or reproduce the research.";
    EmptyString;
    "Paper Title: " +:+ PaperMetadata.title pm;
    EmptyString;
    "Computational Methods:";
    PyStr.join PyStr.newline
      (map (fun method => "- " +:+ py_str (ComputationalMethod.name method) +:+ ": "
                          +:+ py_str (ComputationalMethod.description method))
           (ExtractedMethods.computational_methods em));
    EmptyString;
    "Datasets:";
    PyStr.join PyStr.newline
      (map (fun dataset => "- " +:+ py_str (Dataset.name dataset) +:+ ": "
                           +:+ py_str (Dataset.description dataset))
           (ExtractedMethods.datasets em));
    EmptyString;
    "Workflows:";
    PyStr.join PyStr.newline
      (map (fun workflow => "- " +:+ py_str (Workflow.name workflow))
           (ExtractedMethods.workflows em));
    EmptyString;
    "Generate questions that cover:";
    "1. Methodology clarification";
    "2. Parameter settings";
    "3. Software implementation details";
    "4. Data preprocessing steps";
    "5. Reproducibility aspects";
    "6. Alternative approaches";
    "7. Results interpretation";
    EmptyString;
    "Return only the questions, one per line, without numbering or additional text."
  ].

Definition suggest_questions (self : t) : M (list string) :=
  match paper_metadata self, extracted_methods self with
  | Some pm, Some em =>
      Eff.try_except
        (text <- Eff.messages_create client
                   (mk_request MODEL 1000 (suggestion_prompt pm em)) ;;
         Eff.ret (List.filter (fun q => negb (String.eqb q EmptyString))
                    (map PyStr.strip
                       (PyStr.split (ascii_of_nat 10) (PyStr.strip text)))))%eff
        (fun _ => Eff.ret FALLBACK_QUESTIONS)
  | _, _ => Eff.ret ["Please load a paper first."]
  end.

Definition exchange_record (e : QAExchange.t) : value :=
  VDict [("question", QAExchange.question e);
         ("answer", QAExchange.answer e);
         ("timestamp", QAExchange.timestamp e)].

Definition export_data (self : t) (h : gmap loc object) : value :=
  VDict [
    ("paper_metadata",
      VDict [
        ("title", match paper_metadata self with
                  | Some pm => VStr (PaperMetadata.title pm)
                  | None => VNone
                  end);
        ("authors", match paper_metadata self with
                    | Some pm => VList (map VStr (PaperMetadata.authors pm))
                    | None => VList []
                    end);
        ("doi", match paper_metadata self with
                | Some pm => VStr (PaperMetadata.doi pm)
                | None => VNone
                end)]);
    ("conversation_history", VList (map exchange_record (history self h)))].

Definition export_conversation (output_path : string) (self : t) : M unit :=
  fun w => Eff.write_file output_path (json_encode (export_data self (heap w))) w.

(** One element of the comprehension of [load_conversation]. *)
Definition load_exchange (item : value) : M loc :=
  (question <- Eff.lift (Py.getitem item "question") ;;
   answer <- Eff.lift (Py.getitem item "answer") ;;
   timestamp <- Eff.lift (Py.getitem item "timestamp") ;;
   Eff.alloc (ExchangeObj (QAExchange.mk question answer timestamp CONTEXT_USED)))%eff.

Definition load_conversation (input_path : string) (self : t) : M t :=
  (text <- Eff.read_file input_path ;;
   data <- Eff.lift (json_loads text) ;;
   saved <- Eff.lift (Py.getitem data "conversation_history") ;;
   items <- Eff.lift (Py.iter saved) ;;
   exchanges <- PyList.traverse load_exchange items ;;
   loaded <- Eff.alloc (ListObj exchanges) ;;
   Eff.ret (mk (paper_metadata self) (extracted_methods self) loaded))%eff.
End WithRuntime.
End InteractiveQA.

(** * [paper_ingestion.py] *)

(** ** The documents of [xml.etree.ElementTree] *)

Module ET.
(** An element: its tag, its attributes, the text before its first
    child ([None] when there is none) and its children. *)
Inductive element : Type :=
  | Element (tag : string) (attrib : list (string * string))
            (text : option string) (children : list element).

Definition tag (e : element) : string :=
  match e with Element t _ _ _ => t end.
Definition attrib (e : element) : list (string * string) :=
  match e with Element _ a _ _ => a end.
Definition text (e : element) : option string :=
  match e with Element _ _ t _ => t end.
Definition children (e : element) : list element :=
  match e with Element _ _ _ cs => cs end.

(** The elements below an element, in document order. *)
Fixpoint descendants (e : element) : list element :=
  match e with
  | Element _ _ _ cs => flat_map (fun c => c :: descendants c) cs
  end.

Definition has_tag (name : string) (e : element) : bool :=
  String.eqb (tag e) name.

(** [e.get(key)] *)
Fixpoint get (key : string) (attributes : list (string * string))
  : option string :=
  match attributes with
  | [] => None
  | (k, v) :: rest => if String.eqb k key then Some v else get key rest
  end.

(** [e.findall('.//name')] *)
Definition findall_below (name : string) (e : element) : list element :=
  List.filter (has_tag name) (descendants e).

(** [e.find('.//name')] *)
Definition find_below (name : string) (e : element) : option element :=
  head (findall_below name e).

(** [e.find('.//parent/name')] *)
Definition find_child_below (parent name : string) (e : element)
  : option element :=
  head (flat_map (fun p => List.filter (has_tag name) (children p))
                 (findall_below parent e)).

(** [e.find('.//name[@key="value"]')] *)
Definition find_below_with (name key value : string) (e : element)
  : option element :=
  head (List.filter
          (fun x => match get key (attrib x) with
                    | Some v => String.eqb v value
                    | None => false
                    end)
          (findall_below name e)).

(** [bool(e)]: an element is true when it has children. *)
Definition truthy (e : element) : bool :=
  match children e with [] => false | _ => true end.

(** [e.text], a [str] or [None] *)
Definition text_value (e : element) : value :=
  match text e with
  | Some s => VStr s
  | None => VNone
  end.
End ET.

(** ** The records of the engine *)

(** [PaperMetadata] as the ingestion engine fills it.  The texts come
    out of a document and can be [None]; [PaperMetadata.t] above is the
    record of a paper whose fields have their declared types. *)
Module IngestedPaper.
Record t : Type := mk {
  title : value;
  authors : list value;
  abstract : value;
  doi : value;
  pubmed_id : value;
  journal : value;
  year : value;
  full_text : string
}.
End IngestedPaper.

(** The [dict] [fetch_pubmed_metadata] returns: its keys are fixed. *)
Module PubMedRecord.
Record t : Type := mk {
  title : value;
  authors : list value;
  abstract : value;
  journal : value;
  year : value;
  doi : value
}.
End PubMedRecord.

(** ** The libraries and the network *)

(** One call of [requests.get]. *)
Record web_request : Type := mk_web_request {
  url : string;
  params : list (string * value)
}.

(** [requests.get], [raise_for_status] and [ET.fromstring] on the
    content: the root of the document, or the exception one of the
    three raised.  The answer may depend on the requests made before. *)
Definition Web : Type := list web_request -> web_request -> result ET.element.

(** Computations that may raise and that make requests; the log of the
    requests is threaded through them, oldest first. *)
Definition N (A : Type) : Type := list web_request -> result A * list web_request.

Module Net.
Definition ret {A} (a : A) : N A := fun log => (Ok a, log).

Definition raise {A} (e : exn) : N A := fun log => (Raise e, log).

Definition bind {A B} (m : N A) (k : A -> N B) : N B :=
  fun log =>
    match m log with
    | (Ok a, log') => k a log'
    | (Raise e, log') => (Raise e, log')
    end.

(** [try: m except Exception as e: h e], and the bare [except:] *)
Definition try_except {A} (m : N A) (h : exn -> N A) : N A :=
  fun log =>
    match m log with
    | (Ok a, log') => (Ok a, log')
    | (Raise e, log') => h e log'
    end.

Definition get (web : Web) (req : web_request) : N ET.element :=
  fun log => (web log req, log ++ [req]).
End Net.

Declare Scope net_scope.
Delimit Scope net_scope with net.
Notation "x <- e ;; k" := (Net.bind e (fun x => k))
  (at level 100, e at next level, right associativity) : net_scope.

Module PaperIngestionEngine.
Definition pubmed_base_url : string :=
  "https://eutils.ncbi.nlm.nih.gov/entrez/eutils/".

Definition UNKNOWN_TITLE : string := "Unknown Title".

Section WithLibraries.
Context `{PyRuntime}.
(** [pdfplumber.open(path)] and its pages: the [extract_text] of each
    page, a [str] or [None], or the exception it raised; an exception
    raised on leaving the [with] block counts as that of a last page. *)
Variable pdfplumber : string -> result (list (result (option string))).
(** [open(path, 'rb')], [PyPDF2.PdfReader] and its pages *)
Variable pypdf2 : string -> result (list (result string)).
Variable web : Web.

(** The first loop: the pages in order, until one raises. *)
Fixpoint plumber_pages (pages : list (result (option string))) (text : string)
  : string * option exn :=
  match pages with
  | [] => (text, None)
  | Ok page_text :: rest =>
      plumber_pages rest
        (match page_text with
         | Some t =>
             if String.eqb t EmptyString then text else text +:+ t +:+ PyStr.newline
         | None => text
         end)
  | Raise e :: _ => (text, Some e)
  end.

(** The second loop *)
Fixpoint pypdf2_pages (pages : list (result string)) (text : string)
  : string * option exn :=
  match pages with
  | [] => (text, None)
  | Ok page_text :: rest => pypdf2_pages rest (text +:+ page_text +:+ PyStr.newline)
  | Raise e :: _ => (text, Some e)
  end.

Definition extract_text_from_pdf (pdf_path : string) : result string :=
  let '(text, failure) :=
    match pdfplumber pdf_path with
    | Ok pages => plumber_pages pages EmptyString
    | Raise e => (EmptyString, Some e)
    end in
  match failure with
  | None => Ok (PyStr.strip text)
  | Some _ =>
      let '(text, failure2) :=
        match pypdf2 pdf_path with
        | Ok pages => pypdf2_pages pages text
        | Raise e2 => (text, Some e2)
        end in
      match failure2 with
      | None => Ok (PyStr.strip text)
      | Some e2 =>
          Raise (Exception ("Failed to extract text from PDF: " +:+ exn_str e2))
      end
  end.

(** [found.text if found is not None else ""] *)
Definition text_or_empty (found : option ET.element) : value :=
  match found with
  | Some e => ET.text_value e
  | None => VStr EmptyString
  end.

(** The body of the loop over the authors: the name it appends, if
    any. *)
Definition author_name (author : ET.element) : option value :=
  match ET.find_below "LastName" author with
  | Some last_name =>
      let name := ET.text_value last_name in
      Some (match ET.find_below "ForeName" author with
            | Some first_name =>
                VStr (py_str (ET.text_value first_name) +:+ " " +:+ py_str name)
            | None => name
            end)
  | None => None
  end.

Definition article_record (article : ET.element) : PubMedRecord.t :=
  let title := text_or_empty (ET.find_below "ArticleTitle" article) in
  let abstract := text_or_empty (ET.find_child_below "Abstract" "AbstractText" article) in
  let authors :=
    match ET.find_below "AuthorList" article with
    | Some author_list =>
        if ET.truthy author_list
        then omap author_name (ET.findall_below "Author" author_list)
        else []
    | None => []
    end in
  let journal := text_or_empty (ET.find_child_below "Journal" "Title" article) in
  let year := text_or_empty (ET.find_child_below "PubDate" "Year" article) in
  let doi := text_or_empty (ET.find_below_with "ELocationID" "EIdType" "doi" article) in
  PubMedRecord.mk title authors abstract journal year doi.

Definition fetch_pubmed_metadata (pubmed_id : value) : N PubMedRecord.t :=
  Net.try_except
    (root <- Net.get web
               (mk_web_request (pubmed_base_url +:+ "efetch.fcgi")
                  [("db", VStr "pubmed"); ("id", pubmed_id); ("retmode", VStr "xml")]) ;;
     match ET.find_below "Article" root with
     | None => Net.raise (Exception "Article not found in PubMed response")
     | Some article => Net.ret (article_record article)
     end)%net
    (fun e => Net.raise
       (Exception ("Failed to fetch PubMed metadata: " +:+ exn_str e))).

Definition search_pubmed_by_doi (doi : string) : N value :=
  Net.try_except
    (root <- Net.get web
               (mk_web_request (pubmed_base_url +:+ "esearch.fcgi")
                  [("db", VStr "pubmed");
                   ("term", VStr (PyStr.quoted doi +:+ "[DOI]"));
                   ("retmode", VStr "xml")]) ;;
     match ET.find_below "Id" root with
     | Some id_elem => Net.ret (ET.text_value id_elem)
     | None => Net.raise (Exception "No PubMed ID found for the given DOI")
     end)%net
    (fun e => Net.raise
       (Exception ("Failed to search PubMed by DOI: " +:+ exn_str e))).

(** [a or b] *)
Definition or_else (a b : value) : value := if Py.truthy a then a else b.

(** The record built from the text alone. *)
Definition paper_from_text (full_text doi : string) (pubmed_id : value)
  : IngestedPaper.t :=
  let title :=
    match Re.title_group (PyStr.strip full_text) with
    | Some g => PyStr.strip g
    | None => UNKNOWN_TITLE
    end in
  IngestedPaper.mk (VStr title) [] (VStr EmptyString) (VStr doi) pubmed_id
    (VStr EmptyString) (VStr EmptyString) full_text.

Definition process_pdf_upload (pdf_path : string) : N IngestedPaper.t :=
  match extract_text_from_pdf pdf_path with
  | Raise e => Net.raise e
  | Ok full_text =>
      let doi :=
        match Re.search Re.doi_group full_text with
        | Some g => g
        | None => EmptyString
        end in
      (pubmed_id <-
         (if negb (String.eqb doi EmptyString)
          then Net.try_except (search_pubmed_by_doi doi)
                 (fun _ => Net.ret (VStr EmptyString))
          else Net.ret (VStr EmptyString)) ;;
       if Py.truthy pubmed_id then
         Net.try_except
           (metadata <- fetch_pubmed_metadata pubmed_id ;;
            Net.ret (IngestedPaper.mk (PubMedRecord.title metadata)
                       (PubMedRecord.authors metadata)
                       (PubMedRecord.abstract metadata)
                       (or_else (PubMedRecord.doi metadata) (VStr doi))
                       pubmed_id
                       (PubMedRecord.journal metadata)
                       (PubMedRecord.year metadata)
                       full_text))
           (fun _ => Net.ret (paper_from_text full_text doi pubmed_id))
       else Net.ret (paper_from_text full_text doi pubmed_id))%net
  end.

Definition process_pubmed_id (pubmed_id : value) : N IngestedPaper.t :=
  (metadata <- fetch_pubmed_metadata pubmed_id ;;
   Net.ret (IngestedPaper.mk (PubMedRecord.title metadata)
              (PubMedRecord.authors metadata)
              (PubMedRecord.abstract metadata)
              (PubMedRecord.doi metadata)
              pubmed_id
              (PubMedRecord.journal metadata)
              (PubMedRecord.year metadata)
              EmptyString))%net.

(** The record of a paper of which only the DOI is known. *)
Definition unknown_paper (doi : string) : IngestedPaper.t :=
  IngestedPaper.mk (VStr UNKNOWN_TITLE) [] (VStr EmptyString) (VStr doi)
    (VStr EmptyString) (VStr EmptyString) (VStr EmptyString) EmptyString.

Definition process_doi (doi : string) : N IngestedPaper.t :=
  Net.try_except
    (pubmed_id <- search_pubmed_by_doi doi ;; process_pubmed_id pubmed_id)%net
    (fun _ => Net.ret (unknown_paper doi)).
End WithLibraries.
End PaperIngestionEngine.

(** * The type annotations of the source, as predicates *)

Module Typed.
Definition str (v : value) : bool :=
  match v with VStr _ => true | _ => false end.

(** [Optional[str]] *)
Definition optional_str (v : value) : bool :=
  match v with VNone | VStr _ => true | _ => false end.

(** [List[str]] *)
Definition list_of_str (v : value) : bool :=
  match v with VList items => forallb str items | _ => false end.

(** [Dict[str, str]] *)
Definition dict_of_str (v : value) : bool :=
  match v with VDict d => forallb (fun p => str (snd p)) d | _ => false end.

Definition computational_method (m : ComputationalMethod.t) : bool :=
  str (ComputationalMethod.name m)
  && str (ComputationalMethod.description m)
  && list_of_str (ComputationalMethod.software_tools m)
  && list_of_str (ComputationalMethod.programming_languages m)
  && dict_of_str (ComputationalMethod.parameters m)
  && str (ComputationalMethod.category m).

Definition dataset (d : Dataset.t) : bool :=
  str (Dataset.name d) && str (Dataset.description d)
  && str (Dataset.source d) && str (Dataset.format d)
  && optional_str (Dataset.size d).

Definition workflow (w : Workflow.t) : bool :=
  str (Workflow.name w) && list_of_str (Workflow.steps w)
  && list_of_str (Workflow.input_data w)
  && list_of_str (Workflow.output_data w)
  && list_of_str (Workflow.dependencies w).

Definition extracted_methods (em : ExtractedMethods.t) : bool :=
  forallb computational_method (ExtractedMethods.computational_methods em)
  && forallb dataset (ExtractedMethods.datasets em)
  && forallb workflow (ExtractedMethods.workflows em)
  && list_of_str (ExtractedMethods.key_findings em)
  && str (ExtractedMethods.reproducibility_notes em).
End Typed.

(** * A small runtime, to run the model on concrete inputs

    A decoder and an encoder for the fragment of JSON without fractions,
    exponents and [\u] escapes (a float is written as [NaN], which the
    decoder refuses), a [repr] for values whose strings need no escape,
    and a clock that counts.  It is one instance of [PyRuntime]: the
    general theorems below hold for every instance, and the statements
    about concrete inputs are run on this one. *)

Module Mini.
Definition is_ws (c : ascii) : bool :=
  let n := nat_of_ascii c in
  ((n =? 32) || (n =? 9) || (n =? 10) || (n =? 13))%nat.

Fixpoint skip_ws (s : string) : string :=
  match s with
  | String c s' => if is_ws c then skip_ws s' else s
  | EmptyString => EmptyString
  end.

Definition is_digit (c : ascii) : bool :=
  let n := nat_of_ascii c in ((48 <=? n) && (n <=? 57))%nat.

Fixpoint digits (s : string) (acc : Z) : Z * string :=
  match s with
  | String c s' =>
      if is_digit c then digits s' (10 * acc + Z.of_nat (nat_of_ascii c) - 48)
      else (acc, s)
  | EmptyString => (acc, s)
  end.

Definition is_char (c : ascii) (s : string) : bool :=
  String.eqb (String c EmptyString) s.

Definition unescape (c : ascii) : option ascii :=
  if is_char c PyStr.dq then Some c
  else if is_char c "\" then Some c
  else if is_char c "/" then Some c
  else if is_char c "n" then Some (ascii_of_nat 10)
  else if is_char c "t" then Some (ascii_of_nat 9)
  else if is_char c "r" then Some (ascii_of_nat 13)
  else if is_char c "b" then Some (ascii_of_nat 8)
  else if is_char c "f" then Some (ascii_of_nat 12)
  else None.

(** The characters of a string literal, after its opening quote. *)
Fixpoint string_body (s : string) : option (string * string) :=
  match s with
  | EmptyString => None
  | String c r =>
      if is_char c PyStr.dq then Some (EmptyString, r)
      else if is_char c "\" then
        match r with
        | String e r' =>
            match unescape e, string_body r' with
            | Some ch, Some (b, rest) => Some (String ch b, rest)
            | _, _ => None
            end
        | EmptyString => None
        end
      else
        match string_body r with
        | Some (b, rest) => Some (String c b, rest)
        | None => None
        end
  end.

Definition number (negative : bool) (s : string) : option (value * string) :=
  match s with
  | String c _ =>
      if is_digit c then
        let '(n, rest) := digits s 0 in
        match rest with
        | String d _ =>
            if is_char d "." || is_char d "e" || is_char d "E" then None
            else Some (VInt (if negative then - n else n), rest)
        | EmptyString => Some (VInt (if negative then - n else n), rest)
        end
      else None
  | EmptyString => None
  end.

(** A repeated key keeps its place and takes the last value. *)
Fixpoint dict_set (k : string) (v : value) (d : dict) : dict :=
  match d with
  | [] => [(k, v)]
  | (k', v') :: d' =>
      if String.eqb k k' then (k', v) :: d' else (k', v') :: dict_set k v d'
  end.

Definition keyword (word : string) (v : value) (s : string)
  : option (value * string) :=
  match Re.match_literal false word s with
  | Some rest => Some (v, rest)
  | None => None
  end.

Fixpoint pvalue (fuel : nat) (s : string) : option (value * string) :=
  match fuel with
  | O => None
  | S fuel' =>
      match skip_ws s with
      | EmptyString => None
      | String c r =>
          if is_char c "n" then keyword "ull" VNone r
          else if is_char c "t" then keyword "rue" (VBool true) r
          else if is_char c "f" then keyword "alse" (VBool false) r
          else if is_char c PyStr.dq then
            match string_body r with
            | Some (str, rest) => Some (VStr str, rest)
            | None => None
            end
          else if is_char c "[" then
            match skip_ws r with
            | String c' r' =>
                if is_char c' "]" then Some (VList [], r')
                else match pelements fuel' r with
                     | Some (items, rest) => Some (VList items, rest)
                     | None => None
                     end
            | EmptyString => None
            end
          else if is_char c "{" then
            match skip_ws r with
            | String c' r' =>
                if is_char c' "}" then Some (VDict [], r')
                else match pmembers fuel' r [] with
                     | Some (d, rest) => Some (VDict d, rest)
                     | None => None
                     end
            | EmptyString => None
            end
          else if is_char c "-" then number true r
          else number false (String c r)
      end
  end
with pelements (fuel : nat) (s : string) : option (list value * string) :=
  match fuel with
  | O => None
  | S fuel' =>
      match pvalue fuel' s with
      | Some (v, r) =>
          match skip_ws r with
          | String c r' =>
              if is_char c "," then
                match pelements fuel' r' with
                | Some (vs, rest) => Some (v :: vs, rest)
                | None => None
                end
              else if is_char c "]" then Some ([v], r')
              else None
          | EmptyString => None
          end
      | None => None
      end
  end
with pmembers (fuel : nat) (s : string) (acc : dict) : option (dict * string) :=
  match fuel with
  | O => None
  | S fuel' =>
      match skip_ws s with
      | String q r =>
          if is_char q PyStr.dq then
            match string_body r with
            | Some (k, r1) =>
                match skip_ws r1 with
                | String c r2 =>
                    if is_char c ":" then
                      match pvalue fuel' r2 with
                      | Some (v, r3) =>
                          match skip_ws r3 with
                          | String c' r4 =>
                              if is_char c' "," then
                                pmembers fuel' r4 (dict_set k v acc)
                              else if is_char c' "}" then
                                Some (dict_set k v acc, r4)
                              else None
                          | EmptyString => None
                          end
                      | None => None
                      end
                    else None
                | EmptyString => None
                end
            | None => None
            end
          else None
      | EmptyString => None
      end
  end.

Definition decode (s : string) : string + value :=
  match pvalue (2 * String.length s + 2) s with
  | Some (v, rest) =>
      match skip_ws rest with
      | EmptyString => inr v
      | _ => inl "Extra data"
      end
  | None => inl "Expecting value"
  end.

Fixpoint escape (s : string) : string :=
  match s with
  | EmptyString => EmptyString
  | String c s' =>
      if is_char c PyStr.dq || is_char c "\" then
        String "\" (String c (escape s'))
      else if Ascii.eqb c (ascii_of_nat 10) then "\n" +:+ escape s'
      else String c (escape s')
  end.

Fixpoint encode (v : value) : string :=
  match v with
  | VNone => "null"
  | VBool true => "true"
  | VBool false => "false"
  | VInt n => pretty n
  | VFloat _ => "NaN"
  | VStr s => PyStr.quoted (escape s)
  | VList items => "[" +:+ PyStr.join ", " (map encode items) +:+ "]"
  | VDict d =>
      "{" +:+ PyStr.join ", "
                (map (fun p => PyStr.quoted (escape (fst p)) +:+ ": "
                               +:+ encode (snd p)) d)
      +:+ "}"
  end.

Fixpoint repr (v : value) : string :=
  match v with
  | VNone => "None"
  | VBool true => "True"
  | VBool false => "False"
  | VInt n => pretty n
  | VFloat _ => "nan"
  | VStr s => "'" +:+ s +:+ "'"
  | VList items => "[" +:+ PyStr.join ", " (map repr items) +:+ "]"
  | VDict d =>
      "{" +:+ PyStr.join ", "
                (map (fun p => "'" +:+ fst p +:+ "': " +:+ repr (snd p)) d)
      +:+ "}"
  end.

Definition message (e : exn) : string :=
  match e with
  | Exception msg | ValueError msg | JSONDecodeError msg
  | ReError msg | APIError msg => msg
  | KeyError key => "'" +:+ key +:+ "'"
  | AttributeError attr => "object has no attribute '" +:+ attr +:+ "'"
  | FileNotFoundError path => "No such file or directory: '" +:+ path +:+ "'"
  | TypeError _ => "bad operand or call"
  end.

Definition runtime : PyRuntime := {|
  json_decode := decode;
  json_encode := encode;
  py_repr := repr;
  interp_message := message;
  isoformat := fun n => "T" +:+ pretty n;
  re_search_group := fun _ _ => Raise (ReError "pattern outside the fragment")
|}.

(** A service that always answers [text]. *)
Definition answering (text : string) : Gateway := fun _ _ => Reply text.

(** A service that is down. *)
Definition failing (msg : string) : Gateway :=
  fun _ _ => Failure (APIError msg).

Definition empty_world : World := mk_world [] ∅ [] 0%nat ∅.
End Mini.

(** * Vocabulary of the statements *)

(** The character [c] occurs in [s]. *)
Definition occurs (c : ascii) (s : string) : Prop :=
  In c (list_ascii_of_string s).

(** The text from the first opening brace to the last closing brace of a
    reply: what [_parse_extraction_result] hands to [json.loads]. *)
Definition embedded_json (reply : string) : string :=
  PyStr.slice reply (PyStr.find reply "{") (PyStr.rfind reply "}" + 1).

(** The request [extract_methods] makes for a paper. *)
Definition extraction_request (paper_text paper_title : string) : request :=
  mk_request MODEL 4000
    (MethodExtractor._create_extraction_prompt paper_text paper_title).

(** The three kinds of items of an extraction reply. *)
Inductive item_class : Type := MethodItem | DatasetItem | WorkflowItem.

Definition class_key (c : item_class) : string :=
  match c with
  | MethodItem => "computational_methods"
  | DatasetItem => "datasets"
  | WorkflowItem => "workflows"
  end.

Definition class_signature (c : item_class) : Py.signature :=
  match c with
  | MethodItem => ComputationalMethod.signature
  | DatasetItem => Dataset.signature
  | WorkflowItem => Workflow.signature
  end.

(** The dataclass of the kind can be built from the item. *)
Definition constructs (c : item_class) (item : value) : bool :=
  match c with
  | MethodItem => is_ok (ComputationalMethod.init item)
  | DatasetItem => is_ok (Dataset.init item)
  | WorkflowItem => is_ok (Workflow.init item)
  end.

(** Every item of the list under the key of the kind can be built, when
    the key is there. *)
Definition items_construct (c : item_class) (data : dict) : Prop :=
  forall v, dict_lookup (class_key c) data = Some v ->
    match c with
    | MethodItem => is_ok (MethodExtractor.construct_all ComputationalMethod.init v)
    | DatasetItem => is_ok (MethodExtractor.construct_all Dataset.init v)
    | WorkflowItem => is_ok (MethodExtractor.construct_all Workflow.init v)
    end = true.

(** [data.get(key, default)] on a [dict]. *)
Definition field_or (data : dict) (key : string) (default : value) : value :=
  match dict_lookup key data with
  | Some x => x
  | None => default
  end.
(** A reply with one well-formed dataset and nothing else. *)
Definition reply_one_dataset : string :=
  let q := PyStr.quoted in
  "Here is the result: {" +:+ q "datasets" +:+ ": [{"
  +:+ q "name" +:+ ": " +:+ q "GEO" +:+ ", "
  +:+ q "description" +:+ ": " +:+ q "expression" +:+ ", "
  +:+ q "source" +:+ ": " +:+ q "NCBI" +:+ ", "
  +:+ q "format" +:+ ": " +:+ q "csv" +:+ "}]} Done.".

(** A reply whose one dataset has a misnamed field. *)
Definition reply_misnamed_field : string :=
  let q := PyStr.quoted in
  "{" +:+ q "datasets" +:+ ": [{" +:+ q "nme" +:+ ": " +:+ q "GEO" +:+ "}]}".

(** The result with nothing in it. *)
Definition empty_result : ExtractedMethods.t :=
  ExtractedMethods.mk [] [] [] (VList []) (VStr EmptyString).

(** A result with one item of each kind. *)
Definition sample_result : ExtractedMethods.t :=
  ExtractedMethods.mk
    [ComputationalMethod.mk (VStr "t-test") (VStr "two-sample test")
       (VList [VStr "R"; VStr "scipy"]) (VList [VStr "R"; VStr "python"])
       (VDict [("alpha", VStr "0.05")]) (VStr "statistical_analysis")]
    [Dataset.mk (VStr "GEO") (VStr "expression") (VStr "NCBI") (VStr "csv") VNone;
     Dataset.mk (VStr "TCGA") (VStr "cohort") (VStr "GDC") (VStr "tsv") (VStr "2 GB")]
    [Workflow.mk (VStr "qc") (VList [VStr "trim"; VStr "align"])
       (VList [VStr "reads"]) (VList [VStr "counts"]) (VList [VStr "samtools"])]
    (VList [VStr "expression differs"])
    (VStr "code on request").

(** ** Grouping, as a specification *)

(** The method is filed under the key [k]. *)
Definition in_category (k : value) (m : ComputationalMethod.t) : bool :=
  Py.key_eqb (ComputationalMethod.category m) k.

(** The categories in order of first occurrence: scanning from the
    left, a category is kept when no equal one was kept before. *)
Definition first_occurrences (categories : list value) : list value :=
  fold_left (fun kept c => if existsb (Py.key_eqb c) kept then kept else kept ++ [c])
            categories [].

(** One group per distinct category, in order of first occurrence, each
    with the methods of the category in their original order. *)
Definition grouped (methods : list ComputationalMethod.t)
  : list (value * list ComputationalMethod.t) :=
  map (fun k => (k, List.filter (in_category k) methods))
      (first_occurrences (map ComputationalMethod.category methods)).

(** No key of the list equals an earlier one. *)
Fixpoint distinct_keys (ks : list value) : Prop :=
  match ks with
  | [] => True
  | k :: rest => (forall k', In k' rest -> Py.key_eqb k' k = false) /\ distinct_keys rest
  end.

(** The value can be a key: it is hashable. *)
Definition comparable (v : value) : bool :=
  match Py.key_of v with
  | Some _ => true
  | None => false
  end.

(** ** The generation calls, as a specification *)

(** The request [_generate_category_script] makes for a group; building
    its prompt may raise. *)
Definition generation_request `{PyRuntime} (templates : gmap string string)
    (em : ExtractedMethods.t) (paper_title language : string)
    (g : value * list ComputationalMethod.t) : result request :=
  (prompt <- CodeGenerator._create_code_generation_prompt (fst g) (snd g) em
               paper_title language
               (CodeGenerator._get_template_for_category templates (fst g)) ;;
   Ok (mk_request MODEL 4000 prompt))%res.

(** The answers of the service to requests made one after the other. *)
Fixpoint replies_in_sequence (client : Gateway) (log reqs : list request)
  : list reply :=
  match reqs with
  | [] => []
  | req :: rest => client log req :: replies_in_sequence client (log ++ [req]) rest
  end.

(** What the generation call of a category contributes: the script
    parsed from the reply, or nothing when the call or the parsing
    raised. *)
Definition category_outcome `{PyRuntime} (language : string) (category : value)
    (r : reply) : option GeneratedCode.t :=
  match r with
  | Reply text =>
      match CodeGenerator._parse_code_generation_result text category language with
      | Ok script => Some script
      | Raise _ => None
      end
  | Failure _ => None
  end.

(** The outcomes of the groups, in the order of the groups. *)
Definition category_outcomes `{PyRuntime} (client : Gateway) (language : string)
    (log : list request) (gs : list (value * list ComputationalMethod.t))
    (reqs : list request) : list (option GeneratedCode.t) :=
  zip_with (fun g r => category_outcome language (fst g) r) gs
           (replies_in_sequence client log reqs).

(** The scripts among the outcomes, in order. *)
Definition scripts_of (outcomes : list (option GeneratedCode.t))
  : list GeneratedCode.t :=
  omap id outcomes.

(** ** Sample inputs of the code generator *)

Definition method_in (name category : string) : ComputationalMethod.t :=
  ComputationalMethod.mk (VStr name) (VStr "a method") (VList [VStr "R"])
    (VList [VStr "R"]) (VDict []) (VStr category).

(** The methods A (category X), B (category Y), C (category X). *)
Definition three_methods : ExtractedMethods.t :=
  ExtractedMethods.mk
    [method_in "A" "statistical_analysis"; method_in "B" "machine_learning";
     method_in "C" "statistical_analysis"]
    [] [] (VList []) (VStr EmptyString).

(** A reply in the format the prompt asks for. *)
Definition formatted_reply : string :=
"```python
print(1)
```

DEPENDENCIES:
numpy
pandas

DESCRIPTION:
Prints one.

USAGE:
python script.py
".

Definition formatted_script : GeneratedCode.t :=
  GeneratedCode.mk "print(1)" "python" ["numpy"; "pandas"] "Prints one."
    "python script.py".

(** A service that answers [text], except to its call number [n], counted
    from 0, which fails. *)
Definition answering_except (n : nat) (text : string) : Gateway :=
  fun log _ =>
    if (length log =? n)%nat then Failure (APIError "service unavailable")
    else Reply text.

(** ** The format of a generation reply, as a specification *)

(** The text [t] is the text [p], up to the case of letters when [ci]. *)
Definition same_text (ci : bool) (p t : string) : Prop :=
  Re.match_literal ci p t = Some EmptyString.

(** The reply holds a fenced block that opens with [opener] and whose
    content is [body]. *)
Definition block (ci : bool) (opener reply body : string) : Prop :=
  exists pre tag post,
    reply = pre +:+ tag +:+ body +:+ Re.fence +:+ post /\ same_text ci opener tag.

Definition has_block (ci : bool) (opener reply : string) : Prop :=
  exists body, block ci opener reply body.

(** The reply holds the label, in any case of its letters. *)
Definition mentions (label reply : string) : Prop :=
  exists pre tag post, reply = pre +:+ tag +:+ post /\ same_text true label tag.


(** ** The engine and its store, as a specification *)

(** The history attribute refers to a live list object, and every
    reference in it to a live exchange object. *)
Definition well_formed (self : InteractiveQA.t) (h : gmap loc object) : Prop :=
  exists items,
    h !! InteractiveQA.conversation_history self = Some (ListObj items)
    /\ Forall (fun l => exists e, h !! l = Some (ExchangeObj e)) items.

(** The request [ask_question] makes for a prompt. *)
Definition question_request (prompt : string) : request :=
  mk_request MODEL 2000 prompt.

(** A paper. *)
Definition sample_paper : PaperMetadata.t :=
  PaperMetadata.mk "A study" ["A. Author"; "B. Author"] "An abstract."
    "10.1000/x" "12345" "A journal" "2024" "The full text.".

(** The references [items] denote the exchanges [exs] in the store. *)
Definition denotes (h : gmap loc object) (items : list loc)
    (exs : list QAExchange.t) : Prop :=
  Forall2 (fun l e => h !! l = Some (ExchangeObj e)) items exs.

(** The history of the engine is the sequence [exs]. *)
Definition holds (self : InteractiveQA.t) (h : gmap loc object)
    (exs : list QAExchange.t) : Prop :=
  exists items,
    h !! InteractiveQA.conversation_history self = Some (ListObj items)
    /\ denotes h items exs.

(** The exchange [_add_to_history] records. *)
Definition recorded `{PyRuntime} (question answer : string) (time : nat)
  : QAExchange.t :=
  QAExchange.mk (VStr question) (VStr answer) (VStr (isoformat time))
    InteractiveQA.CONTEXT_USED.

(** The sequence a caller of [get_conversation_history] sees. *)
Definition history_returned (self : InteractiveQA.t) (w : World)
  : list QAExchange.t :=
  match InteractiveQA.get_conversation_history self w with
  | (Ok l, w') => PyList.exchanges (heap w') (PyList.items (heap w') l)
  | (Raise _, _) => []
  end.

(** Questions asked one after the other; the engine and the world after
    the last one, and the answers. *)
Fixpoint ask_each `{PyRuntime} (client : Gateway) (questions : list string)
    (self : InteractiveQA.t) (w : World)
  : list string * InteractiveQA.t * World :=
  match questions with
  | [] => ([], self, w)
  | question :: rest =>
      match InteractiveQA.ask_question client question self w with
      | (Ok (answer, self'), w') =>
          let '(answers, self'', w'') := ask_each client rest self' w' in
          (answer :: answers, self'', w'')
      | (Raise _, w') => ([], self, w')
      end
  end.

(** The service answers every request. *)
Definition always_answers (client : Gateway) : Prop :=
  forall log req, exists text, client log req = Reply text.

(** The exchanges recorded for questions asked from a reading of the
    clock on, with their answers. *)
Fixpoint recorded_all `{PyRuntime} (questions answers : list string) (time : nat)
  : list QAExchange.t :=
  match questions, answers with
  | question :: qs, answer :: ans =>
      recorded question answer time :: recorded_all qs ans (S time)
  | _, _ => []
  end.

(** The exchange [load_conversation] builds from a saved item. *)
Definition loaded_exchange (item : value) : option QAExchange.t :=
  match Py.getitem item "question", Py.getitem item "answer",
        Py.getitem item "timestamp" with
  | Ok question, Ok answer, Ok timestamp =>
      Some (QAExchange.mk question answer timestamp InteractiveQA.CONTEXT_USED)
  | _, _, _ => None
  end.

(** ** A saved conversation *)

Definition saved_exchange (n : nat) : value :=
  VDict [("question", VStr ("question " +:+ pretty n));
         ("answer", VStr ("answer " +:+ pretty n));
         ("timestamp", VStr ("T" +:+ pretty n))].

(** The document of a conversation of [n] exchanges. *)
Definition saved_conversation (n : nat) : value :=
  VDict [("paper_metadata",
          VDict [("title", VNone); ("authors", VList []); ("doi", VNone)]);
         ("conversation_history", VList (map saved_exchange (seq 1 n)))].

(** An engine just made, and a world that holds it and one file. *)
Definition new_engine : InteractiveQA.t := InteractiveQA.mk None None 0%nat.

Definition world_with_file (path : string) (doc : value) : World :=
  mk_world [] {[ path := Mini.encode doc ]} [] 0%nat {[ 0%nat := ListObj [] ]}.

(** The engine and the world after two questions, both answered. *)
Definition after_two_questions : list string * InteractiveQA.t * World :=
  @ask_each Mini.runtime (Mini.answering "Yes.") ["first"; "second"]
    (InteractiveQA.load_paper_context sample_paper sample_result new_engine)
    (world_with_file "chat.json" (saved_conversation 0)).

(** The stores a caller can reach from [h] without touching its objects:
    the caller may do anything to objects made later. *)
Definition extends_untouched (h h2 : gmap loc object) : Prop :=
  forall k, k ∈ dom h -> h2 !! k = h !! k.

(** ** A result off its declared types *)

(** A result as the parser can return it: the reply gave [null] for the
    tools of the method. *)
Definition untyped_result : ExtractedMethods.t :=
  ExtractedMethods.mk
    [ComputationalMethod.mk (VStr "t-test") (VStr "two-sample test") VNone
       (VList [VStr "R"]) (VDict []) (VStr "statistical_analysis")]
    [] [] (VList []) (VStr EmptyString).



(** A line as the parser keeps it: not empty, without spaces around it
    and without a line break. *)
Definition clean_line (s : string) : Prop :=
  s <> EmptyString /\ PyStr.strip s = s /\ ~ occurs (ascii_of_nat 10) s.

(** A method filed under a list of categories, as a reply can give it. *)
Definition method_under_list : ComputationalMethod.t :=
  ComputationalMethod.mk (VStr "t-test") (VStr "a method") (VList [VStr "R"])
    (VList [VStr "R"]) (VDict [])
    (VList [VStr "statistical_analysis"; VStr "machine_learning"]).

(** Two scripts that share a package. *)
Definition two_scripts : list GeneratedCode.t :=
  [GeneratedCode.mk "import numpy" "python" ["numpy"; "pandas"] "First." "Run it.";
   GeneratedCode.mk "import Bio" "python" ["pandas"; "Bio"; "numpy"] "Second." "Run it."].

(** A file system with the one directory [dir]: [makedirs] succeeds on
    it alone, and a file can be opened for writing when it stands in
    [dir] itself. *)
Definition one_directory (dir : string) : FileSystem :=
  fun _ op =>
    match op with
    | MakeDirs path =>
        if String.eqb path dir then None else Some (FileNotFoundError path)
    | OpenWrite path =>
        match Re.match_literal false (dir +:+ "/") path with
        | Some name =>
            if existsb (Ascii.eqb "/") (list_ascii_of_string name)
            then Some (FileNotFoundError path)
            else None
        | None => Some (FileNotFoundError path)
        end
    end.

(** The text of a reply up to its sections: an introduction, the fenced
    block with its tag and its code, and what follows the block. *)
Definition reply_head (language intro code between : string) : string :=
  intro +:+ Re.fence +:+ language +:+ code +:+ Re.fence +:+ between.

(** A reply in the format the prompt asks for. *)
Definition formatted (language intro code between deps desc usage : string)
  : string :=
  reply_head language intro code between
  +:+ "DEPENDENCIES:" +:+ deps +:+ "DESCRIPTION:" +:+ desc +:+ "USAGE:" +:+ usage.

(** No end of the label is also a start of it: two occurrences of the
    label cannot overlap. *)
Definition unbordered (label : string) : bool :=
  forallb (fun k => negb (Re.looking_at true (PyStr.drop k label) label))
          (seq 1 (String.length label - 1)).

(** The line [_generate_category_script] prints for a category: none
    when its call succeeded and its reply was parsed. *)
Definition failure_line `{PyRuntime} (language : string) (category : value)
    (r : reply) : option string :=
  let line e :=
    "Failed to generate code for category " +:+ py_str category +:+ ": "
    +:+ exn_str e in
  match r with
  | Failure e => Some (line e)
  | Reply text =>
      match CodeGenerator._parse_code_generation_result text category language with
      | Ok _ => None
      | Raise e => Some (line e)
      end
  end.

(** The lines printed for the groups, in the order of the groups. *)
Definition failure_lines `{PyRuntime} (client : Gateway) (language : string)
    (log : list request) (gs : list (value * list ComputationalMethod.t))
    (reqs : list request) : list string :=
  omap id (zip_with (fun g r => failure_line language (fst g) r) gs
             (replies_in_sequence client log reqs)).

(** The request [suggest_questions] makes for a context. *)
Definition suggestion_request `{PyRuntime} (pm : PaperMetadata.t)
    (em : ExtractedMethods.t) : request :=
  mk_request MODEL 1000 (InteractiveQA.suggestion_prompt pm em).

(** Every exchange was recorded by the engine. *)
Definition recorded_by_engine (exs : list QAExchange.t) : Prop :=
  Forall (fun e => QAExchange.context_used e = InteractiveQA.CONTEXT_USED) exs.

(** The paper with another full text. *)
Definition with_full_text (pm : PaperMetadata.t) (full_text : string)
  : PaperMetadata.t :=
  PaperMetadata.mk (PaperMetadata.title pm) (PaperMetadata.authors pm)
    (PaperMetadata.abstract pm) (PaperMetadata.doi pm) (PaperMetadata.pubmed_id pm)
    (PaperMetadata.journal pm) (PaperMetadata.year pm) full_text.

(** An exchange as the engine records it. *)
Definition sample_exchange (n : nat) : QAExchange.t :=
  QAExchange.mk (VStr ("question " +:+ pretty n)) (VStr ("answer " +:+ pretty n))
    (VStr ("T" +:+ pretty n)) InteractiveQA.CONTEXT_USED.

(** A store that holds a history: the list object at the reference of
    [new_engine], the exchanges at the references after it. *)
Definition store_of (exs : list QAExchange.t) : gmap loc object :=
  <[0%nat := ListObj (seq 1 (length exs))]>
    (list_to_map (zip (seq 1 (length exs)) (map ExchangeObj exs))).

Definition world_of (exs : list QAExchange.t) : World :=
  mk_world [] ∅ [] 0%nat (store_of exs).

(** A saved conversation whose one item has no answer. *)
Definition conversation_without_answer : value :=
  VDict [("conversation_history",
          VList [saved_exchange 1; VDict [("question", VStr "question 2")]])].

(** ** The ingestion of papers, as a specification *)

(** The text of pages that were read: each text that is not empty,
    followed by a line break. *)
Definition page_lines (pages : list (option string)) : string :=
  fold_right
    (fun page rest =>
       match page with
       | Some t => if String.eqb t EmptyString then rest else t +:+ PyStr.newline +:+ rest
       | None => rest
       end)
    EmptyString pages.

(** The request [search_pubmed_by_doi] makes. *)
Definition search_request (doi : string) : web_request :=
  mk_web_request "https://eutils.ncbi.nlm.nih.gov/entrez/eutils/esearch.fcgi"
    [("db", VStr "pubmed"); ("term", VStr (PyStr.quoted doi +:+ "[DOI]"));
     ("retmode", VStr "xml")].

(** The request [fetch_pubmed_metadata] makes. *)
Definition fetch_request (pubmed_id : value) : web_request :=
  mk_web_request "https://eutils.ncbi.nlm.nih.gov/entrez/eutils/efetch.fcgi"
    [("db", VStr "pubmed"); ("id", pubmed_id); ("retmode", VStr "xml")].

(** The paper made of a record of PubMed. *)
Definition paper_of_record (r : PubMedRecord.t) (doi pubmed_id : value)
    (full_text : string) : IngestedPaper.t :=
  IngestedPaper.mk (PubMedRecord.title r) (PubMedRecord.authors r)
    (PubMedRecord.abstract r) doi pubmed_id (PubMedRecord.journal r)
    (PubMedRecord.year r) full_text.

(** A PDF reader that fails, and one that reads pages. *)
Definition unreadable {A} (msg : string) : string -> result (list (result A)) :=
  fun _ => Raise (Exception msg).

Definition reads {A} (pages : list (result A)) : string -> result (list (result A)) :=
  fun _ => Ok pages.

(** A network that is down. *)
Definition offline : Web := fun _ _ => Raise (APIError "no network").


(** An author as PubMed lists one: a person with a last name and a
    fore name, a person with a last name only, or a group. *)
Inductive listed_author : Type :=
  | Person (last_name fore_name : string)
  | Surname (last_name : string)
  | Collective (name : string).

Definition leaf (tag text : string) : ET.element :=
  ET.Element tag [] (Some text) [].

Definition author_element (a : listed_author) : ET.element :=
  match a with
  | Person l f =>
      ET.Element "Author" [("ValidYN", "Y")] None
        [leaf "LastName" l; leaf "ForeName" f]
  | Surname l => ET.Element "Author" [("ValidYN", "Y")] None [leaf "LastName" l]
  | Collective n =>
      ET.Element "Author" [("ValidYN", "Y")] None [leaf "CollectiveName" n]
  end.

Definition listed_name (a : listed_author) : option value :=
  match a with
  | Person l f => Some (VStr (f +:+ " " +:+ l))
  | Surname l => Some (VStr l)
  | Collective _ => None
  end.

(** No element named [name] at or below [e]. *)
Definition without_tag (name : string) (e : ET.element) : Prop :=
  List.filter (ET.has_tag name) (e :: ET.descendants e) = [].

(** An answer of PubMed to a search, and one to a lookup. *)
Definition search_answer (pubmed_id : string) : ET.element :=
  ET.Element "eSearchResult" [] None
    [leaf "Count" "1";
     ET.Element "IdList" [] None [leaf "Id" pubmed_id]].

Definition sample_article : ET.element :=
  ET.Element "Article" [("PubModel", "Print")] None
    [ET.Element "Journal" [] None
       [leaf "Title" "Journal of Examples";
        ET.Element "JournalIssue" [] None
          [ET.Element "PubDate" [] None [leaf "Year" "2021"]]];
     leaf "ArticleTitle" "A study of examples";
     ET.Element "Abstract" [] None [leaf "AbstractText" "We study examples."];
     ET.Element "AuthorList" [("CompleteYN", "Y")] None
       (map author_element
          [Person "Lovelace" "Ada"; Collective "The Example Group"; Surname "Turing"])].

Definition lookup_answer (article : ET.element) : ET.element :=
  ET.Element "PubmedArticleSet" [] None
    [ET.Element "PubmedArticle" [] None
       [ET.Element "MedlineCitation" [] None [leaf "PMID" "12345"; article]]].

(** A network on which PubMed knows one paper. *)
Definition sample_pubmed : Web :=
  fun _ req =>
    if String.eqb (url req) "https://eutils.ncbi.nlm.nih.gov/entrez/eutils/esearch.fcgi"
    then Ok (search_answer "12345")
    else Ok (lookup_answer sample_article).


(** Every character of [s] is in the class. *)
Definition all_chars (class : ascii -> bool) (s : string) : bool :=
  forallb class (list_ascii_of_string s).

(** The first line of a text. *)
Definition first_line (s : string) : string :=
  hd EmptyString (PyStr.split (ascii_of_nat 10) s).

(** * Properties of the pipelines *)

(** * [str.find] and [str.rfind] *)

Section StringFacts.
Lemma prefix_char c s :
  String.prefix (String c EmptyString) s = true <->
  exists s', s = String c s'.
Proof.
  destruct s as [|a s']; simpl.
  - split; [discriminate | intros [? ?]; discriminate].
  - destruct (ascii_dec c a) as [->|Hne].
    + destruct s'; split; eauto.
    + split; [discriminate | intros [? Heq]; congruence].
Qed.

Lemma find_from_char c s : forall i,
  0 <= i ->
  (PyStr.find_from (String c EmptyString) s i = -1 /\ ~ occurs c s)
  \/ (i <= PyStr.find_from (String c EmptyString) s i /\ occurs c s).
Proof.
  induction s as [|a s' IH]; intros i Hi.
  - left. split; [reflexivity | intros []].
  - cbn [PyStr.find_from].
    destruct (String.prefix (String c EmptyString) (String a s')) eqn:Hp.
    + right. apply prefix_char in Hp as [? Heq]. injection Heq as -> ->.
      split; [lia | left; reflexivity].
    + destruct (IH (i + 1)) as [[-> Hno]|[Hle Hyes]]; [lia | |].
      * left. split; [reflexivity|].
        intros [Heq|Hin]; [|exact (Hno Hin)].
        rewrite (proj2 (prefix_char c (String a s'))) in Hp;
          [discriminate | subst; eauto].
      * right. split; [lia | right; exact Hyes].
Qed.

Lemma find_char_absent c s :
  ~ occurs c s -> PyStr.find s (String c EmptyString) = -1.
Proof.
  intros Hno. destruct (find_from_char c s 0) as [[? _]|[_ ?]]; [lia | easy | easy].
Qed.

Lemma find_char_present c s :
  occurs c s -> 0 <= PyStr.find s (String c EmptyString).
Proof.
  intros Hyes. destruct (find_from_char c s 0) as [[_ ?]|[? _]]; [lia | easy | easy].
Qed.

Lemma rfind_from_char c s : forall i,
  0 <= i ->
  (PyStr.rfind_from (String c EmptyString) s i = -1 /\ ~ occurs c s)
  \/ (i <= PyStr.rfind_from (String c EmptyString) s i /\ occurs c s).
Proof.
  induction s as [|a s' IH]; intros i Hi.
  - left. split; [reflexivity | intros []].
  - cbn [PyStr.rfind_from].
    destruct (IH (i + 1)) as [[-> Hno]|[Hle Hyes]]; [lia | |].
    + change (-1 =? -1) with true. cbv iota.
      destruct (String.prefix (String c EmptyString) (String a s')) eqn:Hp.
      * right. apply prefix_char in Hp as [? Heq]. injection Heq as -> ->.
        split; [lia | left; reflexivity].
      * left. split; [reflexivity|].
        intros [Heq|Hin]; [|exact (Hno Hin)].
        rewrite (proj2 (prefix_char c (String a s'))) in Hp;
          [discriminate | subst; eauto].
    + destruct (Z.eqb_spec (PyStr.rfind_from (String c EmptyString) s' (i + 1)) (-1)).
      * lia.
      * right. split; [lia | right; exact Hyes].
Qed.

Lemma rfind_char_absent c s :
  ~ occurs c s -> PyStr.rfind s (String c EmptyString) = -1.
Proof.
  intros Hno. destruct (rfind_from_char c s 0) as [[? _]|[_ ?]]; [lia | easy | easy].
Qed.

Lemma rfind_char_present c s :
  occurs c s -> 0 <= PyStr.rfind s (String c EmptyString).
Proof.
  intros Hyes. destruct (rfind_from_char c s 0) as [[_ ?]|[? _]]; [lia | easy | easy].
Qed.
End StringFacts.

(** * Extraction: failures *)

Section ExtractionFailures.
Context `{PyRuntime}.
Variable client : Gateway.

Lemma parse_body_no_braces reply :
  ~ occurs "{" reply \/ ~ occurs "}" reply ->
  MethodExtractor.parse_body reply = Raise (ValueError "No JSON found in response").
Proof.
  intros Hno. unfold MethodExtractor.parse_body.
  destruct Hno as [Hno|Hno].
  - rewrite (find_char_absent _ _ Hno). reflexivity.
  - rewrite (rfind_char_absent _ _ Hno).
    change (-1 + 1 =? 0) with true. rewrite orb_true_r. reflexivity.
Qed.

Lemma parse_body_braces reply :
  occurs "{" reply -> occurs "}" reply ->
  MethodExtractor.parse_body reply =
    (data <- json_loads (embedded_json reply) ;;
     ms <- Py.get data "computational_methods" (VList []) ;;
     computational_methods <-
       MethodExtractor.construct_all ComputationalMethod.init ms ;;
     ds <- Py.get data "datasets" (VList []) ;;
     datasets <- MethodExtractor.construct_all Dataset.init ds ;;
     ws <- Py.get data "workflows" (VList []) ;;
     workflows <- MethodExtractor.construct_all Workflow.init ws ;;
     key_findings <- Py.get data "key_findings" (VList []) ;;
     reproducibility_notes <-
       Py.get data "reproducibility_notes" (VStr EmptyString) ;;
     Ok (ExtractedMethods.mk computational_methods datasets workflows
           key_findings reproducibility_notes))%res.
Proof.
  intros Ho Hc. unfold MethodExtractor.parse_body.
  pose proof (find_char_present _ _ Ho) as Hf.
  pose proof (rfind_char_present _ _ Hc) as Hr.
  destruct (Z.eqb_spec (PyStr.find reply "{") (-1)); [lia|].
  destruct (Z.eqb_spec (PyStr.rfind reply "}" + 1) 0); [lia|].
  reflexivity.
Qed.

Lemma occurs_dec c s : {occurs c s} + {~ occurs c s}.
Proof. apply in_dec, ascii_dec. Qed.

(** What [extract_methods] does once the service has answered. *)
Lemma extract_methods_reply paper_text paper_title w reply :
  client (calls w) (extraction_request paper_text paper_title) = Reply reply ->
  MethodExtractor.extract_methods client paper_text paper_title w =
    (match MethodExtractor._parse_extraction_result reply with
     | Ok em => Ok em
     | Raise e =>
         Raise (Exception ("Failed to extract methods using Claude: " +:+ exn_str e))
     end,
     set_calls (calls w ++ [extraction_request paper_text paper_title]) w).
Proof.
  intros Hr.
  unfold MethodExtractor.extract_methods, Eff.try_except, Eff.bind,
    Eff.messages_create, Eff.lift, Eff.raise.
  fold (extraction_request paper_text paper_title). rewrite Hr.
  destruct (MethodExtractor._parse_extraction_result reply); reflexivity.
Qed.

Lemma extract_methods_failure paper_text paper_title w e :
  client (calls w) (extraction_request paper_text paper_title) = Failure e ->
  MethodExtractor.extract_methods client paper_text paper_title w =
    (Raise (Exception ("Failed to extract methods using Claude: " +:+ exn_str e)),
     set_calls (calls w ++ [extraction_request paper_text paper_title]) w).
Proof.
  intros Hr.
  unfold MethodExtractor.extract_methods, Eff.try_except, Eff.bind,
    Eff.messages_create, Eff.lift, Eff.raise.
  fold (extraction_request paper_text paper_title). rewrite Hr.
  reflexivity.
Qed.

(** C1, as the code has it.  A reply without an opening or a closing
    brace, or whose text between the first opening and the last closing
    brace does not decode, makes [_parse_extraction_result] raise an
    [Exception] whose message starts with [Failed to parse]; and
    [extract_methods] then raises that failure wrapped once more, as an
    [Exception] whose message is [Failed to extract methods using
    Claude: ] followed by the message of the parse failure.  A failing
    call of the service is wrapped by the same handler in the same
    way. *)
Theorem parse_failure_is_wrapped paper_text paper_title w :
  (forall reply,
     client (calls w) (extraction_request paper_text paper_title) = Reply reply ->
     ~ occurs "{" reply \/ ~ occurs "}" reply
     \/ (exists msg, json_decode (embedded_json reply) = inl msg) ->
     exists detail,
       (detail = "Failed to parse extraction result: No JSON found in response"
        \/ exists msg, detail = "Failed to parse JSON response: " +:+ msg)
       /\ MethodExtractor._parse_extraction_result reply = Raise (Exception detail)
       /\ fst (MethodExtractor.extract_methods client paper_text paper_title w)
          = Raise (Exception ("Failed to extract methods using Claude: " +:+ detail)))
  /\ (forall e,
        client (calls w) (extraction_request paper_text paper_title) = Failure e ->
        fst (MethodExtractor.extract_methods client paper_text paper_title w)
        = Raise (Exception ("Failed to extract methods using Claude: " +:+ exn_str e))).
Proof.
  split.
  - intros reply Hreply Hbad.
    rewrite (extract_methods_reply _ _ _ _ Hreply). cbn [fst].
    unfold MethodExtractor._parse_extraction_result.
    destruct (occurs_dec "{" reply) as [Ho|Ho];
      [destruct (occurs_dec "}" reply) as [Hc|Hc]|].
    + destruct Hbad as [?|[?|[msg Hmsg]]]; [easy | easy |].
      rewrite (parse_body_braces _ Ho Hc). unfold json_loads. rewrite Hmsg.
      exists ("Failed to parse JSON response: " +:+ msg).
      split; [right; eauto | split; reflexivity].
    + rewrite parse_body_no_braces by auto.
      eexists. split; [left; reflexivity | split; reflexivity].
    + rewrite parse_body_no_braces by auto.
      eexists. split; [left; reflexivity | split; reflexivity].
  - intros e He. rewrite (extract_methods_failure _ _ _ _ He). reflexivity.
Qed.
End ExtractionFailures.

Lemma parse_failure_is_wrapped_witness :
  Mini.answering "no json here" (calls Mini.empty_world)
    (extraction_request "text" "title") = Reply "no json here"
  /\ ~ occurs "{" "no json here"
  /\ fst (@MethodExtractor.extract_methods Mini.runtime
            (Mini.answering "no json here") "text" "title" Mini.empty_world)
     = Raise (Exception "Failed to extract methods using Claude: Failed to parse extraction result: No JSON found in response").
Proof.
  assert (Hno : ~ occurs "{" "no json here")
    by (intros Hin; vm_compute in Hin; intuition discriminate).
  split; [reflexivity | split; [exact Hno |]].
  destruct (proj1 (@parse_failure_is_wrapped Mini.runtime
                     (Mini.answering "no json here") "text" "title" Mini.empty_world)
              "no json here" eq_refl (or_introl Hno)) as (detail & Hd & Hp & He).
  vm_compute in Hp. injection Hp as <-. exact He.
Defined.

(** C1, as stated, fails: the exception [extract_methods] raises for a
    reply without JSON is not the one the parser raised, and it is the
    very exception a failing call of the service can produce. *)
Lemma parse_failure_not_distinct :
  let run client :=
    fst (@MethodExtractor.extract_methods Mini.runtime client "text" "title"
           Mini.empty_world) in
  ~ (exists e,
       @MethodExtractor._parse_extraction_result Mini.runtime "no json here" = Raise e
       /\ run (Mini.answering "no json here") = Raise e)
  /\ run (Mini.answering "no json here")
     = run (Mini.failing "Failed to parse extraction result: No JSON found in response").
Proof.
  split.
  - intros (e & Hp & Hr). vm_compute in Hp, Hr. congruence.
  - vm_compute. reflexivity.
Qed.

(** * Keyword arguments *)

Section Keywords.
Lemma dict_lookup_In k d v : dict_lookup k d = Some v -> In k (dict_keys d).
Proof.
  induction d as [|[k' v'] d IH]; simpl; [discriminate|].
  destruct (String.eqb_spec k k'); [left; congruence | right; auto].
Qed.

Lemma first_unexpected_none sig kw :
  Py.first_unexpected sig kw = None <->
  forall k, In k (dict_keys kw) -> In k (map fst sig).
Proof.
  induction kw as [|[k v] kw IH]; simpl.
  - split; [intros _ ? [] | reflexivity].
  - destruct (existsb (String.eqb k) (map fst sig)) eqn:Hex.
    + apply existsb_exists in Hex as (k' & Hin & Heq).
      apply String.eqb_eq in Heq as <-.
      rewrite IH. split; [intros Hall k0 [<-|?]; auto | auto].
    + split; [discriminate|]. intros Hall.
      assert (Hin : In k (map fst sig)) by auto.
      assert (existsb (String.eqb k) (map fst sig) = true).
      { apply existsb_exists. exists k. split; [exact Hin | apply String.eqb_refl]. }
      congruence.
Qed.

Lemma missing_required sig kw f :
  In (f, None) sig -> dict_lookup f kw = None -> In f (Py.missing sig kw).
Proof.
  intros Hin Hno. unfold Py.missing.
  apply (in_map fst _ (f, None)), filter_In. split; [exact Hin|].
  simpl. rewrite Hno. reflexivity.
Qed.

(** A call with a keyword that is no field raises. *)
Lemma bind_arguments_unexpected cls sig kw k :
  In k (dict_keys kw) -> ~ In k (map fst sig) ->
  is_ok (Py.bind_arguments cls sig (VDict kw)) = false.
Proof.
  intros Hin Hout. simpl.
  destruct (Py.first_unexpected sig kw) eqn:Hu; [reflexivity|].
  exfalso. apply Hout. exact (proj1 (first_unexpected_none sig kw) Hu k Hin).
Qed.

(** A call without a field that has no default raises. *)
Lemma bind_arguments_missing cls sig kw f :
  In (f, None) sig -> dict_lookup f kw = None ->
  is_ok (Py.bind_arguments cls sig (VDict kw)) = false.
Proof.
  intros Hin Hno. simpl.
  destruct (Py.first_unexpected sig kw); [reflexivity|].
  pose proof (missing_required sig kw f Hin Hno) as Hm.
  destruct (Py.missing sig kw); [destruct Hm | reflexivity].
Qed.

Lemma constructs_bind c item :
  constructs c item =
  is_ok (Py.bind_arguments
           (match c with
            | MethodItem => "ComputationalMethod"
            | DatasetItem => "Dataset"
            | WorkflowItem => "Workflow"
            end) (class_signature c) item).
Proof.
  destruct c; simpl;
    unfold ComputationalMethod.init, Dataset.init, Workflow.init, Res.bind;
    match goal with |- is_ok (match ?r with _ => _ end) = _ => destruct r end;
    reflexivity.
Qed.

Lemma traverse_ok_all {A B} (f : A -> result B) l ys :
  Res.traverse f l = Ok ys -> forall x, In x l -> is_ok (f x) = true.
Proof.
  revert ys. induction l as [|a l IH]; intros ys Hok x Hin; [destruct Hin|].
  simpl in Hok. destruct (f a) eqn:Hfa; [|discriminate].
  destruct (Res.traverse f l) eqn:Hl; [|discriminate].
  destruct Hin as [<-|Hin]; [rewrite Hfa; reflexivity | eauto].
Qed.

Lemma construct_all_bad_item {A} (init : value -> result A) items item :
  In item items -> is_ok (init item) = false ->
  is_ok (MethodExtractor.construct_all init (VList items)) = false.
Proof.
  intros Hin Hbad. unfold MethodExtractor.construct_all. simpl.
  destruct (Res.traverse init items) eqn:Ht; [|reflexivity].
  rewrite (traverse_ok_all _ _ _ Ht item Hin) in Hbad. discriminate.
Qed.
End Keywords.

(** * Extraction: defaults and strictness *)

Section ExtractionShape.
Context `{PyRuntime}.
Variable client : Gateway.

(** The parser on a reply whose embedded JSON decodes to a [dict]. *)
Lemma parse_body_dict reply data :
  occurs "{" reply -> occurs "}" reply ->
  json_decode (embedded_json reply) = inr (VDict data) ->
  MethodExtractor.parse_body reply =
    (computational_methods <-
       MethodExtractor.construct_all ComputationalMethod.init
         (field_or data "computational_methods" (VList [])) ;;
     datasets <-
       MethodExtractor.construct_all Dataset.init
         (field_or data "datasets" (VList [])) ;;
     workflows <-
       MethodExtractor.construct_all Workflow.init
         (field_or data "workflows" (VList [])) ;;
     Ok (ExtractedMethods.mk computational_methods datasets workflows
           (field_or data "key_findings" (VList []))
           (field_or data "reproducibility_notes" (VStr EmptyString))))%res.
Proof.
  intros Ho Hc Hd. rewrite (parse_body_braces _ Ho Hc).
  unfold json_loads. rewrite Hd. reflexivity.
Qed.

Lemma parse_handler_raises e :
  is_ok (MethodExtractor.parse_handler e) = false.
Proof. destruct e; reflexivity. Qed.

Lemma parse_result_of_body reply :
  is_ok (MethodExtractor._parse_extraction_result reply)
  = is_ok (MethodExtractor.parse_body reply).
Proof.
  unfold MethodExtractor._parse_extraction_result, Res.try_except.
  destruct (MethodExtractor.parse_body reply); [reflexivity|].
  apply parse_handler_raises.
Qed.

Lemma extract_methods_ok_iff paper_text paper_title w reply :
  client (calls w) (extraction_request paper_text paper_title) = Reply reply ->
  is_ok (fst (MethodExtractor.extract_methods client paper_text paper_title w))
  = is_ok (MethodExtractor.parse_body reply).
Proof.
  intros Hr. rewrite (extract_methods_reply _ _ _ _ _ Hr). cbn [fst].
  rewrite <- parse_result_of_body.
  destruct (MethodExtractor._parse_extraction_result reply); reflexivity.
Qed.

Lemma is_ok_true {A} (r : result A) : is_ok r = true -> exists a, r = Ok a.
Proof. destruct r; [eauto | discriminate]. Qed.

Lemma field_or_present data key default v :
  dict_lookup key data = Some v -> field_or data key default = v.
Proof. unfold field_or. intros ->. reflexivity. Qed.

Lemma field_or_missing data key default :
  dict_lookup key data = None -> field_or data key default = default.
Proof. unfold field_or. intros ->. reflexivity. Qed.

Lemma construct_field {A} (init : value -> result A) data key :
  (forall v, dict_lookup key data = Some v ->
     is_ok (MethodExtractor.construct_all init v) = true) ->
  exists xs,
    MethodExtractor.construct_all init (field_or data key (VList [])) = Ok xs
    /\ (dict_lookup key data = None -> xs = []).
Proof.
  intros Hc. unfold field_or. destruct (dict_lookup key data) as [v|].
  - destruct (is_ok_true _ (Hc v eq_refl)) as [xs Hxs].
    exists xs. split; [exact Hxs | discriminate].
  - exists []. split; reflexivity.
Qed.

(** C4, as the code has it.  When the embedded JSON of the reply
    decodes to an object and every item of the lists that are present
    can be built, [extract_methods] returns a result in which each of
    the five keys that is missing has its default (the empty list, or
    the empty string for the notes) and each key that is present has
    the value built from it. *)
Theorem missing_keys_take_defaults paper_text paper_title w reply data :
  client (calls w) (extraction_request paper_text paper_title) = Reply reply ->
  occurs "{" reply -> occurs "}" reply ->
  json_decode (embedded_json reply) = inr (VDict data) ->
  items_construct MethodItem data ->
  items_construct DatasetItem data ->
  items_construct WorkflowItem data ->
  exists em,
    fst (MethodExtractor.extract_methods client paper_text paper_title w) = Ok em
    /\ (dict_lookup "computational_methods" data = None ->
        ExtractedMethods.computational_methods em = [])
    /\ (dict_lookup "datasets" data = None -> ExtractedMethods.datasets em = [])
    /\ (dict_lookup "workflows" data = None -> ExtractedMethods.workflows em = [])
    /\ (dict_lookup "key_findings" data = None ->
        ExtractedMethods.key_findings em = VList [])
    /\ (dict_lookup "reproducibility_notes" data = None ->
        ExtractedMethods.reproducibility_notes em = VStr EmptyString)
    /\ (forall v, dict_lookup "computational_methods" data = Some v ->
        MethodExtractor.construct_all ComputationalMethod.init v
        = Ok (ExtractedMethods.computational_methods em))
    /\ (forall v, dict_lookup "datasets" data = Some v ->
        MethodExtractor.construct_all Dataset.init v
        = Ok (ExtractedMethods.datasets em))
    /\ (forall v, dict_lookup "workflows" data = Some v ->
        MethodExtractor.construct_all Workflow.init v
        = Ok (ExtractedMethods.workflows em))
    /\ (forall v, dict_lookup "key_findings" data = Some v ->
        ExtractedMethods.key_findings em = v)
    /\ (forall v, dict_lookup "reproducibility_notes" data = Some v ->
        ExtractedMethods.reproducibility_notes em = v).
Proof.
  intros Hr Ho Hc Hd Hm Hds Hw.
  destruct (construct_field ComputationalMethod.init data _ Hm) as (ms & Hms & Hms0).
  destruct (construct_field Dataset.init data _ Hds) as (ds & Hdss & Hds0).
  destruct (construct_field Workflow.init data _ Hw) as (ws & Hws & Hws0).
  eexists. split.
  - rewrite (extract_methods_reply _ _ _ _ _ Hr). cbn [fst].
    unfold MethodExtractor._parse_extraction_result.
    rewrite (parse_body_dict _ _ Ho Hc Hd).
    change (class_key MethodItem) with "computational_methods" in Hms.
    change (class_key DatasetItem) with "datasets" in Hdss.
    change (class_key WorkflowItem) with "workflows" in Hws.
    rewrite Hms, Hdss, Hws. reflexivity.
  - cbn [ExtractedMethods.computational_methods ExtractedMethods.datasets
           ExtractedMethods.workflows ExtractedMethods.key_findings
           ExtractedMethods.reproducibility_notes].
    repeat split; auto using field_or_present, field_or_missing.
    + intros v Hv. rewrite <- Hms.
      rewrite (field_or_present _ _ _ _ Hv). reflexivity.
    + intros v Hv. rewrite <- Hdss.
      rewrite (field_or_present _ _ _ _ Hv). reflexivity.
    + intros v Hv. rewrite <- Hws.
      rewrite (field_or_present _ _ _ _ Hv). reflexivity.
Qed.
End ExtractionShape.

Lemma occurs_true c s :
  existsb (Ascii.eqb c) (list_ascii_of_string s) = true -> occurs c s.
Proof.
  intros Hex. apply existsb_exists in Hex as (c' & Hin & Heq).
  apply Ascii.eqb_eq in Heq as <-. exact Hin.
Qed.

Lemma missing_keys_take_defaults_witness :
  occurs "{" reply_one_dataset /\ occurs "}" reply_one_dataset
  /\ exists em,
       fst (@MethodExtractor.extract_methods Mini.runtime
              (Mini.answering reply_one_dataset) "text" "title" Mini.empty_world)
       = Ok em
       /\ ExtractedMethods.computational_methods em = []
       /\ ExtractedMethods.key_findings em = VList []
       /\ ExtractedMethods.reproducibility_notes em = VStr EmptyString.
Proof.
  assert (Ho : occurs "{" reply_one_dataset) by (apply occurs_true; reflexivity).
  assert (Hc : occurs "}" reply_one_dataset) by (apply occurs_true; reflexivity).
  split; [exact Ho | split; [exact Hc |]].
  destruct (@missing_keys_take_defaults Mini.runtime
              (Mini.answering reply_one_dataset) "text" "title" Mini.empty_world
              reply_one_dataset
              [("datasets",
                VList [VDict [("name", VStr "GEO"); ("description", VStr "expression");
                              ("source", VStr "NCBI"); ("format", VStr "csv")]])]
              eq_refl Ho Hc eq_refl)
    as (em & Hem & Hm & _ & _ & Hk & Hn & _).
  - intros v Hv. discriminate Hv.
  - intros v Hv. injection Hv as <-. reflexivity.
  - intros v Hv. discriminate Hv.
  - exists em. auto.
Defined.

(** C4, as stated, fails: this reply decodes, omits four of the five
    keys, and [extract_methods] raises, because the one item of the key
    that is present has a misnamed field. *)
Lemma missing_keys_but_failure :
  @json_decode Mini.runtime (embedded_json reply_misnamed_field)
  = inr (VDict [("datasets", VList [VDict [("nme", VStr "GEO")]])])
  /\ is_ok (fst (@MethodExtractor.extract_methods Mini.runtime
                   (Mini.answering reply_misnamed_field) "text" "title"
                   Mini.empty_world)) = false.
Proof. split; vm_compute; reflexivity. Qed.

(** * Extraction: strict items *)

(** C9.  A dataset item without [size] and with the four other fields
    is built, with [size] set to [None]; an item of any of the three
    kinds that lacks a field without default, or carries a key that is
    no field, cannot be built; and one item that cannot be built makes
    the whole extraction raise. *)
Theorem items_are_strict :
  (forall kw n d s f,
     (forall k, In k (dict_keys kw) ->
                In k ["name"; "description"; "source"; "format"]) ->
     dict_lookup "name" kw = Some n ->
     dict_lookup "description" kw = Some d ->
     dict_lookup "source" kw = Some s ->
     dict_lookup "format" kw = Some f ->
     Dataset.init (VDict kw) = Ok (Dataset.mk n d s f VNone))
  /\ (forall c kw f,
        In (f, None) (class_signature c) -> dict_lookup f kw = None ->
        constructs c (VDict kw) = false)
  /\ (forall c kw k,
        In k (dict_keys kw) -> ~ In k (map fst (class_signature c)) ->
        constructs c (VDict kw) = false)
  /\ (forall (RT : PyRuntime) client paper_text paper_title w reply data c items item,
        client (calls w) (extraction_request paper_text paper_title) = Reply reply ->
        occurs "{" reply -> occurs "}" reply ->
        json_decode (embedded_json reply) = inr (VDict data) ->
        dict_lookup (class_key c) data = Some (VList items) ->
        In item items -> constructs c item = false ->
        is_ok (fst (MethodExtractor.extract_methods client paper_text paper_title w))
        = false).
Proof.
  split; [|split; [|split]].
  - intros kw n d s f Hkeys Hn Hd Hs Hf.
    assert (Hsize : dict_lookup "size" kw = None).
    { destruct (dict_lookup "size" kw) eqn:Hl; [|reflexivity].
      apply dict_lookup_In, Hkeys in Hl. simpl in Hl.
      repeat destruct Hl as [Hl|Hl]; try discriminate. destruct Hl. }
    unfold Dataset.init. simpl.
    assert (Hu : Py.first_unexpected Dataset.signature kw = None).
    { apply first_unexpected_none. intros k Hk. apply Hkeys in Hk. simpl in *.
      tauto. }
    rewrite Hu. unfold Py.missing. simpl. rewrite Hn, Hd, Hs, Hf. simpl.
    unfold Py.bound. rewrite Hn, Hd, Hs, Hf, Hsize. reflexivity.
  - intros c kw f Hin Hno. rewrite constructs_bind.
    eapply bind_arguments_missing; eassumption.
  - intros c kw k Hin Hout. rewrite constructs_bind.
    eapply bind_arguments_unexpected; eassumption.
  - intros RT client paper_text paper_title w reply data c items item
      Hr Ho Hc Hd Hl Hin Hbad.
    rewrite (extract_methods_ok_iff _ _ _ _ _ Hr).
    rewrite (parse_body_dict _ _ Ho Hc Hd).
    destruct c; simpl in Hl, Hbad.
    + rewrite (field_or_present _ _ _ _ Hl).
      pose proof (construct_all_bad_item _ _ _ Hin Hbad) as Hf.
      destruct (MethodExtractor.construct_all ComputationalMethod.init (VList items));
        [discriminate | reflexivity].
    + destruct (MethodExtractor.construct_all ComputationalMethod.init _);
        [|reflexivity]. cbn [Res.bind].
      rewrite (field_or_present _ _ _ _ Hl).
      pose proof (construct_all_bad_item _ _ _ Hin Hbad) as Hf.
      destruct (MethodExtractor.construct_all Dataset.init (VList items));
        [discriminate | reflexivity].
    + destruct (MethodExtractor.construct_all ComputationalMethod.init _);
        [|reflexivity]. cbn [Res.bind].
      destruct (MethodExtractor.construct_all Dataset.init _);
        [|reflexivity]. cbn [Res.bind].
      rewrite (field_or_present _ _ _ _ Hl).
      pose proof (construct_all_bad_item _ _ _ Hin Hbad) as Hf.
      destruct (MethodExtractor.construct_all Workflow.init (VList items));
        [discriminate | reflexivity].
Qed.

Lemma items_are_strict_witness :
  Dataset.init (VDict [("format", VStr "csv"); ("name", VStr "GEO");
                       ("source", VStr "NCBI"); ("description", VStr "expression")])
  = Ok (Dataset.mk (VStr "GEO") (VStr "expression") (VStr "NCBI") (VStr "csv") VNone)
  /\ constructs WorkflowItem (VDict [("name", VStr "qc")]) = false
  /\ constructs MethodItem
       (VDict [("name", VStr "t-test"); ("description", VStr "test");
               ("software_tools", VList []); ("programming_languages", VList []);
               ("parameters", VDict []); ("category", VStr "statistical_analysis");
               ("notes", VStr "extra")]) = false
  /\ is_ok (fst (@MethodExtractor.extract_methods Mini.runtime
                   (Mini.answering reply_misnamed_field) "text" "title"
                   Mini.empty_world)) = false.
Proof.
  destruct items_are_strict as (Hsize & Hmissing & Hextra & Hwhole).
  split; [|split; [|split]].
  - apply Hsize; try reflexivity.
    intros k Hk. simpl in Hk. simpl. tauto.
  - apply (Hmissing WorkflowItem _ "steps"); [simpl; tauto | reflexivity].
  - apply (Hextra MethodItem _ "notes"); [simpl; tauto|].
    simpl. intros Hin. repeat destruct Hin as [Hin|Hin]; try discriminate.
    destruct Hin.
  - apply (Hwhole Mini.runtime (Mini.answering reply_misnamed_field) "text" "title"
             Mini.empty_world reply_misnamed_field
             [("datasets", VList [VDict [("nme", VStr "GEO")]])]
             DatasetItem [VDict [("nme", VStr "GEO")]] (VDict [("nme", VStr "GEO")]));
      try reflexivity.
    + apply occurs_true; reflexivity.
    + apply occurs_true; reflexivity.
    + left; reflexivity.
Defined.

(** * Persistence of the extracted methods *)

Section Persistence.
Context `{PyRuntime}.

Lemma method_init_asdict m :
  ComputationalMethod.init (ComputationalMethod.asdict m) = Ok m.
Proof. destruct m; reflexivity. Qed.

Lemma dataset_init_asdict d : Dataset.init (Dataset.asdict d) = Ok d.
Proof. destruct d; reflexivity. Qed.

Lemma workflow_init_asdict w : Workflow.init (Workflow.asdict w) = Ok w.
Proof. destruct w; reflexivity. Qed.

Lemma construct_all_asdict {A} (init : value -> result A) (asdict : A -> value) :
  (forall x, init (asdict x) = Ok x) ->
  forall xs, MethodExtractor.construct_all init (VList (map asdict xs)) = Ok xs.
Proof.
  intros Hinv xs. unfold MethodExtractor.construct_all. simpl.
  induction xs as [|x xs IH]; [reflexivity|].
  simpl. rewrite Hinv, IH. reflexivity.
Qed.

Lemma getitem_asdict ms ds ws kf notes :
  let doc := ExtractedMethods.asdict (ExtractedMethods.mk ms ds ws kf notes) in
  Py.getitem doc "computational_methods"
    = Ok (VList (map ComputationalMethod.asdict ms))
  /\ Py.getitem doc "datasets" = Ok (VList (map Dataset.asdict ds))
  /\ Py.getitem doc "workflows" = Ok (VList (map Workflow.asdict ws))
  /\ Py.getitem doc "key_findings" = Ok kf
  /\ Py.getitem doc "reproducibility_notes" = Ok notes.
Proof. repeat split. Qed.

(** C7.  Saving a result and loading the file gives the result back,
    field for field, whenever the JSON library decodes what it encoded
    for the document of the result. *)
Theorem save_then_load (methods : ExtractedMethods.t) (path : string) (w : World) :
  json_decode (json_encode (ExtractedMethods.asdict methods))
  = inr (ExtractedMethods.asdict methods) ->
  let w' := snd (MethodExtractor.save_extracted_methods methods path w) in
  MethodExtractor.load_extracted_methods path w' = (Ok methods, w').
Proof.
  intros Hjson w'. subst w'.
  unfold MethodExtractor.save_extracted_methods,
    MethodExtractor.load_extracted_methods, Eff.write_file, Eff.bind,
    Eff.read_file, Eff.lift.
  cbn [snd files set_files]. rewrite lookup_insert_eq.
  unfold json_loads. rewrite Hjson. cbn [Res.bind].
  destruct methods as [ms ds ws kf notes].
  destruct (getitem_asdict ms ds ws kf notes) as (Hm & Hd & Hw & Hk & Hn).
  cbv zeta in Hm, Hd, Hw, Hk, Hn.
  rewrite Hm. cbn [Res.bind].
  rewrite (construct_all_asdict _ _ method_init_asdict). cbn [Res.bind].
  rewrite Hd. cbn [Res.bind].
  rewrite (construct_all_asdict _ _ dataset_init_asdict). cbn [Res.bind].
  rewrite Hw. cbn [Res.bind].
  rewrite (construct_all_asdict _ _ workflow_init_asdict). cbn [Res.bind].
  rewrite Hk, Hn. reflexivity.
Qed.
End Persistence.

Lemma save_then_load_witness :
  (@json_decode Mini.runtime
     (@json_encode Mini.runtime (ExtractedMethods.asdict empty_result))
   = inr (ExtractedMethods.asdict empty_result)
   /\ fst (@MethodExtractor.load_extracted_methods Mini.runtime "methods.json"
             (snd (@MethodExtractor.save_extracted_methods Mini.runtime
                     empty_result "methods.json" Mini.empty_world)))
      = Ok empty_result)
  /\ (@json_decode Mini.runtime
        (@json_encode Mini.runtime (ExtractedMethods.asdict sample_result))
      = inr (ExtractedMethods.asdict sample_result)
      /\ fst (@MethodExtractor.load_extracted_methods Mini.runtime "methods.json"
                (snd (@MethodExtractor.save_extracted_methods Mini.runtime
                        sample_result "methods.json" Mini.empty_world)))
         = Ok sample_result).
Proof.
  assert (He : @json_decode Mini.runtime
                 (@json_encode Mini.runtime (ExtractedMethods.asdict empty_result))
               = inr (ExtractedMethods.asdict empty_result)) by reflexivity.
  assert (Hs : @json_decode Mini.runtime
                 (@json_encode Mini.runtime (ExtractedMethods.asdict sample_result))
               = inr (ExtractedMethods.asdict sample_result)) by reflexivity.
  split; (split; [assumption|]).
  - rewrite (@save_then_load Mini.runtime empty_result "methods.json"
               Mini.empty_world He). reflexivity.
  - rewrite (@save_then_load Mini.runtime sample_result "methods.json"
               Mini.empty_world Hs). reflexivity.
Defined.

(** * Grouping by category *)

Section Grouping.
Lemma key_beq_eq a b : Py.key_beq a b = true <-> a = b.
Proof.
  destruct a, b; simpl; try (split; [discriminate | intros [=]]);
    try (split; reflexivity).
  - rewrite String.eqb_eq. split; congruence.
  - rewrite andb_true_iff, !Z.eqb_eq. split; [intros [-> ->] | intros [= -> ->]]; auto.
  - rewrite Bool.eqb_true_iff. split; congruence.
Qed.

Lemma key_eqb_key a b :
  Py.key_eqb a b = true <->
  exists k, Py.key_of a = Some k /\ Py.key_of b = Some k.
Proof.
  unfold Py.key_eqb.
  destruct (Py.key_of a) as [x|], (Py.key_of b) as [y|];
    try (split; [discriminate | intros (? & ? & ?); discriminate]).
  rewrite key_beq_eq. split.
  - intros ->. eauto.
  - intros (k & ? & ?). congruence.
Qed.

Lemma comparable_hashable a : comparable a = true -> Py.hashable a = true.
Proof. destruct a as [| | | [] | | |]; simpl; try discriminate; reflexivity. Qed.

Lemma key_eqb_comparable a b : Py.key_eqb a b = true -> comparable a = true.
Proof.
  intros Hab. apply key_eqb_key in Hab as (k & Ha & _).
  unfold comparable. rewrite Ha. reflexivity.
Qed.

Lemma key_eqb_refl a : comparable a = true -> Py.key_eqb a a = true.
Proof.
  unfold comparable. intros Ha. apply key_eqb_key.
  destruct (Py.key_of a) as [k|]; [eauto | discriminate].
Qed.

Lemma key_eqb_sym a b : Py.key_eqb a b = Py.key_eqb b a.
Proof.
  destruct (Py.key_eqb a b) eqn:Hab, (Py.key_eqb b a) eqn:Hba; try reflexivity.
  - apply key_eqb_key in Hab as (k & ? & ?).
    assert (Py.key_eqb b a = true) by (apply key_eqb_key; eauto). congruence.
  - apply key_eqb_key in Hba as (k & ? & ?).
    assert (Py.key_eqb a b = true) by (apply key_eqb_key; eauto). congruence.
Qed.

Lemma key_eqb_trans a b c :
  Py.key_eqb a b = true -> Py.key_eqb b c = true -> Py.key_eqb a c = true.
Proof.
  rewrite !key_eqb_key. intros (k & ? & ?) (k' & ? & ?).
  exists k. split; congruence.
Qed.

Lemma keys_compare_by_value :
  Py.key_eqb (VBool true) (VInt 1) = true
  /\ Py.key_eqb (VInt 6) (VFloat (S754_finite false 3 1)) = true
  /\ Py.key_eqb (VInt 0) (VFloat (S754_zero true)) = true
  /\ Py.key_eqb (VFloat S754_nan) (VFloat S754_nan) = true
  /\ Py.key_eqb (VStr "1") (VInt 1) = false
  /\ Py.key_eqb VNone (VBool false) = false.
Proof. repeat split. Qed.

Lemma first_occurrences_snoc l c :
  first_occurrences (l ++ [c]) =
  if existsb (Py.key_eqb c) (first_occurrences l) then first_occurrences l
  else first_occurrences l ++ [c].
Proof. unfold first_occurrences. rewrite fold_left_app. reflexivity. Qed.

Lemma distinct_keys_snoc ks c :
  distinct_keys ks -> existsb (Py.key_eqb c) ks = false ->
  distinct_keys (ks ++ [c]).
Proof.
  induction ks as [|k ks IH]; simpl; intros Hd Hex.
  - split; [intros ? [] | exact I].
  - apply orb_false_iff in Hex as [Hk Hex]. destruct Hd as [Hh Hd].
    split; [|auto].
    intros k' Hin. apply in_app_or in Hin as [Hin|[<-|[]]]; auto.
Qed.

Lemma first_occurrences_distinct l : distinct_keys (first_occurrences l).
Proof.
  induction l as [|c l IH] using rev_ind; [exact I|].
  rewrite first_occurrences_snoc.
  destruct (existsb (Py.key_eqb c) (first_occurrences l)) eqn:Hex; [exact IH|].
  apply distinct_keys_snoc; assumption.
Qed.

(** Every comparable element has its representative among the kept. *)
Lemma first_occurrences_covers l x :
  In x l -> comparable x = true ->
  existsb (Py.key_eqb x) (first_occurrences l) = true.
Proof.
  induction l as [|c l IH] using rev_ind; [intros []|].
  intros Hin Hx. rewrite first_occurrences_snoc.
  apply in_app_or in Hin as [Hin|[<-|[]]].
  - specialize (IH Hin Hx).
    destruct (existsb (Py.key_eqb c) (first_occurrences l)); [exact IH|].
    rewrite existsb_app, IH. reflexivity.
  - destruct (existsb (Py.key_eqb c) (first_occurrences l)) eqn:Hex; [exact Hex|].
    rewrite existsb_app. simpl. rewrite key_eqb_refl by assumption.
    apply orb_true_iff. right. reflexivity.
Qed.

Lemma first_occurrences_In l k : In k (first_occurrences l) -> In k l.
Proof.
  induction l as [|c l IH] using rev_ind; [intros []|].
  rewrite first_occurrences_snoc.
  destruct (existsb (Py.key_eqb c) (first_occurrences l)).
  - intros Hin. apply in_or_app. left. auto.
  - intros Hin. apply in_app_or in Hin as [Hin|Hin]; apply in_or_app; auto.
Qed.

Lemma filter_none {A} (f : A -> bool) l :
  (forall x, In x l -> f x = false) -> List.filter f l = [].
Proof.
  induction l as [|a l IH]; simpl; intros Hf; [reflexivity|].
  rewrite (Hf a) by auto. apply IH. auto.
Qed.

(** Filing a method under a key that is not there yet. *)
Lemma add_method_new c m (g : value -> list ComputationalMethod.t) ks :
  existsb (Py.key_eqb c) ks = false ->
  CodeGenerator.add_method c m (map (fun k => (k, g k)) ks)
  = map (fun k => (k, g k)) ks ++ [(c, [m])].
Proof.
  induction ks as [|k ks IH]; simpl; intros Hex; [reflexivity|].
  apply orb_false_iff in Hex as [-> Hex]. rewrite IH by assumption. reflexivity.
Qed.

(** Filing a method under a key that is there. *)
Lemma add_method_old c m (g : value -> list ComputationalMethod.t) ks :
  distinct_keys ks -> existsb (Py.key_eqb c) ks = true ->
  CodeGenerator.add_method c m (map (fun k => (k, g k)) ks)
  = map (fun k => (k, g k ++ if Py.key_eqb c k then [m] else [])) ks.
Proof.
  induction ks as [|k ks IH]; simpl; intros Hd Hex; [discriminate|].
  destruct Hd as [Hh Hd]. destruct (Py.key_eqb c k) eqn:Hck.
  - f_equal. apply map_ext_in. intros k' Hin.
    assert (Py.key_eqb c k' = false) as ->.
    { destruct (Py.key_eqb c k') eqn:Hck'; [|reflexivity].
      rewrite <- (Hh k' Hin). symmetry.
      apply key_eqb_trans with c; [rewrite key_eqb_sym|]; assumption. }
    rewrite app_nil_r. reflexivity.
  - rewrite app_nil_r. f_equal. apply IH; assumption.
Qed.

Lemma group_methods_snoc ms m acc :
  CodeGenerator.group_methods (ms ++ [m]) acc =
  (gs <- CodeGenerator.group_methods ms acc ;;
   if Py.hashable (ComputationalMethod.category m) then
     Ok (CodeGenerator.add_method (ComputationalMethod.category m) m gs)
   else Raise (TypeError Unhashable))%res.
Proof.
  revert acc. induction ms as [|m' ms IH]; intros acc; simpl.
  - destruct (Py.hashable (ComputationalMethod.category m)); reflexivity.
  - destruct (Py.hashable (ComputationalMethod.category m')); [apply IH | reflexivity].
Qed.

(** The grouping loop builds [grouped]. *)
Lemma group_methods_grouped ms :
  forallb (fun m => comparable (ComputationalMethod.category m)) ms = true ->
  CodeGenerator.group_methods ms [] = Ok (grouped ms).
Proof.
  induction ms as [|m ms IH] using rev_ind; [reflexivity|].
  rewrite forallb_app. intros Hh. apply andb_true_iff in Hh as [Hms Hm].
  simpl in Hm. rewrite andb_true_r in Hm.
  rewrite group_methods_snoc, (IH Hms). cbn [Res.bind].
  rewrite (comparable_hashable _ Hm). f_equal.
  unfold grouped. rewrite map_app. cbn [map].
  rewrite first_occurrences_snoc.
  set (c := ComputationalMethod.category m).
  set (cats := map ComputationalMethod.category ms).
  destruct (existsb (Py.key_eqb c) (first_occurrences cats)) eqn:Hex.
  - rewrite (add_method_old c m (fun k => List.filter (in_category k) ms))
      by auto using first_occurrences_distinct.
    apply map_ext. intros k. rewrite List.filter_app. simpl.
    unfold in_category at 3. fold c. reflexivity.
  - rewrite (add_method_new c m (fun k => List.filter (in_category k) ms))
      by assumption.
    rewrite map_app. cbn [map]. f_equal.
    + apply map_ext_in. intros k Hin. rewrite List.filter_app. simpl.
      unfold in_category at 3. fold c.
      assert (Py.key_eqb c k = false) as ->; [|rewrite app_nil_r; reflexivity].
      destruct (Py.key_eqb c k) eqn:Hck; [|reflexivity].
      rewrite <- Hex. symmetry. apply existsb_exists. eauto.
    + rewrite List.filter_app. simpl. unfold in_category at 2. fold c.
      rewrite (key_eqb_refl c Hm).
      assert (List.filter (in_category c) ms = []) as ->; [|reflexivity].
      apply filter_none. intros m' Hin.
      destruct (in_category c m') eqn:Hc'; [|reflexivity].
      unfold in_category in Hc'.
      assert (Hcov : existsb (Py.key_eqb (ComputationalMethod.category m'))
                       (first_occurrences cats) = true).
      { apply first_occurrences_covers.
        - apply in_map. exact Hin.
        - exact (key_eqb_comparable _ _ Hc'). }
      apply existsb_exists in Hcov as (k & Hk & Hmk).
      rewrite <- Hex. symmetry. apply existsb_exists. exists k. split; [exact Hk|].
      apply key_eqb_trans with (ComputationalMethod.category m'); [|exact Hmk].
      rewrite key_eqb_sym. exact Hc'.
Qed.
End Grouping.

(** * Code generation: the loop over the categories *)

Section Generation.
Context `{PyRuntime}.
Variable client : Gateway.
Variable templates : gmap string string.

Lemma traverse_ok {A B} (f : A -> result B) l :
  (forall x, In x l -> is_ok (f x) = true) -> exists ys, Res.traverse f l = Ok ys.
Proof.
  induction l as [|a l IH]; intros Hf; [exists []; reflexivity|].
  destruct (IH (fun x Hx => Hf x (or_intror Hx))) as [ys Hys].
  destruct (f a) as [y|] eqn:Hfa.
  - exists (y :: ys). simpl. rewrite Hfa, Hys. reflexivity.
  - specialize (Hf a (or_introl eq_refl)). rewrite Hfa in Hf. discriminate.
Qed.

Lemma traverse_length {A B} (f : A -> result B) l ys :
  Res.traverse f l = Ok ys -> length ys = length l.
Proof.
  revert ys. induction l as [|a l IH]; simpl; intros ys Hok.
  - injection Hok as <-. reflexivity.
  - destruct (f a); [|discriminate].
    destruct (Res.traverse f l); [|discriminate].
    injection Hok as <-. simpl. f_equal. auto.
Qed.

Lemma join_items_ok items : forall i,
  forallb Typed.str items = true -> is_ok (Py.join_items i items) = true.
Proof.
  induction items as [|[] items IH]; intros i; simpl; try discriminate;
    [reflexivity|].
  intros Hs. specialize (IH (S i) Hs).
  destruct (Py.join_items (S i) items); [reflexivity | discriminate].
Qed.

Lemma join_ok sep v : Typed.list_of_str v = true -> is_ok (Py.join sep v) = true.
Proof.
  destruct v; simpl; try discriminate. intros Hs.
  pose proof (join_items_ok items 0%nat Hs) as Hj.
  destruct (Py.join_items 0 items); [reflexivity | discriminate].
Qed.

Lemma iter_ok v : Typed.list_of_str v = true -> is_ok (Py.iter v) = true.
Proof. destruct v; simpl; try discriminate. reflexivity. Qed.

Lemma method_text_ok m :
  Typed.computational_method m = true -> is_ok (CodeGenerator.method_text m) = true.
Proof.
  unfold Typed.computational_method. rewrite !andb_true_iff.
  intros (((((_ & _) & Ht) & _) & _) & _).
  unfold CodeGenerator.method_text.
  pose proof (join_ok ", " _ Ht) as Hj.
  destruct (Py.join ", " (ComputationalMethod.software_tools m));
    [reflexivity | discriminate].
Qed.

Lemma workflow_text_ok wf :
  Typed.workflow wf = true -> is_ok (CodeGenerator.workflow_text wf) = true.
Proof.
  unfold Typed.workflow. rewrite !andb_true_iff.
  intros ((((_ & Hs) & _) & _) & _).
  unfold CodeGenerator.workflow_text.
  pose proof (iter_ok _ Hs) as Hi.
  destruct (Py.iter (Workflow.steps wf)); [reflexivity | discriminate].
Qed.

(** The prompt of a group of typed methods can be built. *)
Lemma generation_request_ok em paper_title language g :
  forallb Typed.computational_method (snd g) = true ->
  forallb Typed.workflow (ExtractedMethods.workflows em) = true ->
  is_ok (generation_request templates em paper_title language g) = true.
Proof.
  intros Hms Hws. unfold generation_request,
    CodeGenerator._create_code_generation_prompt.
  destruct (traverse_ok CodeGenerator.method_text (snd g)) as [ts ->].
  { intros m Hin. apply method_text_ok.
    exact (proj1 (forallb_forall _ _) Hms m Hin). }
  destruct (traverse_ok CodeGenerator.workflow_text (ExtractedMethods.workflows em))
    as [wts ->].
  { intros wf Hin. apply workflow_text_ok.
    exact (proj1 (forallb_forall _ _) Hws wf Hin). }
  reflexivity.
Qed.

Lemma typed_comparable ms :
  forallb Typed.computational_method ms = true ->
  forallb (fun m => comparable (ComputationalMethod.category m)) ms = true.
Proof.
  intros Ht. apply forallb_forall. intros m Hin.
  pose proof (proj1 (forallb_forall _ _) Ht m Hin) as Hm.
  unfold Typed.computational_method in Hm. rewrite !andb_true_iff in Hm.
  destruct Hm as (_ & Hc). destruct (ComputationalMethod.category m);
    try discriminate; reflexivity.
Qed.

Lemma typed_requests em paper_title language :
  Typed.extracted_methods em = true ->
  exists reqs,
    Res.traverse (generation_request templates em paper_title language)
      (grouped (ExtractedMethods.computational_methods em)) = Ok reqs.
Proof.
  unfold Typed.extracted_methods. rewrite !andb_true_iff.
  intros ((((Hms & _) & Hws) & _) & _).
  apply traverse_ok. intros g Hin. apply generation_request_ok; [|exact Hws].
  unfold grouped in Hin. apply in_map_iff in Hin as (k & <- & _). simpl.
  apply forallb_forall. intros m Hm. apply filter_In in Hm as [Hm _].
  exact (proj1 (forallb_forall _ _) Hms m Hm).
Qed.

(** One turn of the loop: one request, and the outcome of the
    category. *)
Lemma generate_category_script_run category methods em paper_title language w req :
  generation_request templates em paper_title language (category, methods) = Ok req ->
  exists w',
    CodeGenerator._generate_category_script client templates category methods em
      paper_title language w
    = (Ok (category_outcome language category (client (calls w) req)), w')
    /\ calls w' = calls w ++ [req].
Proof.
  unfold generation_request. cbn [fst snd]. intros Hreq.
  unfold CodeGenerator._generate_category_script, Eff.bind, Eff.lift,
    Eff.try_except, Eff.messages_create, Eff.print, Eff.ret.
  destruct (CodeGenerator._create_code_generation_prompt category methods em
              paper_title language
              (CodeGenerator._get_template_for_category templates category))
    as [prompt|]; [|discriminate].
  injection Hreq as <-.
  destruct (client (calls w) (mk_request MODEL 4000 prompt)) as [text|e]; cbn.
  - destruct (CodeGenerator._parse_code_generation_result text category language);
      eexists; split; reflexivity.
  - eexists; split; reflexivity.
Qed.

(** The loop: every group makes its request, whatever became of the
    groups before it, and the scripts are those of the outcomes. *)
Lemma generate_scripts_run em paper_title language gs : forall reqs acc w,
  Res.traverse (generation_request templates em paper_title language) gs = Ok reqs ->
  exists w',
    CodeGenerator.generate_scripts client templates gs em paper_title language acc w
    = (Ok (acc ++ scripts_of (category_outcomes client language (calls w) gs reqs)),
       w')
    /\ calls w' = calls w ++ reqs.
Proof.
  induction gs as [|[category methods] gs IH]; intros reqs acc w Hreqs.
  - injection Hreqs as <-. exists w. split; [|symmetry; apply app_nil_r].
    simpl. unfold Eff.ret. rewrite app_nil_r. reflexivity.
  - simpl in Hreqs.
    destruct (generation_request templates em paper_title language
                (category, methods)) as [req|] eqn:Hreq; [|discriminate].
    destruct (Res.traverse _ gs) as [reqs'|] eqn:Hrest; [|discriminate].
    injection Hreqs as <-.
    destruct (generate_category_script_run _ _ _ _ _ w _ Hreq) as (w1 & Hrun & Hc1).
    cbn [CodeGenerator.generate_scripts]. unfold Eff.bind at 1. rewrite Hrun.
    destruct (IH reqs'
                (match category_outcome language category (client (calls w) req) with
                 | Some sc => acc ++ [sc]
                 | None => acc
                 end) w1 eq_refl) as (w' & Hloop & Hc').
    exists w'. split.
    + rewrite Hloop. f_equal. f_equal. rewrite Hc1.
      unfold category_outcomes, scripts_of. cbn [replies_in_sequence zip_with].
      cbn [fst omap list_omap].
      destruct (category_outcome language category (client (calls w) req));
        cbn; [rewrite <- app_assoc|]; reflexivity.
    + rewrite Hc', Hc1, <- app_assoc. reflexivity.
Qed.

Lemma generate_code_run em paper_title language w :
  Typed.extracted_methods em = true ->
  exists reqs w',
    Res.traverse (generation_request templates em paper_title language)
      (grouped (ExtractedMethods.computational_methods em)) = Ok reqs
    /\ CodeGenerator.generate_code_from_methods client templates em paper_title
         language w
       = (Ok (scripts_of (category_outcomes client language (calls w)
                            (grouped (ExtractedMethods.computational_methods em))
                            reqs)), w')
    /\ calls w' = calls w ++ reqs.
Proof.
  intros Ht. destruct (typed_requests em paper_title language Ht) as [reqs Hreqs].
  destruct (generate_scripts_run em paper_title language _ reqs [] w Hreqs)
    as (w' & Hrun & Hc).
  exists reqs, w'. split; [exact Hreqs | split; [|exact Hc]].
  unfold CodeGenerator.generate_code_from_methods, Eff.bind, Eff.lift.
  rewrite group_methods_grouped.
  - exact Hrun.
  - apply typed_comparable. unfold Typed.extracted_methods in Ht.
    rewrite !andb_true_iff in Ht. tauto.
Qed.






End Generation.



(** * The searches of the code-generation parser *)

Section Searches.
Lemma append_cons x (a b : string) : String x a +:+ b = String x (a +:+ b).
Proof. reflexivity. Qed.

Lemma append_nil_l (b : string) : EmptyString +:+ b = b.
Proof. reflexivity. Qed.

Lemma append_assoc (a b c : string) : (a +:+ b) +:+ c = a +:+ (b +:+ c).
Proof.
  induction a as [|x a IH]; [reflexivity|].
  rewrite !append_cons, IH. reflexivity.
Qed.

Lemma append_nil_r (a : string) : a +:+ EmptyString = a.
Proof.
  induction a as [|x a IH]; [reflexivity|]. rewrite append_cons, IH. reflexivity.
Qed.

Lemma match_literal_split ci p s rest :
  Re.match_literal ci p s = Some rest ->
  exists tag, s = tag +:+ rest /\ same_text ci p tag.
Proof.
  revert s. induction p as [|a p IH]; intros s; simpl.
  - intros [= ->]. exists EmptyString. split; reflexivity.
  - destruct s as [|b s]; [discriminate|].
    destruct (Re.char_match ci a b) eqn:Hm; [|discriminate].
    intros Hrest. destruct (IH s Hrest) as (tag & -> & Htag).
    exists (String b tag). split; [reflexivity|].
    unfold same_text. simpl. rewrite Hm. exact Htag.
Qed.

Lemma match_literal_app ci p tag rest :
  same_text ci p tag -> Re.match_literal ci p (tag +:+ rest) = Some rest.
Proof.
  unfold same_text. revert tag. induction p as [|a p IH]; intros tag; simpl.
  - intros [= ->]. reflexivity.
  - destruct tag as [|b tag]; [discriminate|]. simpl.
    destruct (Re.char_match ci a b); [apply IH | discriminate].
Qed.

Lemma looking_at_app ci p tag rest :
  same_text ci p tag -> Re.looking_at ci p (tag +:+ rest) = true.
Proof.
  intros Ht. unfold Re.looking_at. rewrite (match_literal_app _ _ _ _ Ht).
  reflexivity.
Qed.

Lemma looking_at_split ci p s :
  Re.looking_at ci p s = true ->
  exists tag rest, s = tag +:+ rest /\ same_text ci p tag.
Proof.
  unfold Re.looking_at. destruct (Re.match_literal ci p s) as [rest|] eqn:Hm;
    [|discriminate].
  intros _. destruct (match_literal_split _ _ _ _ Hm) as (tag & -> & Ht). eauto.
Qed.

Lemma lazy_until_split stop s g :
  Re.lazy_until stop s = Some g -> exists rest, s = g +:+ rest /\ stop rest = true.
Proof.
  revert g. induction s as [|c s IH]; intros g; simpl.
  - destruct (stop EmptyString) eqn:Hs; [|discriminate].
    intros [= <-]. exists EmptyString. auto.
  - destruct (stop (String c s)) eqn:Hs.
    + intros [= <-]. exists (String c s). auto.
    + destruct (Re.lazy_until stop s) as [g'|]; [|discriminate].
      intros [= <-]. destruct (IH g' eq_refl) as (rest & -> & Hr).
      exists rest. auto.
Qed.

Lemma lazy_until_found stop g rest :
  stop rest = true -> Re.lazy_until stop (g +:+ rest) <> None.
Proof.
  intros Hs. induction g as [|c g IH]; simpl.
  - destruct rest; simpl; rewrite Hs; discriminate.
  - destruct (stop (String c (g +:+ rest))); [discriminate|].
    destruct (Re.lazy_until stop (g +:+ rest)); [discriminate | exact IH].
Qed.

Lemma search_split {A} (m : string -> option A) s r :
  Re.search m s = Some r -> exists pre rest, s = pre +:+ rest /\ m rest = Some r.
Proof.
  induction s as [|c s IH]; simpl.
  - destruct (m EmptyString) eqn:Hm; [|discriminate].
    intros [= <-]. exists EmptyString, EmptyString. auto.
  - destruct (m (String c s)) eqn:Hm.
    + intros [= <-]. exists EmptyString, (String c s). auto.
    + intros Hr. destruct (IH Hr) as (pre & rest & -> & Hm').
      exists (String c pre), rest. auto.
Qed.

Lemma search_found {A} (m : string -> option A) pre rest :
  m rest <> None -> Re.search m (pre +:+ rest) <> None.
Proof.
  intros Hm. induction pre as [|c pre IH]; simpl.
  - destruct rest; simpl; destruct (m _); congruence.
  - destruct (m (String c (pre +:+ rest))); [discriminate | exact IH].
Qed.

(** The fence has no letters: only the fence is the fence. *)
Lemma same_text_fence ci t : same_text ci Re.fence t -> t = Re.fence.
Proof.
  unfold same_text, Re.fence. simpl.
  assert (Hc : forall b, Re.char_match ci "`" b = true -> b = "`"%char).
  { intros b. unfold Re.char_match. destruct ci; intros Heq;
      apply Ascii.eqb_eq in Heq; [|congruence].
    change (Re.lower "`") with "`"%char in Heq.
    unfold Re.lower in Heq.
    destruct ((65 <=? nat_of_ascii b)%nat && (nat_of_ascii b <=? 90)%nat) eqn:Hup;
      [|congruence].
    apply andb_true_iff in Hup as [H1 H2]. apply Nat.leb_le in H1, H2.
    apply (f_equal nat_of_ascii) in Heq.
    rewrite nat_ascii_embedding in Heq by lia.
    change (nat_of_ascii "`") with 96%nat in Heq. lia. }
  destruct t as [|b1 t]; [discriminate|].
  destruct (Re.char_match ci "`" b1) eqn:H1; [|discriminate].
  destruct t as [|b2 t]; [discriminate|].
  destruct (Re.char_match ci "`" b2) eqn:H2; [|discriminate].
  destruct t as [|b3 t]; [discriminate|].
  destruct (Re.char_match ci "`" b3) eqn:H3; [|discriminate].
  intros [= ->]. rewrite (Hc _ H1), (Hc _ H2), (Hc _ H3). reflexivity.
Qed.

Lemma same_text_refl_fence ci : same_text ci Re.fence Re.fence.
Proof. destruct ci; reflexivity. Qed.

Lemma search_block_some ci opener reply body :
  Re.search (Re.fenced_block ci opener) reply = Some body -> block ci opener reply body.
Proof.
  intros Hs. destruct (search_split _ _ _ Hs) as (pre & rest & -> & Hm).
  unfold Re.fenced_block in Hm.
  destruct (Re.match_literal ci opener rest) as [rest1|] eqn:Ho; [|discriminate].
  destruct (match_literal_split _ _ _ _ Ho) as (tag & -> & Htag).
  destruct (lazy_until_split _ _ _ Hm) as (rest2 & -> & Hf).
  destruct (looking_at_split _ _ _ Hf) as (f & post & -> & Hfence).
  rewrite (same_text_fence _ _ Hfence).
  exists pre, tag, post. split; [reflexivity | exact Htag].
Qed.

Lemma search_block_none ci opener reply :
  Re.search (Re.fenced_block ci opener) reply = None -> ~ has_block ci opener reply.
Proof.
  intros Hs (body & pre & tag & post & -> & Htag).
  revert Hs. apply search_found. unfold Re.fenced_block.
  rewrite (match_literal_app _ _ _ _ Htag).
  apply lazy_until_found, looking_at_app, same_text_refl_fence.
Qed.

Lemma lazy_until_at_end stop s :
  (forall r, Re.at_end r = true -> stop r = true) -> Re.lazy_until stop s <> None.
Proof.
  intros Hend. rewrite <- (append_nil_r s).
  apply lazy_until_found, Hend. reflexivity.
Qed.

End Searches.

(** * The code-generation parser *)

Section Parser.
Context `{PyRuntime}.

Lemma search_section_until_none label next reply :
  Re.search (Re.section_until label next) reply = None -> ~ mentions label reply.
Proof.
  intros Hs (pre & tag & post & -> & Htag).
  revert Hs. apply search_found. unfold Re.section_until.
  rewrite (match_literal_app _ _ _ _ Htag).
  apply lazy_until_at_end. intros r ->. apply orb_true_r.
Qed.

Lemma search_section_to_end_none label reply :
  Re.search (Re.section_to_end label) reply = None -> ~ mentions label reply.
Proof.
  intros Hs (pre & tag & post & -> & Htag).
  revert Hs. apply search_found. unfold Re.section_to_end.
  rewrite (match_literal_app _ _ _ _ Htag).
  apply lazy_until_at_end. auto.
Qed.

End Parser.


(** * The conversational engine: soft failures *)

Section Asking.
Context `{PyRuntime}.
Variable client : Gateway.

Lemma traverse_all_ok {A B} (f : A -> result B) l :
  (forall x, In x l -> is_ok (f x) = true) -> is_ok (Res.traverse f l) = true.
Proof.
  intros Hf. destruct (traverse_ok f l Hf) as [ys ->]. reflexivity.
Qed.

Lemma method_context_ok m :
  Typed.computational_method m = true ->
  is_ok (InteractiveQA.method_context m) = true.
Proof.
  unfold Typed.computational_method. rewrite !andb_true_iff.
  intros (((((_ & _) & Ht) & Hl) & _) & _).
  unfold InteractiveQA.method_context.
  pose proof (join_ok ", " _ Ht) as Hj1. pose proof (join_ok ", " _ Hl) as Hj2.
  destruct (Py.join ", " (ComputationalMethod.software_tools m)); [|discriminate].
  destruct (Py.join ", " (ComputationalMethod.programming_languages m));
    [reflexivity | discriminate].
Qed.

Lemma workflow_context_ok wf :
  Typed.workflow wf = true -> is_ok (InteractiveQA.workflow_context wf) = true.
Proof.
  unfold Typed.workflow. rewrite !andb_true_iff.
  intros ((((_ & Hs) & Hi) & Ho) & Hd).
  unfold InteractiveQA.workflow_context.
  pose proof (join_ok " → " _ Hs) as H1. pose proof (join_ok ", " _ Hi) as H2.
  pose proof (join_ok ", " _ Ho) as H3. pose proof (join_ok ", " _ Hd) as H4.
  destruct (Py.join " → " (Workflow.steps wf)); [|discriminate].
  destruct (Py.join ", " (Workflow.input_data wf)); [|discriminate].
  destruct (Py.join ", " (Workflow.output_data wf)); [|discriminate].
  destruct (Py.join ", " (Workflow.dependencies wf)); [reflexivity | discriminate].
Qed.

(** With a typed context loaded, the prompt can be built. *)
Lemma qa_prompt_ok self h question pm em :
  InteractiveQA.paper_metadata self = Some pm ->
  InteractiveQA.extracted_methods self = Some em ->
  Typed.extracted_methods em = true ->
  exists prompt, InteractiveQA._create_qa_prompt self h question = Ok prompt.
Proof.
  intros Hpm Hem. unfold Typed.extracted_methods. rewrite !andb_true_iff.
  intros ((((Hms & _) & Hws) & Hk) & _).
  unfold InteractiveQA._create_qa_prompt. rewrite Hpm, Hem.
  destruct (traverse_ok InteractiveQA.method_context
              (ExtractedMethods.computational_methods em)) as [mcs ->].
  { intros m Hin. apply method_context_ok.
    exact (proj1 (forallb_forall _ _) Hms m Hin). }
  destruct (traverse_ok InteractiveQA.workflow_context
              (ExtractedMethods.workflows em)) as [wcs ->].
  { intros wf Hin. apply workflow_context_ok.
    exact (proj1 (forallb_forall _ _) Hws wf Hin). }
  cbn [Res.bind].
  pose proof (join_ok PyStr.newline _ Hk) as Hj.
  destruct (Py.join PyStr.newline (ExtractedMethods.key_findings em));
    [|discriminate].
  eexists. reflexivity.
Qed.

End Asking.


(** * The conversational engine: the history *)

Section History.
Context `{PyRuntime}.
Variable client : Gateway.

Lemma denotes_exchanges h items exs :
  denotes h items exs -> PyList.exchanges h items = exs.
Proof.
  induction 1 as [|l e items exs Hl _ IH]; [reflexivity|].
  unfold PyList.exchanges in *. cbn. unfold PyList.exchange_at at 1.
  rewrite Hl. cbn. rewrite IH. reflexivity.
Qed.

Lemma holds_history self h exs : holds self h exs -> InteractiveQA.history self h = exs.
Proof.
  intros (items & Hl & Hd). unfold InteractiveQA.history, PyList.items.
  rewrite Hl. apply denotes_exchanges, Hd.
Qed.

Lemma holds_well_formed self h : well_formed self h <-> exists exs, holds self h exs.
Proof.
  split.
  - intros (items & Hl & Hall).
    assert (exists exs, denotes h items exs) as [exs Hexs].
    { clear Hl. induction Hall as [|l items [e He] _ [exs IH]].
      - exists []. constructor.
      - exists (e :: exs). constructor; assumption. }
    exists exs, items. auto.
  - intros (exs & items & Hl & Hd). exists items. split; [exact Hl|].
    clear Hl. induction Hd; constructor; eauto.
Qed.

(** Objects that are not touched keep what they denote. *)
Lemma denotes_agree h h' items exs :
  denotes h items exs ->
  (forall l e, h !! l = Some (ExchangeObj e) -> h' !! l = Some (ExchangeObj e)) ->
  denotes h' items exs.
Proof. intros Hd Hagree. induction Hd; constructor; auto. Qed.

Lemma denotes_alloc h l o items exs :
  denotes h items exs -> l ∉ dom h -> denotes (<[l := o]> h) items exs.
Proof.
  intros Hd Hfresh. apply (denotes_agree h); [exact Hd|].
  intros k e Hk. rewrite lookup_insert_ne; [exact Hk|].
  intros ->. apply Hfresh, elem_of_dom. eauto.
Qed.

Lemma denotes_store_list h l old new items exs :
  denotes h items exs -> h !! l = Some (ListObj old) ->
  denotes (<[l := ListObj new]> h) items exs.
Proof.
  intros Hd Hl. apply (denotes_agree h); [exact Hd|].
  intros k e Hk. rewrite lookup_insert_ne; [exact Hk|].
  intros ->. congruence.
Qed.

Lemma denotes_slice_from h items exs start :
  denotes h items exs ->
  denotes h (PyList.slice_from items start) (PyList.slice_from exs start).
Proof.
  intros Hd. unfold PyList.slice_from.
  rewrite (Forall2_length _ _ _ Hd). apply Forall2_drop, Hd.
Qed.

Lemma slice_from_short {A} (l : list A) :
  (length l <= 10)%nat -> PyList.slice_from l (-10) = l.
Proof.
  intros Hl. unfold PyList.slice_from, PyStr.clamp.
  change (-10 <? 0) with true. cbv iota.
  replace (Z.to_nat (Z.max 0 (-10 + Z.of_nat (length l)))) with 0%nat by lia.
  reflexivity.
Qed.

Lemma length_slice_from {A} (l : list A) :
  length (PyList.slice_from l (-10)) = Nat.min (length l) 10.
Proof.
  unfold PyList.slice_from, PyStr.clamp.
  change (-10 <? 0) with true. cbv iota. rewrite length_drop. lia.
Qed.

Lemma items_store (h : gmap loc object) l xs :
  PyList.items (<[l := ListObj xs]> h) l = xs.
Proof. unfold PyList.items. rewrite lookup_insert_eq. reflexivity. Qed.

(** What [_add_to_history] does to a history. *)
Lemma add_to_history_holds question answer self w exs :
  holds self (heap w) exs ->
  exists self' w',
    InteractiveQA._add_to_history question answer self w = (Ok self', w')
    /\ holds self' (heap w')
         (PyList.slice_from (exs ++ [recorded question answer (clock w)]) (-10))
    /\ InteractiveQA.paper_metadata self' = InteractiveQA.paper_metadata self
    /\ InteractiveQA.extracted_methods self' = InteractiveQA.extracted_methods self
    /\ calls w' = calls w
    /\ clock w' = S (clock w).
Proof.
  intros (items & Hl & Hd).
  set (ex := recorded question answer (clock w)).
  set (le := fresh (dom (heap w))).
  set (lh := InteractiveQA.conversation_history self).
  assert (Hle : le ∉ dom (heap w)) by apply is_fresh.
  assert (Hne : le <> lh).
  { intros Heq. apply Hle. rewrite Heq. apply elem_of_dom. eauto. }
  set (h2 := <[le := ExchangeObj ex]> (heap w)).
  set (h3 := <[lh := ListObj (items ++ [le])]> h2).
  assert (H2l : h2 !! lh = Some (ListObj items)).
  { unfold h2. rewrite lookup_insert_ne by exact Hne. exact Hl. }
  assert (E1 : PyList.items h2 lh = items).
  { unfold PyList.items. rewrite H2l. reflexivity. }
  assert (Hd3 : denotes h3 (items ++ [le]) (exs ++ [ex])).
  { apply Forall2_app.
    - apply (denotes_store_list h2 lh items); [|exact H2l].
      apply denotes_alloc; assumption.
    - constructor; [|constructor]. unfold h3.
      rewrite lookup_insert_ne by congruence. unfold h2.
      apply lookup_insert_eq. }
  unfold InteractiveQA._add_to_history, Eff.bind, Eff.now, Eff.alloc, PyList.load,
    Eff.store, Eff.ret.
  cbn [heap set_clock set_heap calls clock files stdout].
  fold le. fold ex. unfold recorded in ex. fold ex. fold h2. fold lh.
  rewrite E1. fold h3. unfold h3 at 1 2. rewrite !items_store. fold h3.
  destruct (10 <? length (items ++ [le]))%nat eqn:Hlen.
  - cbn [heap set_clock set_heap calls clock files stdout].
    set (lk := fresh (dom h3)).
    assert (Hlk : lk ∉ dom h3) by apply is_fresh.
    eexists _, _. split; [reflexivity|].
    cbn [heap calls clock InteractiveQA.paper_metadata
           InteractiveQA.extracted_methods InteractiveQA.conversation_history].
    repeat split.
    exists (PyList.slice_from (items ++ [le]) (-10)). split.
    + apply lookup_insert_eq.
    + apply denotes_alloc; [|exact Hlk].
      apply denotes_slice_from, Hd3.
  - eexists _, _. split; [reflexivity|].
    cbn [heap calls clock]. repeat split.
    apply Nat.ltb_ge in Hlen.
    rewrite slice_from_short.
    + exists (items ++ [le]). split; [apply lookup_insert_eq | exact Hd3].
    + rewrite <- (Forall2_length _ _ _ Hd3). exact Hlen.
Qed.

(** A question that is answered: the answer is returned and the
    exchange recorded, and the history keeps its last ten. *)
Lemma ask_question_answered question self w pm em prompt text exs :
  InteractiveQA.paper_metadata self = Some pm ->
  InteractiveQA.extracted_methods self = Some em ->
  InteractiveQA._create_qa_prompt self (heap w) question = Ok prompt ->
  client (calls w) (question_request prompt) = Reply text ->
  holds self (heap w) exs ->
  exists self' w',
    InteractiveQA.ask_question client question self w = (Ok (text, self'), w')
    /\ holds self' (heap w')
         (PyList.slice_from (exs ++ [recorded question text (clock w)]) (-10))
    /\ InteractiveQA.paper_metadata self' = Some pm
    /\ InteractiveQA.extracted_methods self' = Some em
    /\ calls w' = calls w ++ [question_request prompt]
    /\ clock w' = S (clock w).
Proof.
  intros Hpm Hem Hp Hr Hh.
  destruct (add_to_history_holds question text self
              (set_calls (calls w ++ [question_request prompt]) w) exs Hh)
    as (self' & w' & Hadd & Hh' & Hpm' & Hem' & Hc & Hk).
  exists self', w'. unfold InteractiveQA.ask_question. rewrite Hpm, Hem.
  unfold Eff.bind at 1. rewrite Hp.
  unfold Eff.try_except, Eff.bind, Eff.messages_create.
  unfold question_request in Hr. rewrite Hr.
  unfold question_request in Hadd. rewrite Hadd. unfold Eff.ret.
  repeat split; try assumption; congruence.
Qed.

Lemma slice_from_last {A} (l : list A) :
  PyList.slice_from l (-10) = drop (length l - 10) l.
Proof.
  unfold PyList.slice_from, PyStr.clamp. change (-10 <? 0) with true. cbv iota.
  f_equal. lia.
Qed.

Lemma slice_from_slice_from {A} (l k : list A) :
  PyList.slice_from (PyList.slice_from l (-10) ++ k) (-10)
  = PyList.slice_from (l ++ k) (-10).
Proof.
  rewrite !slice_from_last.
  rewrite <- (drop_app_le l k (length l - 10)) by lia.
  rewrite drop_drop. f_equal.
  rewrite length_drop, !length_app. lia.
Qed.

(** Questions that are all answered, one after the other. *)
Lemma ask_each_answered pm em questions : forall self w exs,
  InteractiveQA.paper_metadata self = Some pm ->
  InteractiveQA.extracted_methods self = Some em ->
  Typed.extracted_methods em = true ->
  always_answers client ->
  holds self (heap w) exs ->
  exists answers self' w',
    ask_each client questions self w = (answers, self', w')
    /\ length answers = length questions
    /\ holds self' (heap w')
         (match questions with
          | [] => exs
          | _ => PyList.slice_from
                   (exs ++ recorded_all questions answers (clock w)) (-10)
          end).
Proof.
  induction questions as [|q qs IH]; intros self w exs Hpm Hem Ht Hans Hh.
  - exists [], self, w. auto.
  - destruct (qa_prompt_ok self (heap w) q pm em Hpm Hem Ht) as [prompt Hp].
    destruct (Hans (calls w) (question_request prompt)) as [text Hr].
    destruct (ask_question_answered q self w pm em prompt text exs Hpm Hem Hp Hr Hh)
      as (self1 & w1 & Hask & Hh1 & Hpm1 & Hem1 & _ & Hk1).
    destruct (IH self1 w1 _ Hpm1 Hem1 Ht Hans Hh1)
      as (answers & self' & w' & Hrest & Hlen & Hh').
    exists (text :: answers), self', w'. cbn [ask_each]. rewrite Hask, Hrest.
    split; [reflexivity | split; [simpl; congruence|]].
    destruct qs as [|q' qs].
    + destruct answers; [|discriminate]. exact Hh'.
    + destruct answers as [|a answers]; [discriminate|].
      rewrite slice_from_slice_from, Hk1, <- app_assoc in Hh'. exact Hh'.
Qed.

(** What the caller of [get_conversation_history] sees is the
    history. *)
Lemma history_returned_holds self w exs :
  holds self (heap w) exs -> history_returned self w = exs.
Proof.
  intros (items & Hl & Hd).
  unfold history_returned, InteractiveQA.get_conversation_history, Eff.bind,
    PyList.load, Eff.alloc.
  cbn [heap set_heap]. rewrite items_store.
  unfold PyList.items. rewrite Hl.
  apply denotes_exchanges, denotes_alloc; [exact Hd | apply is_fresh].
Qed.

Lemma length_recorded_all (questions answers : list string) time :
  length questions = length answers ->
  length (recorded_all questions answers time) = length questions.
Proof.
  revert answers time.
  induction questions as [|q qs IH]; intros [|a answers] time Hl; simpl in *;
    try discriminate; [reflexivity|].
  f_equal. apply IH. lia.
Qed.

(** After eleven questions, all answered, the history has ten
    exchanges and the first is the one of the second question. *)
Lemma eleven_questions pm em questions self w exs :
  InteractiveQA.paper_metadata self = Some pm ->
  InteractiveQA.extracted_methods self = Some em ->
  Typed.extracted_methods em = true ->
  always_answers client ->
  holds self (heap w) exs ->
  length questions = 11%nat ->
  exists answers self' w',
    ask_each client questions self w = (answers, self', w')
    /\ length answers = 11%nat
    /\ history_returned self' w'
       = drop 1 (recorded_all questions answers (clock w))
    /\ length (history_returned self' w') = 10%nat.
Proof.
  intros Hpm Hem Ht Hans Hh Hlen.
  destruct (ask_each_answered pm em questions self w exs Hpm Hem Ht Hans Hh)
    as (answers & self' & w' & Hrun & Hla & Hh').
  exists answers, self', w'. split; [exact Hrun|]. rewrite Hlen in Hla.
  split; [exact Hla|].
  destruct questions as [|q0 qs]; [discriminate|].
  rewrite (history_returned_holds _ _ _ Hh').
  assert (Hr : length (recorded_all (q0 :: qs) answers (clock w)) = 11%nat).
  { rewrite length_recorded_all; congruence. }
  rewrite slice_from_last, length_app, Hr.
  replace (length exs + 11 - 10)%nat with (length exs + 1)%nat by lia.
  rewrite drop_app_add. split; [reflexivity|].
  rewrite length_drop, Hr. reflexivity.
Qed.

(** Whatever its outcome, [ask_question] leaves a history of at most ten
    exchanges when it finds one. *)
Lemma ask_question_keeps_cap question self w exs r w' :
  holds self (heap w) exs -> (length exs <= 10)%nat ->
  InteractiveQA.ask_question client question self w = (r, w') ->
  match r with
  | Ok (_, self') =>
      exists exs', holds self' (heap w') exs' /\ (length exs' <= 10)%nat
  | Raise _ => holds self (heap w') exs
  end.
Proof.
  intros Hh Hlen. unfold InteractiveQA.ask_question.
  destruct (InteractiveQA.paper_metadata self) as [pm|] eqn:Hpm;
    [destruct (InteractiveQA.extracted_methods self) as [em|] eqn:Hem|].
  - unfold Eff.bind at 1.
    destruct (InteractiveQA._create_qa_prompt self (heap w) question)
      as [prompt|e] eqn:Hp.
    + destruct (client (calls w) (question_request prompt)) as [text|e] eqn:Hr.
      * destruct (ask_question_answered question self w pm em prompt text exs
                    Hpm Hem Hp Hr Hh) as (self' & w1 & Hask & Hh' & _).
        unfold InteractiveQA.ask_question in Hask. rewrite Hpm, Hem in Hask.
        unfold Eff.bind at 1 in Hask. rewrite Hp in Hask. rewrite Hask.
        intros [= <- <-]. eexists. split; [exact Hh'|].
        rewrite length_slice_from. lia.
      * unfold Eff.try_except, Eff.bind, Eff.messages_create.
        unfold question_request in Hr. rewrite Hr. unfold Eff.ret.
        intros [= <- <-]. exists exs. auto.
    + intros [= <- <-]. exact Hh.
  - intros [= <- <-]. exists exs. auto.
  - intros [= <- <-]. exists exs. auto.
Qed.

(** [clear_conversation] empties the history. *)
Lemma clear_conversation_empties self w exs :
  holds self (heap w) exs ->
  holds self (heap (snd (InteractiveQA.clear_conversation self w))) [].
Proof.
  intros (items & Hl & _). exists []. split; [apply lookup_insert_eq | constructor].
Qed.

(** The exchanges of the saved items are allocated one after the other,
    and allocation only adds objects. *)
Lemma traverse_load_exchange items : forall w,
  Forall (fun item => is_Some (loaded_exchange item)) items ->
  exists locs w',
    PyList.traverse InteractiveQA.load_exchange items w = (Ok locs, w')
    /\ denotes (heap w') locs (omap loaded_exchange items)
    /\ (forall k o, heap w !! k = Some o -> heap w' !! k = Some o).
Proof.
  induction items as [|item items IH]; intros w Hall.
  - exists [], w. split; [reflexivity | split; [constructor | auto]].
  - inversion Hall as [|? ? [e He] Hrest]; subst.
    set (l := fresh (dom (heap w))).
    set (w1 := set_heap (<[l := ExchangeObj e]> (heap w)) w).
    assert (Hstep : InteractiveQA.load_exchange item w = (Ok l, w1)).
    { unfold InteractiveQA.load_exchange, loaded_exchange in *.
      unfold Eff.bind, Eff.lift, Eff.alloc.
      destruct (Py.getitem item "question"); [|discriminate].
      destruct (Py.getitem item "answer"); [|discriminate].
      destruct (Py.getitem item "timestamp"); [|discriminate].
      injection He as <-. reflexivity. }
    destruct (IH w1 Hrest) as (locs & w' & Hrun & Hd & Hmono).
    exists (l :: locs), w'. cbn [PyList.traverse]. unfold Eff.bind at 1.
    rewrite Hstep. unfold Eff.bind at 1. rewrite Hrun. unfold Eff.ret.
    split; [reflexivity | split].
    + cbn [omap list_omap]. rewrite He. constructor; [|exact Hd].
      apply Hmono. unfold w1. cbn [heap set_heap]. apply lookup_insert_eq.
    + intros k o Hk. apply Hmono. unfold w1. cbn [heap set_heap].
      rewrite lookup_insert_ne; [exact Hk|].
      intros <-. assert (l ∉ dom (heap w)) as Hf by apply is_fresh.
      apply Hf, elem_of_dom. eauto.
Qed.

(** [load_conversation] installs every exchange of the file: the
    history it leaves is as long as the saved one. *)
Lemma load_conversation_keeps_all path self w text data items :
  files w !! path = Some text ->
  json_decode text = inr (VDict data) ->
  dict_lookup "conversation_history" data = Some (VList items) ->
  Forall (fun item => is_Some (loaded_exchange item)) items ->
  exists self' w',
    InteractiveQA.load_conversation path self w = (Ok self', w')
    /\ holds self' (heap w') (omap loaded_exchange items)
    /\ length (omap loaded_exchange items) = length items.
Proof.
  intros Hfile Hjson Hkey Hall.
  destruct (traverse_load_exchange items w Hall) as (locs & w1 & Hrun & Hd & _).
  unfold InteractiveQA.load_conversation, Eff.bind, Eff.read_file, Eff.lift,
    json_loads.
  rewrite Hfile, Hjson. cbn [Py.getitem]. rewrite Hkey. cbn [Py.iter].
  rewrite Hrun. unfold Eff.alloc, Eff.ret.
  eexists _, _. split; [reflexivity|].
  cbn [heap set_heap InteractiveQA.conversation_history]. split.
  - exists locs. split; [apply lookup_insert_eq|].
    apply denotes_alloc; [exact Hd | apply is_fresh].
  - rewrite <- (Forall2_length _ _ _ Hd).
    clear -Hall Hd. revert locs Hd.
    induction Hall as [|item items [e He] _ IH]; intros locs Hd.
    + inversion Hd. reflexivity.
    + cbn [omap list_omap] in Hd. rewrite He in Hd.
      inversion Hd as [|? ? locs' ? ? Hd']; subst. simpl. f_equal. apply IH, Hd'.
Qed.
End History.

(** C2 fails on the code at this input: [load_conversation] on the file
    of a conversation of eleven exchanges leaves a history of eleven
    exchanges, which [get_conversation_history] returns in full; the
    next question that is answered brings it back to ten. *)
Theorem load_conversation_exceeds_cap :
  match @InteractiveQA.load_conversation Mini.runtime "chat.json" new_engine
          (world_with_file "chat.json" (saved_conversation 11)) with
  | (Ok self', w') =>
      length (history_returned self' w') = 11%nat
      /\ length (history_returned
                   (snd (fst (@ask_each Mini.runtime (Mini.answering "Yes.")
                                ["Is it so?"]
                                (InteractiveQA.load_paper_context sample_paper
                                   sample_result self') w')))
                   (snd (@ask_each Mini.runtime (Mini.answering "Yes.")
                           ["Is it so?"]
                           (InteractiveQA.load_paper_context sample_paper
                              sample_result self') w'))) = 10%nat
  | (Raise _, _) => False
  end.
Proof. vm_compute. split; reflexivity. Qed.

(** Eleven questions to an engine just made, each answered: the caller
    sees ten exchanges, the first of them for the second question. *)
Lemma eleven_questions_run :
  let questions := map (fun n => "question " +:+ pretty n) (seq 1 11) in
  let '(answers, self', w') :=
    @ask_each Mini.runtime (Mini.answering "Yes.") questions
      (InteractiveQA.load_paper_context sample_paper sample_result new_engine)
      (world_with_file "chat.json" (saved_conversation 0)) in
  length answers = 11%nat
  /\ length (history_returned self' w') = 10%nat
  /\ hd_error (history_returned self' w')
     = Some (@recorded Mini.runtime "question 2" "Yes." 1).
Proof. vm_compute. repeat split. Qed.

(** * The conversational engine: the history is returned by copy *)

Section Copy.
Context `{PyRuntime}.

Lemma exchanges_untouched h h2 items :
  extends_untouched h h2 ->
  Forall (fun l => exists e, h !! l = Some (ExchangeObj e)) items ->
  PyList.exchanges h2 items = PyList.exchanges h items.
Proof.
  intros Hext Hall. unfold PyList.exchanges.
  induction Hall as [|l items [e He] _ IH]; [reflexivity|].
  assert (Hat : PyList.exchange_at h2 l = PyList.exchange_at h l).
  { unfold PyList.exchange_at. rewrite (Hext l) by (apply elem_of_dom; eauto).
    reflexivity. }
  cbn [omap list_omap]. rewrite Hat, IH. reflexivity.
Qed.

Lemma history_untouched self h h2 :
  well_formed self h -> extends_untouched h h2 ->
  InteractiveQA.history self h2 = InteractiveQA.history self h.
Proof.
  intros (items & Hl & Hall) Hext. unfold InteractiveQA.history, PyList.items.
  rewrite (Hext (InteractiveQA.conversation_history self))
    by (apply elem_of_dom; eauto).
  rewrite Hl. apply exchanges_untouched; assumption.
Qed.

Lemma qa_prompt_history self h h2 question :
  InteractiveQA.history self h2 = InteractiveQA.history self h ->
  InteractiveQA._create_qa_prompt self h2 question
  = InteractiveQA._create_qa_prompt self h question.
Proof.
  intros Hh. unfold InteractiveQA._create_qa_prompt. rewrite Hh. reflexivity.
Qed.

(** C10.  [get_conversation_history] returns a new list object with
    the references of the history.  Whatever the caller then puts in
    that list, and whatever objects it makes, the history of the
    engine and the prompt of every question are what they were. *)
Theorem history_is_returned_by_copy self w :
  well_formed self (heap w) ->
  exists copy items w1,
    InteractiveQA.get_conversation_history self w = (Ok copy, w1)
    /\ heap w !! InteractiveQA.conversation_history self = Some (ListObj items)
    /\ heap w1 = <[copy := ListObj items]> (heap w)
    /\ (copy ∉ dom (heap w))
    /\ copy <> InteractiveQA.conversation_history self
    /\ (forall items',
          let h2 := <[copy := ListObj items']> (heap w1) in
          h2 !! copy = Some (ListObj items')
          /\ InteractiveQA.history self h2 = InteractiveQA.history self (heap w)
          /\ forall question,
               InteractiveQA._create_qa_prompt self h2 question
               = InteractiveQA._create_qa_prompt self (heap w) question)
    /\ (forall h2,
          extends_untouched (heap w) h2 ->
          InteractiveQA.history self h2 = InteractiveQA.history self (heap w)
          /\ forall question,
               InteractiveQA._create_qa_prompt self h2 question
               = InteractiveQA._create_qa_prompt self (heap w) question).
Proof.
  intros Hwf. pose proof Hwf as (items & Hl & Hall).
  set (copy := fresh (dom (heap w))).
  assert (Hfresh : copy ∉ dom (heap w)) by apply is_fresh.
  assert (Hne : copy <> InteractiveQA.conversation_history self).
  { intros Heq. apply Hfresh. rewrite Heq. apply elem_of_dom. eauto. }
  assert (Hframe : forall h2, extends_untouched (heap w) h2 ->
            InteractiveQA.history self h2 = InteractiveQA.history self (heap w)
            /\ forall question,
                 InteractiveQA._create_qa_prompt self h2 question
                 = InteractiveQA._create_qa_prompt self (heap w) question).
  { intros h2 Hext.
    pose proof (history_untouched self (heap w) h2 Hwf Hext) as Hh.
    split; [exact Hh | intros q; apply qa_prompt_history, Hh]. }
  exists copy, items, (set_heap (<[copy := ListObj items]> (heap w)) w).
  split; [|repeat split; try assumption].
  - unfold InteractiveQA.get_conversation_history, Eff.bind, PyList.load, Eff.alloc.
    unfold PyList.items. rewrite Hl. reflexivity.
  - apply lookup_insert_eq.
  - apply Hframe. intros k Hk. cbn [heap set_heap].
    rewrite !lookup_insert_ne; [reflexivity | |]; intros <-; exact (Hfresh Hk).
  - intros question. apply Hframe. intros k Hk. cbn [heap set_heap].
    rewrite !lookup_insert_ne; [reflexivity | |]; intros <-; exact (Hfresh Hk).
  - apply Hframe. assumption.
  - apply Hframe. assumption.
Qed.
End Copy.

Lemma history_is_returned_by_copy_witness :
  let self := snd (fst after_two_questions) in
  let w := snd after_two_questions in
  well_formed self (heap w)
  /\ length (InteractiveQA.history self (heap w)) = 2%nat
  /\ exists copy w1,
       InteractiveQA.get_conversation_history self w = (Ok copy, w1)
       /\ InteractiveQA.history self (<[copy := ListObj []]> (heap w1))
          = InteractiveQA.history self (heap w).
Proof.
  intros self w.
  assert (Hwf : well_formed self (heap w)).
  { exists [1%nat; 2%nat]. split; [vm_compute; reflexivity|].
    repeat constructor; eexists; vm_compute; reflexivity. }
  split; [exact Hwf | split; [vm_compute; reflexivity|]].
  destruct (@history_is_returned_by_copy Mini.runtime self w Hwf)
    as (copy & items & w1 & Hget & _ & _ & _ & _ & Hmut & _).
  exists copy, w1. split; [exact Hget|].
  exact (proj1 (proj2 (Hmut []))).
Defined.

(** The copy is shallow: the exchange objects are shared, and a change
    made to one of them through the copy shows in the history. *)
Lemma history_copy_is_shallow :
  let self := snd (fst after_two_questions) in
  let w := snd after_two_questions in
  match InteractiveQA.get_conversation_history self w with
  | (Ok copy, w1) =>
      match PyList.items (heap w1) copy with
      | first :: _ =>
          let changed :=
            <[first := ExchangeObj (QAExchange.mk (VStr "first") (VStr "No.")
                                      (VStr "T0") InteractiveQA.CONTEXT_USED)]>
              (heap w1) in
          InteractiveQA.history self changed <> InteractiveQA.history self (heap w)
      | [] => False
      end
  | (Raise _, _) => False
  end.
Proof. vm_compute. discriminate. Qed.

(** * Results off their declared types *)

(** The prompts are built outside the [try] blocks: with a field that
    is not of its declared type, code generation and [ask_question]
    raise, and no request is made. *)
Lemma untyped_result_raises :
  Typed.extracted_methods untyped_result = false
  /\ @CodeGenerator.generate_code_from_methods Mini.runtime
       (Mini.answering formatted_reply) ∅ untyped_result "title" "python"
       Mini.empty_world
     = (Raise (TypeError JoinNotIterable), Mini.empty_world)
  /\ fst (@InteractiveQA.ask_question Mini.runtime (Mini.answering "Yes.")
            "Which test was used?"
            (InteractiveQA.load_paper_context sample_paper untyped_result new_engine)
            (world_with_file "chat.json" (saved_conversation 0)))
     = Raise (TypeError JoinNotIterable).
Proof. repeat split. Qed.



(** * The operations that only read the history *)

Section Reads.
Context `{PyRuntime}.
Variable client : Gateway.

(** Loading a context, suggesting questions, exporting the conversation
    and returning the history leave the history as it is. *)
Lemma history_kept_by_reads self w exs :
  holds self (heap w) exs ->
  (forall pm em, holds (InteractiveQA.load_paper_context pm em self) (heap w) exs)
  /\ holds self (heap (snd (InteractiveQA.suggest_questions client self w))) exs
  /\ (forall path,
        holds self (heap (snd (InteractiveQA.export_conversation path self w))) exs)
  /\ holds self (heap (snd (InteractiveQA.get_conversation_history self w))) exs.
Proof.
  intros Hh. split; [|split; [|split]].
  - intros pm em. exact Hh.
  - unfold InteractiveQA.suggest_questions.
    destruct (InteractiveQA.paper_metadata self);
      [destruct (InteractiveQA.extracted_methods self)|]; try exact Hh.
    unfold Eff.try_except, Eff.bind, Eff.messages_create, Eff.ret.
    destruct (client (calls w) _); exact Hh.
  - intros path. exact Hh.
  - destruct Hh as (items & Hl & Hd).
    unfold InteractiveQA.get_conversation_history, Eff.bind, PyList.load, Eff.alloc.
    cbn [snd heap set_heap].
    assert (Hfresh : fresh (dom (heap w)) ∉ dom (heap w)) by apply is_fresh.
    exists items. split.
    + rewrite lookup_insert_ne; [exact Hl|].
      intros Heq. apply Hfresh. rewrite Heq. apply elem_of_dom. eauto.
    + apply denotes_alloc; assumption.
Qed.
End Reads.

Section Slices.
Lemma str_length_app (a b : string) :
  String.length (a +:+ b) = (String.length a + String.length b)%nat.
Proof.
  induction a as [|c a IH]; [reflexivity|].
  rewrite append_cons. simpl. now rewrite IH.
Qed.

Lemma str_take_all n s : (String.length s <= n)%nat -> PyStr.take n s = s.
Proof.
  revert n. induction s as [|c s IH]; intros [|n] Hn; simpl in *; try reflexivity; try lia.
  f_equal. apply IH. lia.
Qed.

Lemma str_take_take n m s : (n <= m)%nat -> PyStr.take n (PyStr.take m s) = PyStr.take n s.
Proof.
  revert m s. induction n as [|n IH]; intros [|m] [|c s] Hn; simpl; try reflexivity; try lia.
  f_equal. apply IH. lia.
Qed.

Lemma str_take_app n (a b : string) :
  (n <= String.length a)%nat -> PyStr.take n (a +:+ b) = PyStr.take n a.
Proof.
  revert a. induction n as [|n IH]; intros [|c a] Hn; simpl in *; try reflexivity; try lia.
  all: try (rewrite append_nil_l; now destruct b).
  f_equal. apply IH. lia.
Qed.

Lemma str_take_app_length (a b : string) : PyStr.take (String.length a) (a +:+ b) = a.
Proof.
  rewrite str_take_app by lia. apply str_take_all. lia.
Qed.

Lemma str_drop_app_length (a b : string) : PyStr.drop (String.length a) (a +:+ b) = b.
Proof.
  induction a as [|c a IH]; simpl.
  - try rewrite append_nil_l. now destruct b.
  - try rewrite append_cons. exact IH.
Qed.

(** [s[:stop]] is the first [stop] characters of [s], or [s]. *)
Lemma slice_to_take s stop :
  0 <= stop -> PyStr.slice_to s stop = PyStr.take (Z.to_nat stop) s.
Proof.
  intros Hstop. unfold PyStr.slice_to, PyStr.slice, PyStr.clamp.
  change (0 <? 0) with false. cbv iota.
  destruct (stop <? 0) eqn:Hn; [apply Z.ltb_lt in Hn; lia|].
  rewrite (Z.min_l 0) by lia. change (Z.to_nat 0) with 0%nat.
  replace (PyStr.drop 0 s) with s by now destruct s.
  rewrite Z.sub_0_r.
  destruct (Z.min_spec stop (Z.of_nat (String.length s))) as [[Hlt ->]|[Hge ->]].
  - reflexivity.
  - rewrite Nat2Z.id. rewrite str_take_all by lia. symmetry. apply str_take_all. lia.
Qed.

Lemma slice_to_short s stop :
  Z.of_nat (String.length s) <= stop -> PyStr.slice_to s stop = s.
Proof.
  intros Hlen. rewrite slice_to_take by lia. apply str_take_all. lia.
Qed.

Lemma slice_to_app s rest stop :
  0 <= stop -> stop <= Z.of_nat (String.length s) ->
  PyStr.slice_to (s +:+ rest) stop = PyStr.slice_to s stop.
Proof.
  intros H0 Hlen. rewrite !slice_to_take by lia. apply str_take_app. lia.
Qed.

Lemma slice_middle (a b c : string) :
  PyStr.slice (a +:+ b +:+ c) (Z.of_nat (String.length a))
    (Z.of_nat (String.length a) + Z.of_nat (String.length b)) = b.
Proof.
  unfold PyStr.slice, PyStr.clamp. rewrite !str_length_app.
  destruct (Z.of_nat (String.length a) <? 0) eqn:H1; [apply Z.ltb_lt in H1; lia|].
  destruct (Z.of_nat (String.length a) + Z.of_nat (String.length b) <? 0) eqn:H2;
    [apply Z.ltb_lt in H2; lia|].
  rewrite !Z.min_l by lia.
  replace (Z.of_nat (String.length a) + Z.of_nat (String.length b)
           - Z.of_nat (String.length a)) with (Z.of_nat (String.length b)) by lia.
  rewrite !Nat2Z.id, str_drop_app_length. apply str_take_app_length.
Qed.

Lemma occurs_app c (a b : string) : occurs c (a +:+ b) <-> occurs c a \/ occurs c b.
Proof.
  unfold occurs. induction a as [|x a IH].
  - rewrite append_nil_l. simpl. tauto.
  - rewrite append_cons. simpl. rewrite IH. tauto.
Qed.

Lemma occurs_cons c x s : occurs c (String x s) <-> x = c \/ occurs c s.
Proof. reflexivity. Qed.

Lemma find_from_skip c pre s : forall i,
  ~ occurs c pre ->
  PyStr.find_from (String c EmptyString) (pre +:+ s) i
  = PyStr.find_from (String c EmptyString) s (i + Z.of_nat (String.length pre)).
Proof.
  induction pre as [|x pre IH]; intros i Hno.
  - rewrite append_nil_l. simpl. f_equal. lia.
  - rewrite append_cons. cbn [PyStr.find_from].
    destruct (String.prefix (String c EmptyString) (String x (pre +:+ s))) eqn:Hp.
    + apply prefix_char in Hp as [s' [= -> _]]. destruct Hno. left. reflexivity.
    + rewrite IH.
      * f_equal. cbn [String.length]. lia.
      * intros Hin. apply Hno. right. exact Hin.
Qed.

Lemma find_from_here c s i :
  PyStr.find_from (String c EmptyString) (String c s) i = i.
Proof.
  cbn [PyStr.find_from].
  rewrite (proj2 (prefix_char c (String c s))) by eauto. reflexivity.
Qed.

Lemma rfind_from_last c a post : forall i,
  0 <= i -> ~ occurs c post ->
  PyStr.rfind_from (String c EmptyString) (a +:+ String c post) i
  = i + Z.of_nat (String.length a).
Proof.
  induction a as [|x a IH]; intros i Hi Hno.
  - rewrite append_nil_l. cbn [PyStr.rfind_from].
    destruct (rfind_from_char c post (i + 1) ltac:(lia)) as [[-> _]|[_ Hin]];
      [|contradiction].
    change (-1 =? -1) with true. cbv iota.
    rewrite (proj2 (prefix_char c (String c post))) by eauto.
    cbn [String.length]. lia.
  - rewrite append_cons. cbn [PyStr.rfind_from].
    rewrite IH by (lia || assumption).
    destruct (i + 1 + Z.of_nat (String.length a) =? -1) eqn:Heq;
      [apply Z.eqb_eq in Heq; lia|].
    cbn [String.length]. lia.
Qed.
End Slices.

(** * Extraction: what of the paper and of the reply is read *)

Section ExtractionReads.
Context `{PyRuntime}.
Variable client : Gateway.

Lemma unlines_seventh l1 l2 l3 l4 l5 l6 x c post :
  MethodExtractor.unlines (l1 :: l2 :: l3 :: l4 :: l5 :: l6 :: (x +:+ c) :: post)
  = MethodExtractor.unlines [l1; l2; l3; l4; l5; l6]
    +:+ x +:+ (c +:+ PyStr.newline +:+ MethodExtractor.unlines post).
Proof.
  unfold MethodExtractor.unlines. cbn [fold_right].
  rewrite !append_assoc, append_nil_l. reflexivity.
Qed.

(** X1.  Of the text of the paper, the prompt of [extract_methods]
    holds [paper_text[:15000]] between two texts that do not depend on
    the paper: the whole text when it has at most 15000 characters, its
    first 15000 characters otherwise.  The characters after the 15000th
    change neither the request nor the outcome. *)
Theorem paper_text_is_cut paper_title :
  (exists before after, forall paper_text,
     MethodExtractor._create_extraction_prompt paper_text paper_title
     = before +:+ PyStr.slice_to paper_text 15000 +:+ after)
  /\ (forall paper_text,
        Z.of_nat (String.length paper_text) <= 15000 ->
        PyStr.slice_to paper_text 15000 = paper_text)
  /\ (forall paper_text rest,
        Z.of_nat (String.length paper_text) = 15000 ->
        PyStr.slice_to (paper_text +:+ rest) 15000 = paper_text)
  /\ (forall paper_text rest w,
        15000 <= Z.of_nat (String.length paper_text) ->
        MethodExtractor.extract_methods client (paper_text +:+ rest) paper_title w
        = MethodExtractor.extract_methods client paper_text paper_title w).
Proof.
  split; [|split; [|split]].
  - eexists. eexists. intros paper_text.
    unfold MethodExtractor._create_extraction_prompt. apply unlines_seventh.
  - intros paper_text Hlen. now apply slice_to_short.
  - intros paper_text rest Hlen.
    rewrite slice_to_app by lia. apply slice_to_short. lia.
  - intros paper_text rest w Hlen.
    unfold MethodExtractor.extract_methods, MethodExtractor._create_extraction_prompt.
    rewrite slice_to_app by lia. reflexivity.
Qed.

(** X2.  The parser reads the reply from its first opening brace to its
    last closing brace: the text before an object and the text after
    it, when they hold no brace of that kind, change nothing to the
    outcome. *)
Theorem json_is_found_in_prose before inner after :
  ~ occurs "{" before -> ~ occurs "}" after ->
  let body := "{" +:+ inner +:+ "}" in
  embedded_json (before +:+ body +:+ after) = body
  /\ MethodExtractor._parse_extraction_result (before +:+ body +:+ after)
     = MethodExtractor._parse_extraction_result body.
Proof.
  intros Hb Ha body.
  assert (Hemb : forall b a, ~ occurs "{" b -> ~ occurs "}" a ->
            embedded_json (b +:+ body +:+ a) = body).
  { intros b a Hb' Ha'.
    assert (Hbody : body +:+ a = String "{" (inner +:+ "}" +:+ a)).
    { unfold body. rewrite !append_assoc. reflexivity. }
    assert (Hfind : PyStr.find (b +:+ body +:+ a) "{" = Z.of_nat (String.length b)).
    { unfold PyStr.find. rewrite find_from_skip by exact Hb'.
      rewrite Hbody, find_from_here. lia. }
    assert (Hrfind : PyStr.rfind (b +:+ body +:+ a) "}" + 1
                     = Z.of_nat (String.length b) + Z.of_nat (String.length body)).
    { unfold PyStr.rfind.
      replace (b +:+ body +:+ a) with ((b +:+ "{" +:+ inner) +:+ String "}" a).
      2:{ unfold body. rewrite !append_assoc. reflexivity. }
      rewrite rfind_from_last by (lia || exact Ha').
      unfold body. rewrite !str_length_app. cbn [String.length]. lia. }
    unfold embedded_json. rewrite Hfind, Hrfind. apply slice_middle. }
  assert (Hopen : forall b a, occurs "{" (b +:+ body +:+ a)).
  { intros b a. apply occurs_app. right. apply occurs_app. left.
    unfold body. rewrite append_cons. apply occurs_cons. left. reflexivity. }
  assert (Hclose : forall b a, occurs "}" (b +:+ body +:+ a)).
  { intros b a. apply occurs_app. right. apply occurs_app. left.
    unfold body. rewrite append_cons, append_nil_l. apply occurs_cons. right.
    apply occurs_app. right. apply occurs_cons. left. reflexivity. }
  assert (Hnone : forall c, ~ occurs c EmptyString) by (intros c []).
  split; [apply Hemb; assumption|].
  unfold MethodExtractor._parse_extraction_result.
  rewrite (parse_body_braces _ (Hopen before after) (Hclose before after)).
  rewrite Hemb by assumption.
  specialize (Hemb EmptyString EmptyString (Hnone _) (Hnone _)).
  specialize (Hopen EmptyString EmptyString).
  specialize (Hclose EmptyString EmptyString).
  rewrite append_nil_l, append_nil_r in Hemb, Hopen, Hclose.
  rewrite (parse_body_braces _ Hopen Hclose), Hemb. reflexivity.
Qed.

(** X3.  Whatever the service answers and whatever becomes of its
    reply, [extract_methods] makes one request, for the model and with
    the token limit of the source, and changes nothing else in the
    world: it writes no file, prints nothing and does not ask again. *)
Theorem extraction_makes_one_request paper_text paper_title w :
  snd (MethodExtractor.extract_methods client paper_text paper_title w)
  = set_calls
      (calls w ++ [mk_request MODEL 4000
                     (MethodExtractor._create_extraction_prompt paper_text paper_title)])
      w.
Proof.
  destruct (client (calls w) (extraction_request paper_text paper_title))
    as [reply|e] eqn:Hr.
  - rewrite (extract_methods_reply client _ _ _ _ Hr). reflexivity.
  - rewrite (extract_methods_failure client _ _ _ _ Hr). reflexivity.
Qed.

(** X4.  [load_extracted_methods] is strict where the parser of replies
    is lenient: a file that is not there, a text that does not decode
    and a document without one of the five keys make it raise, the
    error of the first key being a [KeyError]; and it never changes the
    world. *)
Theorem load_is_strict path w :
  snd (MethodExtractor.load_extracted_methods path w) = w
  /\ (files w !! path = None ->
      fst (MethodExtractor.load_extracted_methods path w)
      = Raise (FileNotFoundError path))
  /\ (forall text msg,
        files w !! path = Some text -> json_decode text = inl msg ->
        fst (MethodExtractor.load_extracted_methods path w)
        = Raise (JSONDecodeError msg))
  /\ (forall text data key,
        files w !! path = Some text -> json_decode text = inr (VDict data) ->
        In key ["computational_methods"; "datasets"; "workflows"; "key_findings";
                "reproducibility_notes"] ->
        dict_lookup key data = None ->
        is_ok (fst (MethodExtractor.load_extracted_methods path w)) = false)
  /\ (forall text data,
        files w !! path = Some text -> json_decode text = inr (VDict data) ->
        dict_lookup "computational_methods" data = None ->
        fst (MethodExtractor.load_extracted_methods path w)
        = Raise (KeyError "computational_methods")).
Proof.
  unfold MethodExtractor.load_extracted_methods, Eff.bind, Eff.read_file, Eff.lift,
    json_loads.
  split; [|split; [|split; [|split]]].
  - destruct (files w !! path); reflexivity.
  - intros ->. reflexivity.
  - intros text msg -> ->. reflexivity.
  - intros text data key -> -> Hin Hnone. cbn [fst Res.bind Py.getitem].
    cbn in Hin.
    repeat match goal with
    | Hin : _ \/ _ |- _ => destruct Hin as [<-|Hin]
    | Hin : False |- _ => destruct Hin
    end.
    all: repeat match goal with
    | Hnone : dict_lookup _ ?d = None |- context [dict_lookup ?k ?d] =>
        first [rewrite Hnone | destruct (dict_lookup k d)];
        cbn [Res.bind is_ok Py.getitem]
    | |- context [MethodExtractor.construct_all ?i ?v] =>
        destruct (MethodExtractor.construct_all i v); cbn [Res.bind is_ok Py.getitem]
    end; reflexivity.
  - intros text data -> -> Hnone. cbn [fst Res.bind Py.getitem]. rewrite Hnone.
    reflexivity.
Qed.
End ExtractionReads.

Lemma paper_text_is_cut_witness :
  let paper_text := string_of_list_ascii (repeat "a"%char (Z.to_nat 15000)) in
  15000 <= Z.of_nat (String.length paper_text)
  /\ @MethodExtractor.extract_methods Mini.runtime (Mini.answering "{}")
       (paper_text +:+ " and the rest") "title" Mini.empty_world
     = @MethodExtractor.extract_methods Mini.runtime (Mini.answering "{}")
         paper_text "title" Mini.empty_world.
Proof.
  intros paper_text.
  assert (Hlen : 15000 <= Z.of_nat (String.length paper_text))
    by (vm_compute; discriminate).
  split; [exact Hlen|].
  exact (proj2 (proj2 (proj2
           (@paper_text_is_cut Mini.runtime (Mini.answering "{}") "title")))
           paper_text " and the rest" Mini.empty_world Hlen).
Defined.

Lemma json_is_found_in_prose_witness :
  ~ occurs "{" "Here is the result: " /\ ~ occurs "}" " Done."
  /\ embedded_json "Here is the result: {} Done." = "{}"
  /\ @MethodExtractor._parse_extraction_result Mini.runtime
       "Here is the result: {} Done."
     = @MethodExtractor._parse_extraction_result Mini.runtime "{}".
Proof.
  assert (Hb : ~ occurs "{" "Here is the result: ")
    by (vm_compute; intuition discriminate).
  assert (Ha : ~ occurs "}" " Done.") by (vm_compute; intuition discriminate).
  split; [exact Hb | split; [exact Ha|]].
  exact (@json_is_found_in_prose Mini.runtime "Here is the result: " EmptyString
           " Done." Hb Ha).
Defined.

Lemma load_is_strict_witness :
  let w := mk_world [] {[ "methods.json" := "{}" ]} [] 0%nat ∅ in
  is_ok (fst (@MethodExtractor.load_extracted_methods Mini.runtime "methods.json" w))
  = false.
Proof.
  intros w.
  apply (proj1 (proj2 (proj2 (proj2
           (@load_is_strict Mini.runtime "methods.json" w))))
           "{}" [] "datasets" eq_refl eq_refl).
  - right. left. reflexivity.
  - reflexivity.
Defined.

(** * Code generation: categories that cannot be keys *)

Section Unhashable.
Context `{PyRuntime}.
Variable client : Gateway.
Variable templates : gmap string string.

Lemma group_methods_unhashable ms : forall acc,
  Exists (fun m => Py.hashable (ComputationalMethod.category m) = false) ms ->
  CodeGenerator.group_methods ms acc = Raise (TypeError Unhashable).
Proof.
  induction ms as [|m ms IH]; intros acc Hex; [inversion Hex|].
  cbn [CodeGenerator.group_methods].
  destruct (Py.hashable (ComputationalMethod.category m)) eqn:Hm; [|reflexivity].
  apply IH. inversion Hex as [? ? Hbad|]; subst; [congruence | assumption].
Qed.

(** X5.  A method whose category is a list or an object cannot be filed:
    [generate_code_from_methods] raises a [TypeError] from the grouping
    loop, before any request is made, also for the categories met
    before it; the world is as it was. *)
Theorem unhashable_category_raises em paper_title language w :
  Exists (fun m => Py.hashable (ComputationalMethod.category m) = false)
         (ExtractedMethods.computational_methods em) ->
  CodeGenerator.generate_code_from_methods client templates em paper_title language w
  = (Raise (TypeError Unhashable), w).
Proof.
  intros Hex. unfold CodeGenerator.generate_code_from_methods, Eff.bind, Eff.lift.
  rewrite (group_methods_unhashable _ _ Hex). reflexivity.
Qed.
End Unhashable.

Lemma unhashable_category_raises_witness :
  let em := ExtractedMethods.mk
              [method_in "A" "statistical_analysis"; method_under_list]
              [] [] (VList []) (VStr EmptyString) in
  Exists (fun m => Py.hashable (ComputationalMethod.category m) = false)
         (ExtractedMethods.computational_methods em)
  /\ @CodeGenerator.generate_code_from_methods Mini.runtime
       (Mini.answering formatted_reply) ∅ em "title" "python" Mini.empty_world
     = (Raise (TypeError Unhashable), Mini.empty_world).
Proof.
  intros em.
  assert (Hex : Exists (fun m => Py.hashable (ComputationalMethod.category m) = false)
                  (ExtractedMethods.computational_methods em)).
  { apply Exists_cons_tl, Exists_cons_hd. reflexivity. }
  split; [exact Hex|].
  exact (@unhashable_category_raises Mini.runtime (Mini.answering formatted_reply) ∅
           em "title" "python" Mini.empty_world Hex).
Defined.

(** * The order of strings *)

Section StringOrder.
Lemma compare_not_gt_trans a : forall b c,
  String.compare a b <> Gt -> String.compare b c <> Gt -> String.compare a c <> Gt.
Proof.
  induction a as [|x a IH]; intros [|y b] [|z c]; cbn [String.compare];
    try congruence.
  unfold Ascii.compare.
  destruct (N.compare_spec (N_of_ascii x) (N_of_ascii y)) as [Hxy|Hxy|Hxy];
    destruct (N.compare_spec (N_of_ascii y) (N_of_ascii z)) as [Hyz|Hyz|Hyz];
    try congruence; intros H1 H2.
  - rewrite Hxy, Hyz, N.compare_refl. now apply (IH b c).
  - rewrite Hxy. rewrite (proj2 (N.compare_lt_iff _ _) Hyz). discriminate.
  - rewrite <- Hyz. rewrite (proj2 (N.compare_lt_iff _ _) Hxy). discriminate.
  - rewrite (proj2 (N.compare_lt_iff _ _) (N.lt_trans _ _ _ Hxy Hyz)). discriminate.
Qed.

Lemma leb_compare (a b : string) : String.leb a b = true <-> String.compare a b <> Gt.
Proof.
  unfold String.leb. destruct (String.compare a b); split; congruence.
Qed.

#[local] Instance le_transitive : Transitive PyStr.le.
Proof.
  intros a b c Hab Hbc. unfold PyStr.le in *. rewrite leb_compare in *.
  now apply (compare_not_gt_trans a b c).
Qed.

#[local] Instance le_total : Total PyStr.le.
Proof. intros a b. apply String.leb_total. Qed.

Lemma sorted_sorted l : StronglySorted PyStr.le (PyStr.sorted l).
Proof. apply StronglySorted_merge_sort; typeclasses eauto. Qed.

Lemma sorted_permutation l : PyStr.sorted l ≡ₚ l.
Proof. apply merge_sort_Permutation. Qed.
End StringOrder.

(** * The requirements file *)

Section Requirements.
Lemma elem_of_all_dependencies scripts : forall (acc : gset string) dep,
  dep ∈ fold_left (fun all_deps script =>
                     all_deps ∪ list_to_set (GeneratedCode.dependencies script))
                  scripts acc
  <-> dep ∈ acc
      \/ exists script, In script scripts /\ In dep (GeneratedCode.dependencies script).
Proof.
  induction scripts as [|s scripts IH]; intros acc dep; cbn [fold_left].
  - split; [auto | intros [Hd|(script & [] & _)]; exact Hd].
  - rewrite IH, elem_of_union, elem_of_list_to_set, list_elem_of_In. split.
    + intros [[Hacc|Hs]|(script & Hin & Hd)]; [auto | right | right].
      * exists s. split; [left; reflexivity | exact Hs].
      * exists script. split; [right; exact Hin | exact Hd].
    + intros [Hacc|(script & [<-|Hin] & Hd)]; [auto | auto | right; eauto].
Qed.

(** X9.  [generate_requirements_file] opens the given path and no
    other.  When the system refuses, it raises what the system raised
    and writes nothing.  Otherwise it writes one line for each package
    and returns the path: every dependency of every script has its
    line, no line stands for anything else, no package has two lines,
    and the lines are in ascending order of their characters. *)
Theorem requirements_are_sorted fs scripts output_path w :
  let run := CodeGenerator.generate_requirements_file fs scripts output_path w in
  exists lines,
    (forall dep,
       In dep lines
       <-> exists script,
             In script scripts /\ In dep (GeneratedCode.dependencies script))
    /\ NoDup lines
    /\ StronglySorted PyStr.le lines
    /\ (fs w (OpenWrite output_path) = None ->
        run = (Ok output_path,
               set_files (<[output_path := MethodExtractor.unlines lines]> (files w)) w))
    /\ (forall e, fs w (OpenWrite output_path) = Some e -> run = (Raise e, w)).
Proof.
  exists (PyStr.sorted (elements (CodeGenerator.all_dependencies scripts))).
  split; [|split; [|split; [|split]]].
  - intros dep. rewrite <- list_elem_of_In, sorted_permutation, elem_of_elements.
    unfold CodeGenerator.all_dependencies. rewrite elem_of_all_dependencies.
    rewrite elem_of_empty. tauto.
  - rewrite sorted_permutation. apply NoDup_elements.
  - apply sorted_sorted.
  - intros Hopen. unfold CodeGenerator.generate_requirements_file, Eff.bind,
      Eff.open_write. now rewrite Hopen.
  - intros e Hopen. unfold CodeGenerator.generate_requirements_file, Eff.bind,
      Eff.open_write. now rewrite Hopen.
Qed.
End Requirements.

(** The requirements of two scripts that share a package: capitals come
    before small letters; and a path in a directory that is missing. *)
Lemma requirements_of_two_scripts :
  CodeGenerator.generate_requirements_file (one_directory "out") two_scripts
    "out/requirements.txt" Mini.empty_world
  = (Ok "out/requirements.txt",
     mk_world []
       {[ "out/requirements.txt" := MethodExtractor.unlines ["Bio"; "numpy"; "pandas"] ]}
       [] 0%nat ∅)
  /\ CodeGenerator.generate_requirements_file (one_directory "out") two_scripts
       "build/requirements.txt" Mini.empty_world
     = (Raise (FileNotFoundError "build/requirements.txt"), Mini.empty_world).
Proof. split; vm_compute; reflexivity. Qed.

(** * Saving a script *)

Section Saving.
Lemma append_inj_l (a b c : string) : a +:+ b = a +:+ c -> b = c.
Proof.
  induction a as [|x a IH]; [rewrite !append_nil_l; auto|].
  rewrite !append_cons. intros [= Heq]. auto.
Qed.

Lemma prefix_empty (s : string) : String.prefix EmptyString s = true.
Proof. destruct s; reflexivity. Qed.

Lemma prefix_slash_cons c (s : string) :
  String.prefix "/" (String c s) = Ascii.eqb "/" c.
Proof.
  cbn [String.prefix]. rewrite prefix_empty.
  destruct (ascii_dec "/" c) as [<-|Hne]; [reflexivity|].
  symmetry. now apply Ascii.eqb_neq.
Qed.

Lemma prefix_slash_app (f x y : string) :
  String.prefix "/" x = String.prefix "/" y ->
  String.prefix "/" (f +:+ x) = String.prefix "/" (f +:+ y).
Proof.
  intros Hxy. destruct f as [|c f]; [rewrite !append_nil_l; exact Hxy|].
  rewrite !append_cons, !prefix_slash_cons. reflexivity.
Qed.

Lemma join_injective dir (a b : string) :
  String.prefix "/" a = String.prefix "/" b ->
  OsPath.join dir a = OsPath.join dir b -> a = b.
Proof.
  unfold OsPath.join. intros ->. destruct (String.prefix "/" b); [auto|].
  destruct (String.eqb dir EmptyString || PyStr.endswith dir "/").
  - apply append_inj_l.
  - intros Heq. apply append_inj_l in Heq. now apply append_inj_l in Heq.
Qed.

(** X10.  [save_generated_code] asks for the directory, then opens the
    file [filename.py] for the script, whatever its language, then the
    file [filename_metadata.txt] for its description, dependencies and
    usage: two different paths.  What the system raises on one of the
    three is raised, and nothing is done after it: when the second
    file cannot be opened the script stays written without it.  When
    the system lets all three pass, the two files hold the two texts,
    no other file changes and the two paths are returned.  A
    [filename] that starts with a slash is taken as it is, outside the
    directory. *)
Theorem script_is_saved_as_py fs generated_code output_dir filename w :
  let script_path := OsPath.join output_dir (filename +:+ ".py") in
  let metadata_path := OsPath.join output_dir (filename +:+ "_metadata.txt") in
  let run := CodeGenerator.save_generated_code fs generated_code output_dir filename w in
  let w1 :=
    set_files (<[script_path := GeneratedCode.script_content generated_code]> (files w))
      w in
  let w2 :=
    set_files (<[metadata_path := CodeGenerator.metadata_text generated_code]> (files w1))
      w1 in
  script_path <> metadata_path
  /\ (String.prefix "/" filename = false ->
      output_dir <> EmptyString ->
      PyStr.endswith output_dir "/" = false ->
      script_path = output_dir +:+ "/" +:+ filename +:+ ".py")
  /\ (String.prefix "/" filename = true -> script_path = filename +:+ ".py")
  /\ (forall e, fs w (MakeDirs output_dir) = Some e -> run = (Raise e, w))
  /\ (fs w (MakeDirs output_dir) = None ->
      (forall e, fs w (OpenWrite script_path) = Some e -> run = (Raise e, w))
      /\ (fs w (OpenWrite script_path) = None ->
          (forall e, fs w1 (OpenWrite metadata_path) = Some e -> run = (Raise e, w1))
          /\ (fs w1 (OpenWrite metadata_path) = None ->
              run = (Ok (script_path, metadata_path), w2))))
  /\ files w1 !! script_path = Some (GeneratedCode.script_content generated_code)
  /\ files w2 !! script_path = Some (GeneratedCode.script_content generated_code)
  /\ files w2 !! metadata_path = Some (CodeGenerator.metadata_text generated_code)
  /\ (forall path, path <> script_path -> path <> metadata_path ->
        files w2 !! path = files w !! path).
Proof.
  intros script_path metadata_path run w1 w2.
  assert (Hne : script_path <> metadata_path).
  { intros Heq. apply join_injective in Heq.
    - apply append_inj_l in Heq. discriminate.
    - now apply prefix_slash_app. }
  split; [exact Hne|]. split; [|split; [|split; [|split]]].
  - intros Hf Hdir Hd. unfold script_path, OsPath.join.
    assert (Hp : String.prefix "/" (filename +:+ ".py") = false).
    { destruct filename as [|c f]; [reflexivity|].
      rewrite prefix_slash_cons in Hf. rewrite append_cons, prefix_slash_cons.
      exact Hf. }
    apply String.eqb_neq in Hdir. rewrite Hp, Hdir, Hd. reflexivity.
  - intros Hf. unfold script_path, OsPath.join.
    assert (Hp : String.prefix "/" (filename +:+ ".py") = true).
    { destruct filename as [|c f]; [discriminate|].
      rewrite prefix_slash_cons in Hf. rewrite append_cons, prefix_slash_cons.
      exact Hf. }
    rewrite Hp. reflexivity.
  - intros e Hmake. unfold run, CodeGenerator.save_generated_code, Eff.bind,
      Eff.makedirs. now rewrite Hmake.
  - subst run w2 w1 metadata_path script_path.
    intros Hmake. unfold CodeGenerator.save_generated_code, Eff.bind,
      Eff.makedirs, Eff.open_write, Eff.write_file, Eff.ret.
    rewrite Hmake. split.
    + intros e Hopen. now rewrite Hopen.
    + intros Hopen. rewrite Hopen. split.
      * intros e Hopen2. now rewrite Hopen2.
      * intros Hopen2. now rewrite Hopen2.
  - split; [apply lookup_insert_eq|].
    split; [|split].
    + subst w2 w1. cbn [files set_files].
      rewrite lookup_insert_ne by congruence. apply lookup_insert_eq.
    + subst w2 w1. cbn [files set_files]. apply lookup_insert_eq.
    + intros path H1 H2. subst w2 w1. cbn [files set_files].
      rewrite !lookup_insert_ne by congruence. reflexivity.
Qed.
End Saving.

Lemma script_is_saved_as_py_witness :
  let script :=
    GeneratedCode.mk "library(limma)" "r" ["limma"] "Fits a model." "Rscript it" in
  let save := CodeGenerator.save_generated_code (one_directory "out") script "out" in
  fst (save "analysis" Mini.empty_world)
  = Ok ("out/analysis.py", "out/analysis_metadata.txt")
  /\ files (snd (save "analysis" Mini.empty_world)) !! "out/analysis.py"
     = Some "library(limma)"
  /\ save "sub/analysis" Mini.empty_world
     = (Raise (FileNotFoundError "out/sub/analysis.py"), Mini.empty_world).
Proof.
  intros script save.
  destruct (script_is_saved_as_py (one_directory "out") script "out" "analysis"
              Mini.empty_world) as (_ & _ & _ & _ & Hrun & _ & Hscript & _).
  destruct (Hrun eq_refl) as [_ Hopen]. destruct (Hopen eq_refl) as [_ Hboth].
  destruct (script_is_saved_as_py (one_directory "out") script "out" "sub/analysis"
              Mini.empty_world) as (_ & _ & _ & _ & Hsub & _).
  destruct (Hsub eq_refl) as [Hfail _].
  unfold save. rewrite (Hboth eq_refl). cbn [fst snd].
  split; [reflexivity|]. split; [exact Hscript|].
  exact (Hfail _ eq_refl).
Defined.

(** * Lines without spaces around them *)

Section Lines.
Lemma lstrip_fixed c s : PyStr.isspace c = false -> PyStr.lstrip (String c s) = String c s.
Proof. intros Hc. cbn [PyStr.lstrip]. rewrite Hc. reflexivity. Qed.

(** What [lstrip] leaves does not start with a space. *)
Lemma lstrip_head s :
  PyStr.lstrip s = EmptyString
  \/ exists c t, PyStr.lstrip s = String c t /\ PyStr.isspace c = false.
Proof.
  induction s as [|c s IH]; [left; reflexivity|].
  cbn [PyStr.lstrip]. destruct (PyStr.isspace c) eqn:Hc; [exact IH|].
  right. eauto.
Qed.

Lemma lstrip_lstrip s : PyStr.lstrip (PyStr.lstrip s) = PyStr.lstrip s.
Proof.
  destruct (lstrip_head s) as [->|(c & t & -> & Hc)]; [reflexivity|].
  now apply lstrip_fixed.
Qed.

Lemma rstrip_rstrip s : PyStr.rstrip (PyStr.rstrip s) = PyStr.rstrip s.
Proof.
  induction s as [|c s IH]; [reflexivity|].
  cbn [PyStr.rstrip]. destruct (PyStr.rstrip s) as [|x r] eqn:Hr.
  - destruct (PyStr.isspace c) eqn:Hc; [reflexivity|].
    cbn [PyStr.rstrip]. rewrite Hc. reflexivity.
  - cbn [PyStr.rstrip]. cbn [PyStr.rstrip] in IH. rewrite IH. reflexivity.
Qed.

(** [rstrip] keeps a first character that is no space. *)
Lemma rstrip_head c s :
  PyStr.isspace c = false -> exists t, PyStr.rstrip (String c s) = String c t.
Proof.
  intros Hc. cbn [PyStr.rstrip]. destruct (PyStr.rstrip s); rewrite ?Hc; eauto.
Qed.

Lemma lstrip_rstrip_lstrip s :
  PyStr.lstrip (PyStr.rstrip (PyStr.lstrip s)) = PyStr.rstrip (PyStr.lstrip s).
Proof.
  destruct (lstrip_head s) as [->|(c & t & -> & Hc)]; [reflexivity|].
  destruct (rstrip_head c t Hc) as [t' ->]. now apply lstrip_fixed.
Qed.

Lemma strip_strip s : PyStr.strip (PyStr.strip s) = PyStr.strip s.
Proof.
  unfold PyStr.strip. rewrite lstrip_rstrip_lstrip. apply rstrip_rstrip.
Qed.

Lemma occurs_lstrip c s : occurs c (PyStr.lstrip s) -> occurs c s.
Proof.
  induction s as [|x s IH]; [auto|].
  cbn [PyStr.lstrip]. destruct (PyStr.isspace x); [|auto].
  intros Hin. apply occurs_cons. right. auto.
Qed.

Lemma occurs_rstrip c s : occurs c (PyStr.rstrip s) -> occurs c s.
Proof.
  induction s as [|x s IH]; [auto|].
  cbn [PyStr.rstrip]. destruct (PyStr.rstrip s) as [|y r].
  - destruct (PyStr.isspace x); [intros []|].
    intros Hin. apply occurs_cons in Hin as [->|[]]. apply occurs_cons. auto.
  - intros Hin. apply occurs_cons in Hin as [->|Hin]; apply occurs_cons; auto.
Qed.

Lemma occurs_strip c s : occurs c (PyStr.strip s) -> occurs c s.
Proof. intros Hin. now apply occurs_lstrip, occurs_rstrip. Qed.

(** The pieces of a split do not hold the separator. *)
Lemma split_pieces sep s : Forall (fun p => ~ occurs sep p) (PyStr.split sep s).
Proof.
  induction s as [|c s IH]; cbn [PyStr.split].
  - constructor; [intros [] | constructor].
  - destruct (Ascii.eqb c sep) eqn:Hc.
    + constructor; [intros [] | exact IH].
    + destruct (PyStr.split sep s) as [|p ps]; inversion IH; subst.
      * constructor; [|constructor].
        intros Hin. apply occurs_cons in Hin as [->|[]].
        now rewrite Ascii.eqb_refl in Hc.
      * constructor; [|assumption].
        intros Hin. apply occurs_cons in Hin as [->|Hin]; [|auto].
        now rewrite Ascii.eqb_refl in Hc.
Qed.

(** The lines kept of a text: each is clean. *)
Lemma kept_lines_clean text :
  Forall clean_line
    (List.filter (fun line => negb (String.eqb line EmptyString))
       (map PyStr.strip (PyStr.split (ascii_of_nat 10) text))).
Proof.
  pose proof (split_pieces (ascii_of_nat 10) text) as Hp.
  induction Hp as [|p ps Hp _ IH]; cbn [map List.filter]; [constructor|].
  destruct (String.eqb (PyStr.strip p) EmptyString) eqn:He; cbn [negb]; [exact IH|].
  constructor; [|exact IH]. split; [|split].
  - now apply String.eqb_neq.
  - apply strip_strip.
  - intros Hin. apply Hp. now apply occurs_strip.
Qed.
End Lines.

(** * The dependencies of a script *)

Section Dependencies.
Context `{PyRuntime}.

(** X8.  Whatever the reply, the dependencies of the script the parser
    returns are clean lines: none is empty, none starts or ends with a
    space, none holds a line break. *)
Theorem dependencies_are_clean reply category language script :
  CodeGenerator._parse_code_generation_result reply category language = Ok script ->
  Forall clean_line (GeneratedCode.dependencies script).
Proof.
  unfold CodeGenerator._parse_code_generation_result.
  destruct (CodeGenerator.search_tagged_block language reply); [|discriminate].
  cbn [Res.bind]. intros [= <-]. cbn [GeneratedCode.dependencies].
  destruct (Re.search _ reply); [|constructor].
  apply kept_lines_clean.
Qed.
End Dependencies.

Lemma dependencies_are_clean_witness :
  @CodeGenerator._parse_code_generation_result Mini.runtime formatted_reply
    (VStr "bioinformatics") "python" = Ok formatted_script
  /\ Forall clean_line ["numpy"; "pandas"].
Proof.
  assert (Hp : @CodeGenerator._parse_code_generation_result Mini.runtime
                 formatted_reply (VStr "bioinformatics") "python"
               = Ok formatted_script) by (vm_compute; reflexivity).
  split; [exact Hp|].
  exact (@dependencies_are_clean Mini.runtime _ _ _ _ Hp).
Defined.

(** * The searches of the parser on a text that is known *)

Section Located.
Lemma same_text_length ci p t :
  same_text ci p t -> String.length t = String.length p.
Proof.
  unfold same_text. revert t. induction p as [|a p IH]; intros [|b t]; simpl;
    try discriminate; [reflexivity|].
  destruct (Re.char_match ci a b); [|discriminate]. intros Hm. f_equal. auto.
Qed.

Lemma char_match_refl ci a : Re.char_match ci a a = true.
Proof. unfold Re.char_match. destruct ci; apply Ascii.eqb_refl. Qed.

Lemma same_text_refl ci p : same_text ci p p.
Proof.
  unfold same_text. induction p as [|a p IH]; [reflexivity|].
  simpl. rewrite char_match_refl. exact IH.
Qed.

Lemma str_drop_0 (s : string) : PyStr.drop 0 s = s.
Proof. now destruct s. Qed.

(** A match that starts in [u] and goes beyond it. *)
Lemma match_literal_drop ci u : forall p X r,
  Re.match_literal ci p (u +:+ X) = Some r ->
  (String.length u <= String.length p)%nat ->
  Re.match_literal ci (PyStr.drop (String.length u) p) X = Some r.
Proof.
  induction u as [|c u IH]; intros p X r Hm Hlen.
  - rewrite append_nil_l in Hm. cbn [String.length]. now rewrite str_drop_0.
  - destruct p as [|a p]; [cbn [String.length] in Hlen; lia|].
    rewrite append_cons in Hm. cbn [Re.match_literal] in Hm.
    destruct (Re.char_match ci a c); [|discriminate].
    cbn [String.length PyStr.drop]. apply IH; [exact Hm|].
    cbn [String.length] in Hlen. lia.
Qed.

(** A match that lies within [u]. *)
Lemma match_literal_within ci p : forall u X r,
  Re.match_literal ci p (u +:+ X) = Some r ->
  (String.length p <= String.length u)%nat ->
  exists t u', u = t +:+ u' /\ same_text ci p t.
Proof.
  induction p as [|a p IH]; intros u X r Hm Hlen.
  - exists EmptyString, u. split; reflexivity.
  - destruct u as [|c u]; [cbn [String.length] in Hlen; lia|].
    rewrite append_cons in Hm. cbn [Re.match_literal] in Hm.
    destruct (Re.char_match ci a c) eqn:Hc; [|discriminate].
    destruct (IH u X r Hm) as (t & u' & -> & Ht).
    { cbn [String.length] in Hlen. lia. }
    exists (String c t), u'. split; [reflexivity|].
    unfold same_text. cbn [Re.match_literal]. rewrite Hc. exact Ht.
Qed.

Lemma str_length_drop n (s : string) :
  String.length (PyStr.drop n s) = (String.length s - n)%nat.
Proof.
  revert s. induction n as [|n IH]; intros [|c s]; cbn [PyStr.drop String.length];
    try lia.
  rewrite IH. lia.
Qed.

(** A label that cannot overlap itself does not start in the text
    before it. *)
Lemma no_straddle label u rest :
  unbordered label = true -> u <> EmptyString ->
  (String.length u < String.length label)%nat ->
  Re.match_literal true label (u +:+ label +:+ rest) = None.
Proof.
  intros Hun Hu Hlen.
  destruct (Re.match_literal true label (u +:+ label +:+ rest)) as [r|] eqn:Hm;
    [exfalso | reflexivity].
  apply match_literal_drop in Hm; [|lia].
  assert (Hlook : Re.looking_at true (PyStr.drop (String.length u) label) label = true).
  { destruct (match_literal_within _ _ _ _ _ Hm) as (t & u' & Hsplit & Ht).
    { rewrite str_length_drop. lia. }
    set (p := PyStr.drop (String.length u) label) in *.
    rewrite Hsplit. now apply looking_at_app. }
  unfold unbordered in Hun. rewrite forallb_forall in Hun.
  assert (Hin : In (String.length u) (seq 1 (String.length label - 1))).
  { apply in_seq. destruct u; [congruence|]. cbn [String.length] in *. lia. }
  specialize (Hun _ Hin). rewrite Hlook in Hun. discriminate.
Qed.

(** Where the label is not mentioned before, no match starts before it. *)
Lemma no_early_match label pre rest a u :
  unbordered label = true -> ~ mentions label pre ->
  pre = a +:+ u -> u <> EmptyString ->
  Re.match_literal true label (u +:+ label +:+ rest) = None.
Proof.
  intros Hun Hno Hpre Hu.
  destruct (Nat.lt_ge_cases (String.length u) (String.length label)) as [Hlt|Hge].
  - now apply no_straddle.
  - destruct (Re.match_literal true label (u +:+ label +:+ rest)) as [r|] eqn:Hm;
      [exfalso | reflexivity].
    destruct (match_literal_within _ _ _ _ _ Hm Hge) as (t & u' & -> & Ht).
    apply Hno. exists a, t, u'. split; [exact Hpre | exact Ht].
Qed.

(** A search goes over a text in which nothing matches. *)
Lemma search_skip {A} (m : string -> option A) pre X :
  (forall a u, pre = a +:+ u -> u <> EmptyString -> m (u +:+ X) = None) ->
  Re.search m (pre +:+ X) = Re.search m X.
Proof.
  induction pre as [|c pre IH]; intros Hnone; [now rewrite append_nil_l|].
  assert (Hm : m (String c (pre +:+ X)) = None).
  { rewrite <- append_cons.
    apply (Hnone EmptyString (String c pre)); [reflexivity | discriminate]. }
  rewrite append_cons. cbn [Re.search]. rewrite Hm.
  apply IH. intros a u -> Hu. apply (Hnone (String c a)); [reflexivity | exact Hu].
Qed.

Lemma search_here {A} (m : string -> option A) X r :
  m X = Some r -> Re.search m X = Some r.
Proof. intros Hm. destruct X; cbn [Re.search]; rewrite Hm; reflexivity. Qed.

(** The lazy group is the text before the first place that stops it. *)
Lemma lazy_until_exact stop body Y :
  stop Y = true ->
  (forall a u, body = a +:+ u -> u <> EmptyString -> stop (u +:+ Y) = false) ->
  Re.lazy_until stop (body +:+ Y) = Some body.
Proof.
  intros HY. induction body as [|c body IH]; intros Hnone.
  - rewrite append_nil_l. destruct Y; cbn [Re.lazy_until]; rewrite HY; reflexivity.
  - assert (Hs : stop (String c (body +:+ Y)) = false).
    { rewrite <- append_cons.
      apply (Hnone EmptyString (String c body)); [reflexivity | discriminate]. }
    rewrite append_cons. cbn [Re.lazy_until]. rewrite Hs, IH; [reflexivity|].
    intros a u -> Hu. apply (Hnone (String c a)); [reflexivity | exact Hu].
Qed.

Lemma lstrip_app a c b :
  PyStr.isspace c = false ->
  PyStr.lstrip (a +:+ String c b) = PyStr.lstrip a +:+ String c b.
Proof.
  intros Hc. induction a as [|x a IH].
  - rewrite append_nil_l. cbn [PyStr.lstrip]. rewrite Hc. reflexivity.
  - rewrite append_cons. cbn [PyStr.lstrip].
    destruct (PyStr.isspace x); [exact IH | reflexivity].
Qed.

(** What [lstrip] leaves is an end of the text. *)
Lemma lstrip_suffix s : exists ws, s = ws +:+ PyStr.lstrip s.
Proof.
  induction s as [|c s [ws IH]]; [exists EmptyString; reflexivity|].
  cbn [PyStr.lstrip]. destruct (PyStr.isspace c).
  - exists (String c ws). rewrite append_cons. f_equal. exact IH.
  - exists EmptyString. reflexivity.
Qed.

Lemma at_end_long u c1 c2 s : Re.at_end (u +:+ String c1 (String c2 s)) = false.
Proof.
  destruct u as [|x [|y u]]; reflexivity.
Qed.

(** The lazy group before the end of the text: the text, or the text
    without the line break that ends it. *)
Lemma lazy_until_end s :
  exists g,
    Re.lazy_until Re.at_end s = Some g
    /\ PyStr.rstrip g = PyStr.rstrip s
    /\ (g = EmptyString \/ exists c t t', g = String c t /\ s = String c t').
Proof.
  induction s as [|c s (g & Hg & Hr & _)].
  - exists EmptyString. repeat split; auto.
  - cbn [Re.lazy_until]. destruct (Re.at_end (String c s)) eqn:He.
    + exists EmptyString. split; [reflexivity|]. split; [|auto].
      destruct s; [|discriminate]. cbn [Re.at_end] in He.
      apply Ascii.eqb_eq in He as ->. reflexivity.
    + rewrite Hg. exists (String c g). split; [reflexivity|]. split; [|eauto 6].
      cbn [PyStr.rstrip]. rewrite Hr. reflexivity.
Qed.

Lemma strip_lstrip s : PyStr.strip (PyStr.lstrip s) = PyStr.strip s.
Proof. unfold PyStr.strip. now rewrite lstrip_lstrip. Qed.

(** The group that runs to the end of the text, once stripped. *)
Lemma lazy_until_end_strip s :
  exists g,
    Re.lazy_until Re.at_end (PyStr.lstrip s) = Some g
    /\ PyStr.strip g = PyStr.strip s.
Proof.
  destruct (lazy_until_end (PyStr.lstrip s)) as (g & Hg & Hr & Hhead).
  exists g. split; [exact Hg|]. unfold PyStr.strip at 2. rewrite <- Hr.
  destruct Hhead as [->|(c & t & t' & -> & Hs)]; [reflexivity|].
  unfold PyStr.strip. f_equal.
  destruct (lstrip_head s) as [Hnil|(c' & t'' & Heq & Hc)]; [congruence|].
  rewrite Heq in Hs. injection Hs as -> _. now apply lstrip_fixed.
Qed.

Lemma char_match_backtick ci b : Re.char_match ci "`" b = true -> b = "`"%char.
Proof.
  unfold Re.char_match. destruct ci; intros Heq;
    apply Ascii.eqb_eq in Heq; [|congruence].
  change (Re.lower "`") with "`"%char in Heq.
  unfold Re.lower in Heq.
  destruct ((65 <=? nat_of_ascii b)%nat && (nat_of_ascii b <=? 90)%nat) eqn:Hup;
    [|congruence].
  apply andb_true_iff in Hup as [H1 H2]. apply Nat.leb_le in H1, H2.
  apply (f_equal nat_of_ascii) in Heq.
  rewrite nat_ascii_embedding in Heq by lia.
  change (nat_of_ascii "`") with 96%nat in Heq. lia.
Qed.

(** A text without backtick holds no start of a fence. *)
Lemma no_fence_start ci p pre a u X :
  ~ occurs "`" pre -> pre = a +:+ u -> u <> EmptyString ->
  Re.match_literal ci (Re.fence +:+ p) (u +:+ X) = None.
Proof.
  intros Hno -> Hu. destruct u as [|c u]; [congruence|].
  rewrite append_cons. unfold Re.fence. rewrite !append_cons.
  cbn [Re.match_literal].
  destruct (Re.char_match ci "`" c) eqn:Hc; [|reflexivity].
  apply char_match_backtick in Hc as ->. destruct Hno.
  apply occurs_app. right. apply occurs_cons. left. reflexivity.
Qed.

(** The section of a label that is followed by the next label. *)
Lemma section_until_located label next pre body rest :
  unbordered label = true -> unbordered next = true ->
  (2 <= String.length next)%nat ->
  (forall c s, next = String c s -> PyStr.isspace c = false) ->
  ~ mentions label pre ->
  ~ mentions next (pre +:+ label +:+ body) ->
  Re.search (Re.section_until label next) (pre +:+ label +:+ body +:+ next +:+ rest)
  = Some (PyStr.lstrip body).
Proof.
  intros Hl Hn Hlen Hfirst Hpre Hbody.
  rewrite search_skip.
  2:{ intros a u Ha Hu. unfold Re.section_until.
      now rewrite (no_early_match label pre _ a u Hl Hpre Ha Hu). }
  apply search_here. unfold Re.section_until.
  rewrite (match_literal_app _ _ _ _ (same_text_refl true label)).
  destruct next as [|c1 [|c2 next']]; try (cbn [String.length] in Hlen; lia).
  set (nx := String c1 (String c2 next')) in *.
  assert (Hc1 : PyStr.isspace c1 = false) by (apply (Hfirst c1 _ eq_refl)).
  replace (body +:+ nx +:+ rest) with (body +:+ String c1 (String c2 next' +:+ rest))
    by reflexivity.
  rewrite lstrip_app by exact Hc1.
  change (String c1 (String c2 next' +:+ rest)) with (nx +:+ rest).
  apply lazy_until_exact.
  - rewrite (looking_at_app _ _ _ _ (same_text_refl true nx)). reflexivity.
  - intros a u Ha Hu. apply orb_false_iff. split.
    + unfold Re.looking_at.
      destruct (lstrip_suffix body) as [ws Hws].
      rewrite (no_early_match nx (pre +:+ label +:+ body) rest
                 (pre +:+ label +:+ ws +:+ a) u Hn Hbody); [reflexivity| |exact Hu].
      rewrite Hws at 1. rewrite Ha, !append_assoc. reflexivity.
    + unfold nx. rewrite !append_cons. apply at_end_long.
Qed.
End Located.

(** * The parser on a reply in the format of the prompt *)

Section Format.
Context `{PyRuntime}.

Lemma search_tagged_located language intro code tail :
  ~ occurs "`" intro -> ~ occurs "`" code ->
  Re.search (Re.tagged_block language)
    (intro +:+ Re.fence +:+ language +:+ code +:+ Re.fence +:+ tail)
  = Some code.
Proof.
  intros Hintro Hcode. unfold Re.tagged_block, Re.fenced_block.
  rewrite search_skip.
  2:{ intros a u Ha Hu.
      now rewrite (no_fence_start true language intro a u _ Hintro Ha Hu). }
  apply search_here.
  replace (Re.fence +:+ language +:+ code +:+ Re.fence +:+ tail)
    with ((Re.fence +:+ language) +:+ code +:+ Re.fence +:+ tail)
    by (rewrite !append_assoc; reflexivity).
  rewrite (match_literal_app _ _ _ _ (same_text_refl true (Re.fence +:+ language))).
  apply lazy_until_exact.
  - apply looking_at_app, same_text_refl.
  - intros a u Ha Hu. unfold Re.looking_at.
    rewrite <- (append_nil_r Re.fence) at 1.
    now rewrite (no_fence_start true EmptyString code a u _ Hcode Ha Hu).
Qed.

Lemma search_usage_located pre usage :
  ~ mentions "USAGE:" pre ->
  exists g,
    Re.search (Re.section_to_end "USAGE:") (pre +:+ "USAGE:" +:+ usage) = Some g
    /\ PyStr.strip g = PyStr.strip usage.
Proof.
  intros Hpre. destruct (lazy_until_end_strip usage) as (g & Hg & Hs).
  exists g. split; [|exact Hs].
  rewrite search_skip.
  2:{ intros a u Ha Hu. unfold Re.section_to_end.
      now rewrite (no_early_match "USAGE:" pre _ a u eq_refl Hpre Ha Hu). }
  apply search_here. unfold Re.section_to_end.
  rewrite (match_literal_app _ _ _ _ (same_text_refl true "USAGE:")). exact Hg.
Qed.

(** X7.  The parser reads a reply in the format the prompt asks for.
    When the reply is an introduction, a block fenced and tagged with
    the requested language, and the three sections in their order, the
    script has the code of the block, the lines of the dependencies,
    the description and the usage, each stripped: provided that the
    introduction and the code hold no backtick, and that the first
    mention of each label, in any case of its letters, is the label of
    its section. *)
Theorem parser_reads_the_format category language intro code between deps desc usage :
  Re.literal language = true ->
  ~ occurs "`" intro -> ~ occurs "`" code ->
  let head := reply_head language intro code between in
  ~ mentions "DEPENDENCIES:" head ->
  ~ mentions "DESCRIPTION:" (head +:+ "DEPENDENCIES:" +:+ deps) ->
  ~ mentions "USAGE:"
      (head +:+ "DEPENDENCIES:" +:+ deps +:+ "DESCRIPTION:" +:+ desc) ->
  CodeGenerator._parse_code_generation_result
    (formatted language intro code between deps desc usage) category language
  = Ok (GeneratedCode.mk (PyStr.strip code) language
          (CodeGenerator.dependency_lines (PyStr.strip deps))
          (PyStr.strip desc) (PyStr.strip usage)).
Proof.
  intros Hlit Hintro Hcode head Hdeps Hdesc Husage.
  set (reply := formatted language intro code between deps desc usage).
  assert (Hnonspace : forall label c s,
            In label ["DESCRIPTION:"; "USAGE:"] -> label = String c s ->
            PyStr.isspace c = false).
  { intros label c s [<-|[<-|[]]] [= <- _]; reflexivity. }
  assert (S1 : Re.search (Re.tagged_block language) reply = Some code).
  { unfold reply, formatted, reply_head. rewrite !append_assoc.
    now apply search_tagged_located. }
  assert (S2 : Re.search (Re.section_until "DEPENDENCIES:" "DESCRIPTION:") reply
               = Some (PyStr.lstrip deps)).
  { unfold reply, formatted. fold head.
    apply section_until_located; try reflexivity; try assumption.
    - cbn [String.length]. lia.
    - intros c s. apply Hnonspace. left. reflexivity. }
  assert (S3 : Re.search (Re.section_until "DESCRIPTION:" "USAGE:") reply
               = Some (PyStr.lstrip desc)).
  { unfold reply, formatted. fold head.
    replace (head +:+ "DEPENDENCIES:" +:+ deps +:+ "DESCRIPTION:" +:+ desc
             +:+ "USAGE:" +:+ usage)
      with ((head +:+ "DEPENDENCIES:" +:+ deps) +:+ "DESCRIPTION:" +:+ desc
            +:+ "USAGE:" +:+ usage)
      by (rewrite !append_assoc; reflexivity).
    apply section_until_located; try reflexivity; try assumption.
    - cbn [String.length]. lia.
    - intros c s. apply Hnonspace. right. left. reflexivity.
    - rewrite !append_assoc. exact Husage. }
  destruct (search_usage_located _ usage Husage) as (g & S4 & Hg).
  replace (((head +:+ "DEPENDENCIES:" +:+ deps +:+ "DESCRIPTION:" +:+ desc)
            +:+ "USAGE:" +:+ usage)) with reply in S4
    by (unfold reply, formatted; fold head; rewrite !append_assoc; reflexivity).
  unfold CodeGenerator._parse_code_generation_result,
    CodeGenerator.search_tagged_block.
  rewrite Hlit. cbn [Res.bind]. fold reply. rewrite S1, S2, S3, S4.
  rewrite !strip_lstrip, Hg. reflexivity.
Qed.
End Format.

Lemma parser_reads_the_format_witness :
  let nl := PyStr.newline in
  let code := nl +:+ "print(1)" +:+ nl in
  let deps := nl +:+ "numpy" +:+ nl +:+ "pandas" +:+ nl +:+ nl in
  let desc := nl +:+ "Prints one." +:+ nl +:+ nl in
  let usage := nl +:+ "python script.py" +:+ nl in
  formatted "python" EmptyString code (nl +:+ nl) deps desc usage = formatted_reply
  /\ ~ occurs "`" code
  /\ ~ mentions "USAGE:"
       (reply_head "python" EmptyString code (nl +:+ nl) +:+ "DEPENDENCIES:" +:+ deps
        +:+ "DESCRIPTION:" +:+ desc)
  /\ @CodeGenerator._parse_code_generation_result Mini.runtime formatted_reply
       (VStr "bioinformatics") "python"
     = Ok formatted_script.
Proof.
  intros nl code deps desc usage.
  assert (Hintro : ~ occurs "`" EmptyString) by (intros []).
  assert (Hcode : ~ occurs "`" code) by (vm_compute; intuition discriminate).
  assert (H1 : ~ mentions "DEPENDENCIES:"
                 (reply_head "python" EmptyString code (nl +:+ nl)))
    by (apply search_section_to_end_none; vm_compute; reflexivity).
  assert (H2 : ~ mentions "DESCRIPTION:"
                 (reply_head "python" EmptyString code (nl +:+ nl)
                  +:+ "DEPENDENCIES:" +:+ deps))
    by (apply search_section_to_end_none; vm_compute; reflexivity).
  assert (H3 : ~ mentions "USAGE:"
                 (reply_head "python" EmptyString code (nl +:+ nl)
                  +:+ "DEPENDENCIES:" +:+ deps +:+ "DESCRIPTION:" +:+ desc))
    by (apply search_section_to_end_none; vm_compute; reflexivity).
  split; [reflexivity | split; [exact Hcode | split; [exact H3|]]].
  exact (@parser_reads_the_format Mini.runtime (VStr "bioinformatics") "python"
           EmptyString code (nl +:+ nl) deps desc usage eq_refl Hintro Hcode H1 H2 H3).
Defined.

(** * Code generation: what a failure leaves *)

Section Printed.
Context `{PyRuntime}.
Variable client : Gateway.
Variable templates : gmap string string.

Lemma generate_category_script_world category methods em paper_title language w req :
  generation_request templates em paper_title language (category, methods) = Ok req ->
  CodeGenerator._generate_category_script client templates category methods em
    paper_title language w
  = (Ok (category_outcome language category (client (calls w) req)),
     set_stdout
       (stdout w ++ match failure_line language category (client (calls w) req) with
                    | Some line => [line]
                    | None => []
                    end)
       (set_calls (calls w ++ [req]) w)).
Proof.
  unfold generation_request. cbn [fst snd]. intros Hreq.
  unfold CodeGenerator._generate_category_script, Eff.bind, Eff.lift,
    Eff.try_except, Eff.messages_create, Eff.print, Eff.ret.
  destruct (CodeGenerator._create_code_generation_prompt category methods em
              paper_title language
              (CodeGenerator._get_template_for_category templates category))
    as [prompt|]; [|discriminate].
  injection Hreq as <-.
  unfold category_outcome, failure_line.
  destruct (client (calls w) (mk_request MODEL 4000 prompt)) as [text|e].
  - destruct (CodeGenerator._parse_code_generation_result text category language);
      unfold set_stdout, set_calls; cbn; rewrite ?app_nil_r; reflexivity.
  - unfold set_stdout, set_calls; cbn. reflexivity.
Qed.

Lemma generate_scripts_world em paper_title language gs : forall reqs acc w,
  Res.traverse (generation_request templates em paper_title language) gs = Ok reqs ->
  snd (CodeGenerator.generate_scripts client templates gs em paper_title language acc w)
  = set_stdout (stdout w ++ failure_lines client language (calls w) gs reqs)
      (set_calls (calls w ++ reqs) w).
Proof.
  induction gs as [|[category methods] gs IH]; intros reqs acc w Hreqs.
  - injection Hreqs as <-. cbn. unfold set_stdout, set_calls. cbn.
    rewrite !app_nil_r. now destruct w.
  - simpl in Hreqs.
    destruct (generation_request templates em paper_title language
                (category, methods)) as [req|] eqn:Hreq; [|discriminate].
    destruct (Res.traverse _ gs) as [reqs'|] eqn:Hrest; [|discriminate].
    injection Hreqs as <-.
    cbn [CodeGenerator.generate_scripts]. unfold Eff.bind at 1.
    rewrite (generate_category_script_world _ _ _ _ _ w _ Hreq).
    rewrite (IH reqs' _ _ eq_refl).
    unfold failure_lines. cbn [replies_in_sequence zip_with fst omap list_omap].
    unfold set_stdout, set_calls. cbn [calls files stdout clock heap].
    destruct (failure_line language category (client (calls w) req));
      cbn [option_bind mbind id]; rewrite <- !app_assoc; reflexivity.
Qed.

Lemma outcome_or_line language category r :
  match category_outcome language category r, failure_line language category r with
  | Some _, None | None, Some _ => True
  | _, _ => False
  end.
Proof.
  unfold category_outcome, failure_line. destruct r as [text|e]; [|exact I].
  destruct (CodeGenerator._parse_code_generation_result text category language);
    exact I.
Qed.

Lemma scripts_and_lines language (gs : list (value * list ComputationalMethod.t)) :
  forall replies,
  (length (omap id (zip_with (fun g r => category_outcome language (fst g) r)
                      gs replies))
   + length (omap id (zip_with (fun g r => failure_line language (fst g) r)
                        gs replies)))%nat
  = Nat.min (length gs) (length replies).
Proof.
  induction gs as [|g gs IH]; intros [|r replies]; try reflexivity.
  cbn [zip_with omap list_omap length Nat.min].
  pose proof (outcome_or_line language (fst g) r) as Hone.
  destruct (category_outcome language (fst g) r), (failure_line language (fst g) r);
    try contradiction; cbn [option_bind mbind id length]; rewrite <- (IH replies); lia.
Qed.

Lemma length_replies_in_sequence reqs : forall log,
  length (replies_in_sequence client log reqs) = length reqs.
Proof.
  induction reqs as [|req reqs IH]; intros log; [reflexivity|].
  cbn [replies_in_sequence length]. now rewrite IH.
Qed.

(** X6.  Of a category whose generation failed, [generate_code_from_methods]
    leaves one line on the standard output, with the category and the
    message of the failure, and nothing else: for a typed result the
    world after the call is the world before it with the requests of
    the groups added to the log and the lines of the failed groups
    printed in their order; and the scripts and the lines together are
    as many as the groups. *)
Theorem failures_are_printed em paper_title language w :
  Typed.extracted_methods em = true ->
  let gs := grouped (ExtractedMethods.computational_methods em) in
  let run := CodeGenerator.generate_code_from_methods client templates em
               paper_title language w in
  exists reqs scripts,
    Res.traverse (generation_request templates em paper_title language) gs = Ok reqs
    /\ fst run = Ok scripts
    /\ snd run
       = set_stdout (stdout w ++ failure_lines client language (calls w) gs reqs)
           (set_calls (calls w ++ reqs) w)
    /\ (length scripts + length (failure_lines client language (calls w) gs reqs))%nat
       = length gs.
Proof.
  intros Ht gs run.
  destruct (generate_code_run client templates em paper_title language w Ht)
    as (reqs & w' & Hreqs & Hrun & _).
  exists reqs, (scripts_of (category_outcomes client language (calls w) gs reqs)).
  split; [exact Hreqs|]. split; [unfold run; now rewrite Hrun|]. split.
  - unfold run, CodeGenerator.generate_code_from_methods, Eff.bind, Eff.lift.
    rewrite group_methods_grouped.
    + now apply generate_scripts_world.
    + apply typed_comparable. unfold Typed.extracted_methods in Ht.
      rewrite !andb_true_iff in Ht. tauto.
  - unfold scripts_of, category_outcomes, failure_lines.
    rewrite scripts_and_lines, length_replies_in_sequence.
    rewrite (traverse_length _ _ _ Hreqs). fold gs. lia.
Qed.
End Printed.

Lemma failures_are_printed_witness :
  Typed.extracted_methods three_methods = true
  /\ stdout (snd (@CodeGenerator.generate_code_from_methods Mini.runtime
                    (answering_except 1 formatted_reply) ∅ three_methods "title"
                    "python" Mini.empty_world))
     = ["Failed to generate code for category machine_learning: service unavailable"].
Proof.
  assert (Ht : Typed.extracted_methods three_methods = true) by reflexivity.
  split; [exact Ht|].
  destruct (@failures_are_printed Mini.runtime (answering_except 1 formatted_reply) ∅
              three_methods "title" "python" Mini.empty_world Ht)
    as (reqs & scripts & Hreqs & _ & Hw & _).
  rewrite Hw. vm_compute in Hreqs. injection Hreqs as <-.
  vm_compute. reflexivity.
Defined.

(** * The conversational engine: suggestions *)

Section Suggestions.
Context `{PyRuntime}.
Variable client : Gateway.

(** X11.  [suggest_questions] never raises, whatever the context and
    the service.  Without a paper or without extracted methods it
    returns its one line of guidance and makes no request.  With a
    context it makes one request; when the service fails it returns
    the seven questions of the source, and when the service answers it
    returns the lines of the stripped answer, each stripped, that are
    not empty then, in their order: every one of them is a line
    without spaces around it.  It leaves the object store as it
    was. *)
Theorem suggestions_never_fail self w :
  exists questions,
    fst (InteractiveQA.suggest_questions client self w) = Ok questions
    /\ heap (snd (InteractiveQA.suggest_questions client self w)) = heap w
    /\ (InteractiveQA.paper_metadata self = None
        \/ InteractiveQA.extracted_methods self = None ->
        questions = ["Please load a paper first."]
        /\ snd (InteractiveQA.suggest_questions client self w) = w)
    /\ (forall pm em,
          InteractiveQA.paper_metadata self = Some pm ->
          InteractiveQA.extracted_methods self = Some em ->
          calls (snd (InteractiveQA.suggest_questions client self w))
          = calls w ++ [suggestion_request pm em]
          /\ (forall e,
                client (calls w) (suggestion_request pm em) = Failure e ->
                questions = InteractiveQA.FALLBACK_QUESTIONS)
          /\ (forall text,
                client (calls w) (suggestion_request pm em) = Reply text ->
                questions
                = List.filter (fun q => negb (String.eqb q EmptyString))
                    (map PyStr.strip
                       (PyStr.split (ascii_of_nat 10) (PyStr.strip text)))
                /\ Forall clean_line questions)).
Proof.
  unfold InteractiveQA.suggest_questions, suggestion_request.
  destruct (InteractiveQA.paper_metadata self) as [pm|];
    [destruct (InteractiveQA.extracted_methods self) as [em|]|].
  - unfold Eff.try_except, Eff.bind, Eff.messages_create, Eff.ret.
    destruct (client (calls w) (mk_request MODEL 1000
                                  (InteractiveQA.suggestion_prompt pm em)))
      as [text|e] eqn:Hr; cbn [fst snd heap calls set_calls].
    + eexists. split; [reflexivity|]. split; [reflexivity|].
      split; [intros [|]; discriminate|].
      intros pm' em' [= <-] [= <-]. rewrite Hr.
      split; [reflexivity|]. split; [discriminate|].
      intros text' [= <-]. split; [reflexivity | apply kept_lines_clean].
    + eexists. split; [reflexivity|]. split; [reflexivity|].
      split; [intros [|]; discriminate|].
      intros pm' em' [= <-] [= <-]. rewrite Hr.
      split; [reflexivity|]. split; [reflexivity | discriminate].
  - eexists. split; [reflexivity|]. split; [reflexivity|].
    split; [auto | discriminate].
  - eexists. split; [reflexivity|]. split; [reflexivity|].
    split; [auto | discriminate].
Qed.
End Suggestions.

Lemma suggestions_never_fail_witness :
  let self := InteractiveQA.mk (Some sample_paper) (Some sample_result) 0%nat in
  let reply := "  Which test was used?  " +:+ PyStr.newline +:+ PyStr.newline
               +:+ "Is the code available?" +:+ PyStr.newline in
  fst (@InteractiveQA.suggest_questions Mini.runtime (Mini.answering reply) self
         Mini.empty_world)
  = Ok ["Which test was used?"; "Is the code available?"]
  /\ Forall clean_line ["Which test was used?"; "Is the code available?"]
  /\ fst (@InteractiveQA.suggest_questions Mini.runtime (Mini.failing "timeout") self
            Mini.empty_world)
     = Ok InteractiveQA.FALLBACK_QUESTIONS.
Proof.
  intros self reply.
  destruct (@suggestions_never_fail Mini.runtime (Mini.answering reply) self
              Mini.empty_world) as (qs & Hrun & _ & _ & Hctx).
  destruct (Hctx sample_paper sample_result eq_refl eq_refl) as (_ & _ & Hlines).
  destruct (Hlines reply eq_refl) as [_ Hclean].
  destruct (@suggestions_never_fail Mini.runtime (Mini.failing "timeout") self
              Mini.empty_world) as (qs' & Hrun' & _ & _ & Hctx').
  destruct (Hctx' sample_paper sample_result eq_refl eq_refl) as (_ & Hfail & _).
  specialize (Hfail (APIError "timeout") eq_refl).
  assert (Hqs : qs = ["Which test was used?"; "Is the code available?"]).
  { vm_compute in Hrun. now injection Hrun as <-. }
  rewrite Hrun, Hrun', Hfail, Hqs in *. subst qs.
  split; [reflexivity | split; [exact Hclean | reflexivity]].
Defined.

(** * The conversational engine: a question that is answered *)

Section Answered.
Context `{PyRuntime}.
Variable client : Gateway.

(** X12.  With a typed context loaded, a question the service answers
    is answered with the text of the service, and one exchange is
    appended to the history: the question, the answer, the time of the
    clock and the constant label of the context.  A history of fewer
    than ten exchanges keeps them all before the new one; a longer one
    keeps the last ten of the whole.  The context stays and one request
    is made. *)
Theorem answered_question_is_recorded question self w pm em exs :
  InteractiveQA.paper_metadata self = Some pm ->
  InteractiveQA.extracted_methods self = Some em ->
  Typed.extracted_methods em = true ->
  holds self (heap w) exs ->
  exists prompt,
    InteractiveQA._create_qa_prompt self (heap w) question = Ok prompt
    /\ forall text,
         client (calls w) (question_request prompt) = Reply text ->
         exists self' w',
           InteractiveQA.ask_question client question self w = (Ok (text, self'), w')
           /\ history_returned self' w'
              = PyList.slice_from (exs ++ [recorded question text (clock w)]) (-10)
           /\ ((length exs < 10)%nat ->
               history_returned self' w' = exs ++ [recorded question text (clock w)])
           /\ InteractiveQA.paper_metadata self' = Some pm
           /\ InteractiveQA.extracted_methods self' = Some em
           /\ calls w' = calls w ++ [question_request prompt].
Proof.
  intros Hpm Hem Ht Hh.
  destruct (qa_prompt_ok self (heap w) question pm em Hpm Hem Ht) as [prompt Hp].
  exists prompt. split; [exact Hp|]. intros text Hr.
  destruct (ask_question_answered client question self w pm em prompt text exs
              Hpm Hem Hp Hr Hh) as (self' & w' & Hask & Hh' & Hpm' & Hem' & Hc & _).
  exists self', w'. rewrite (history_returned_holds _ _ _ Hh').
  repeat split; try assumption.
  intros Hlen. apply slice_from_short. rewrite length_app. cbn [length]. lia.
Qed.

(** X13.  Questions asked one after the other, all answered, from any
    history, also one longer than ten exchanges: the history is then
    the last ten exchanges of the old history followed by the new
    exchanges, and it has ten exchanges or, when there are fewer, all
    of them. *)
Theorem history_is_the_last_ten pm em questions self w exs :
  InteractiveQA.paper_metadata self = Some pm ->
  InteractiveQA.extracted_methods self = Some em ->
  Typed.extracted_methods em = true ->
  always_answers client ->
  holds self (heap w) exs ->
  questions <> [] ->
  exists answers self' w',
    ask_each client questions self w = (answers, self', w')
    /\ length answers = length questions
    /\ history_returned self' w'
       = PyList.slice_from (exs ++ recorded_all questions answers (clock w)) (-10)
    /\ length (history_returned self' w')
       = Nat.min (length exs + length questions) 10.
Proof.
  intros Hpm Hem Ht Hans Hh Hne.
  destruct (ask_each_answered client pm em questions self w exs Hpm Hem Ht Hans Hh)
    as (answers & self' & w' & Hrun & Hla & Hh').
  exists answers, self', w'. split; [exact Hrun|]. split; [exact Hla|].
  destruct questions as [|q qs]; [congruence|].
  rewrite (history_returned_holds _ _ _ Hh'). split; [reflexivity|].
  rewrite length_slice_from, length_app, length_recorded_all by congruence.
  reflexivity.
Qed.
End Answered.

Lemma answered_question_is_recorded_witness :
  let self := InteractiveQA.load_paper_context sample_paper sample_result new_engine in
  let w := world_with_file "chat.json" (saved_conversation 0) in
  Typed.extracted_methods sample_result = true
  /\ holds self (heap w) []
  /\ exists self' w',
       @InteractiveQA.ask_question Mini.runtime (Mini.answering "Yes.")
         "Is it so?" self w = (Ok ("Yes.", self'), w')
       /\ history_returned self' w' = [@recorded Mini.runtime "Is it so?" "Yes." 0].
Proof.
  intros self w.
  assert (Ht : Typed.extracted_methods sample_result = true) by reflexivity.
  assert (Hh : holds self (heap w) []).
  { exists []. split; [reflexivity | constructor]. }
  split; [exact Ht | split; [exact Hh|]].
  destruct (@answered_question_is_recorded Mini.runtime (Mini.answering "Yes.")
              "Is it so?" self w sample_paper sample_result [] eq_refl eq_refl Ht Hh)
    as (prompt & _ & Hask).
  destruct (Hask "Yes." eq_refl) as (self' & w' & Hrun & _ & Hshort & _).
  exists self', w'. split; [exact Hrun|].
  apply Hshort. cbn [length]. lia.
Defined.

Lemma history_is_the_last_ten_witness :
  let self := InteractiveQA.load_paper_context sample_paper sample_result new_engine in
  let w := world_with_file "chat.json" (saved_conversation 0) in
  Typed.extracted_methods sample_result = true
  /\ always_answers (Mini.answering "Yes.")
  /\ exists answers self' w',
       @ask_each Mini.runtime (Mini.answering "Yes.")
         (map (fun n => "question " +:+ pretty n) (seq 1 12)) self w
       = (answers, self', w')
       /\ length (history_returned self' w') = 10%nat.
Proof.
  intros self w.
  assert (Ht : Typed.extracted_methods sample_result = true) by reflexivity.
  assert (Hans : always_answers (Mini.answering "Yes.")).
  { intros log req. exists "Yes.". reflexivity. }
  assert (Hh : holds self (heap w) []).
  { exists []. split; [reflexivity | constructor]. }
  split; [exact Ht | split; [exact Hans|]].
  destruct (@history_is_the_last_ten Mini.runtime (Mini.answering "Yes.")
              sample_paper sample_result
              (map (fun n => "question " +:+ pretty n) (seq 1 12)) self w []
              eq_refl eq_refl Ht Hans Hh ltac:(discriminate))
    as (answers & self' & w' & Hrun & _ & _ & Hlen).
  exists answers, self', w'. split; [exact Hrun | exact Hlen].
Defined.

(** * The conversational engine: what the prompt holds *)

Section Prompt.
Context `{PyRuntime}.

Lemma slice_from_last_three {A} (older recent : list A) :
  length recent = 3%nat -> PyList.slice_from (older ++ recent) (-3) = recent.
Proof.
  intros Hlen. unfold PyList.slice_from, PyStr.clamp.
  change (-3 <? 0) with true. cbv iota. rewrite length_app, Hlen.
  replace (Z.to_nat (Z.max 0 (-3 + Z.of_nat (length older + 3)))) with (length older)
    by lia.
  apply drop_app_length.
Qed.

Lemma history_context_last_three older recent :
  length recent = 3%nat ->
  InteractiveQA.history_context (older ++ recent)
  = InteractiveQA.history_context recent.
Proof.
  intros Hlen. unfold InteractiveQA.history_context.
  rewrite slice_from_last_three by exact Hlen.
  pose proof (slice_from_last_three [] recent Hlen) as Hrecent.
  cbn [app] in Hrecent. rewrite Hrecent.
  destruct recent as [|e recent]; [discriminate|].
  destruct older; reflexivity.
Qed.

(** The prompt is read off the context and the exchanges of the
    history. *)
Lemma qa_prompt_of_history self self' h h' question :
  InteractiveQA.paper_metadata self' = InteractiveQA.paper_metadata self ->
  InteractiveQA.extracted_methods self' = InteractiveQA.extracted_methods self ->
  InteractiveQA.history_context (InteractiveQA.history self' h')
  = InteractiveQA.history_context (InteractiveQA.history self h) ->
  InteractiveQA._create_qa_prompt self' h' question
  = InteractiveQA._create_qa_prompt self h question.
Proof.
  intros Hpm Hem Hh. unfold InteractiveQA._create_qa_prompt.
  rewrite Hpm, Hem, Hh. reflexivity.
Qed.

(** X14.  Of the conversation, the prompt of a question holds the last
    three exchanges: an engine whose history is these three builds the
    same prompt as one with any number of older exchanges before
    them. *)
Theorem prompt_holds_last_three self self' h h' question older recent :
  InteractiveQA.paper_metadata self' = InteractiveQA.paper_metadata self ->
  InteractiveQA.extracted_methods self' = InteractiveQA.extracted_methods self ->
  length recent = 3%nat ->
  holds self h (older ++ recent) ->
  holds self' h' recent ->
  InteractiveQA._create_qa_prompt self h question
  = InteractiveQA._create_qa_prompt self' h' question.
Proof.
  intros Hpm Hem Hlen Hh Hh'. symmetry.
  apply qa_prompt_of_history; [exact Hpm | exact Hem|].
  rewrite (holds_history _ _ _ Hh), (holds_history _ _ _ Hh').
  symmetry. now apply history_context_last_three.
Qed.

(** X15.  Of the full text of the paper, the prompt of a question holds
    the first 8000 characters: what comes after them changes nothing to
    the prompt. *)
Theorem full_text_is_cut self h question pm em rest :
  InteractiveQA.paper_metadata self = Some pm ->
  InteractiveQA.extracted_methods self = Some em ->
  8000 <= Z.of_nat (String.length (PaperMetadata.full_text pm)) ->
  InteractiveQA._create_qa_prompt
    (InteractiveQA.load_paper_context
       (with_full_text pm (PaperMetadata.full_text pm +:+ rest)) em self)
    h question
  = InteractiveQA._create_qa_prompt self h question.
Proof.
  intros Hpm Hem Hlen. unfold InteractiveQA._create_qa_prompt.
  rewrite Hpm, Hem.
  cbn [InteractiveQA.load_paper_context InteractiveQA.paper_metadata
         InteractiveQA.extracted_methods].
  unfold InteractiveQA.history.
  cbn [InteractiveQA.load_paper_context InteractiveQA.conversation_history].
  unfold InteractiveQA.paper_context, with_full_text.
  cbn [PaperMetadata.title PaperMetadata.authors PaperMetadata.abstract
         PaperMetadata.doi PaperMetadata.journal PaperMetadata.year
         PaperMetadata.full_text].
  rewrite slice_to_app by lia. reflexivity.
Qed.

Lemma unlines_app (pre post : list string) :
  MethodExtractor.unlines (pre ++ post)
  = MethodExtractor.unlines pre +:+ MethodExtractor.unlines post.
Proof.
  unfold MethodExtractor.unlines. induction pre as [|l pre IH]; [reflexivity|].
  cbn [app fold_right]. rewrite IH, !append_assoc. reflexivity.
Qed.

Lemma unlines_at (pre : list string) x post :
  MethodExtractor.unlines (pre ++ x :: post)
  = MethodExtractor.unlines pre +:+ x
    +:+ (PyStr.newline +:+ MethodExtractor.unlines post).
Proof. rewrite unlines_app. reflexivity. Qed.

(** X16.  Loading the context of another paper keeps the conversation:
    the history is the one of the paper before, and the prompt of the
    next question holds its last exchanges, between two texts that do
    not depend on the history. *)
Theorem conversation_outlives_the_paper self pm em question :
  Typed.extracted_methods em = true ->
  let self' := InteractiveQA.load_paper_context pm em self in
  (forall h exs, holds self h exs -> holds self' h exs)
  /\ exists before after, forall h exs,
       holds self h exs ->
       InteractiveQA._create_qa_prompt self' h question
       = Ok (before +:+ InteractiveQA.history_context exs +:+ after).
Proof.
  intros Ht self'. split; [intros h exs Hh; exact Hh|].
  unfold Typed.extracted_methods in Ht. rewrite !andb_true_iff in Ht.
  destruct Ht as ((((Hms & _) & Hws) & Hkf) & _).
  assert (Hm : is_ok (Res.traverse InteractiveQA.method_context
                        (ExtractedMethods.computational_methods em)) = true).
  { apply traverse_all_ok. intros m Hin. apply method_context_ok.
    exact (proj1 (forallb_forall _ _) Hms m Hin). }
  assert (Hw : is_ok (Res.traverse InteractiveQA.workflow_context
                        (ExtractedMethods.workflows em)) = true).
  { apply traverse_all_ok. intros wf Hin. apply workflow_context_ok.
    exact (proj1 (forallb_forall _ _) Hws wf Hin). }
  pose proof (join_ok PyStr.newline _ Hkf) as Hk.
  destruct (Res.traverse InteractiveQA.method_context
              (ExtractedMethods.computational_methods em)) as [mcs|] eqn:Emc;
    [|discriminate].
  destruct (Res.traverse InteractiveQA.workflow_context
              (ExtractedMethods.workflows em)) as [wcs|] eqn:Ewc; [|discriminate].
  destruct (Py.join PyStr.newline (ExtractedMethods.key_findings em)) as [kf|] eqn:Ekf;
    [|discriminate].
  eexists. eexists. intros h exs Hh.
  unfold InteractiveQA._create_qa_prompt.
  cbn [self' InteractiveQA.load_paper_context InteractiveQA.paper_metadata
         InteractiveQA.extracted_methods].
  rewrite Emc, Ewc. cbn [Res.bind]. rewrite Ekf. cbn [Res.bind].
  assert (Hhist : InteractiveQA.history self' h = exs) by (apply holds_history, Hh).
  rewrite Hhist. f_equal.
  unfold InteractiveQA.unlines.
  exact (unlines_at [_; _; _; _; _; _; _; _; _; _; _] _ _).
Qed.
End Prompt.

(** * The conversational engine: saved conversations *)

Section Saved.
Context `{PyRuntime}.

(** What a computation leaves of the world but for new objects. *)
Lemma load_exchange_frame item w r w' :
  InteractiveQA.load_exchange item w = (r, w') ->
  (forall k o, heap w !! k = Some o -> heap w' !! k = Some o)
  /\ set_heap (heap w) w' = w
  /\ (is_ok r = true <-> is_Some (loaded_exchange item)).
Proof.
  unfold InteractiveQA.load_exchange, loaded_exchange, Eff.bind, Eff.lift, Eff.alloc.
  destruct (Py.getitem item "question");
    [destruct (Py.getitem item "answer");
     [destruct (Py.getitem item "timestamp")|]|];
    intros [= <- <-]; cbn [heap set_heap is_ok].
  2-4: split; [auto|]; split; [now destruct w|];
       split; [discriminate | intros [? [=]]].
  split; [|split; [now destruct w | split; eauto]].
  intros k o Hk. rewrite lookup_insert_ne; [exact Hk|].
  intros <-. assert (fresh (dom (heap w)) ∉ dom (heap w)) as Hf by apply is_fresh.
  apply Hf, elem_of_dom. eauto.
Qed.

Lemma traverse_load_exchange_frame items : forall w r w',
  PyList.traverse InteractiveQA.load_exchange items w = (r, w') ->
  (forall k o, heap w !! k = Some o -> heap w' !! k = Some o)
  /\ set_heap (heap w) w' = w
  /\ (Exists (fun item => loaded_exchange item = None) items -> is_ok r = false).
Proof.
  induction items as [|item items IH]; intros w r w'.
  - cbn [PyList.traverse]. unfold Eff.ret. intros [= <- <-].
    split; [auto|]. split; [now destruct w | intros Hex; inversion Hex].
  - cbn [PyList.traverse]. unfold Eff.bind at 1.
    destruct (InteractiveQA.load_exchange item w) as [[l|e] w1] eqn:Hstep;
      destruct (load_exchange_frame _ _ _ _ Hstep) as (Hmono & Hframe & Hok).
    + unfold Eff.bind at 1.
      destruct (PyList.traverse InteractiveQA.load_exchange items w1)
        as [[ls|e] w2] eqn:Hrest;
        destruct (IH _ _ _ Hrest) as (Hmono' & Hframe' & Hbad);
        unfold Eff.ret; intros [= <- <-].
      * split; [auto|]. split.
        { rewrite <- Hframe, <- Hframe'. now destruct w2. }
        intros Hex. inversion Hex as [? ? Hnone|? ? Hex']; subst.
        -- destruct (proj1 Hok eq_refl) as [x Hx]. congruence.
        -- exact (Hbad Hex').
      * split; [auto|]. split; [|reflexivity].
        rewrite <- Hframe, <- Hframe'. now destruct w2.
    + intros [= <- <-]. split; [exact Hmono|]. split; [exact Hframe | reflexivity].
Qed.

Lemma holds_mono self h h' exs :
  holds self h exs ->
  (forall k o, h !! k = Some o -> h' !! k = Some o) ->
  holds self h' exs.
Proof.
  intros (items & Hl & Hd) Hmono. exists items. split; [auto|].
  apply (denotes_agree h); auto.
Qed.

(** X18.  A conversation that cannot be loaded leaves the history as it
    was: a file that is not there, a text that does not decode, a
    document without the key of the history and an item without one of
    its three fields make [load_conversation] raise, and the engine
    then has the exchanges it had, whatever items were read before the
    faulty one.  Nothing but the object store changes. *)
Theorem failed_load_keeps_history path self w exs :
  holds self (heap w) exs ->
  let run := InteractiveQA.load_conversation path self w in
  holds self (heap (snd run)) exs
  /\ set_heap (heap w) (snd run) = w
  /\ (files w !! path = None -> fst run = Raise (FileNotFoundError path))
  /\ (forall text msg,
        files w !! path = Some text -> json_decode text = inl msg ->
        fst run = Raise (JSONDecodeError msg))
  /\ (forall text data,
        files w !! path = Some text -> json_decode text = inr (VDict data) ->
        dict_lookup "conversation_history" data = None ->
        fst run = Raise (KeyError "conversation_history"))
  /\ (forall text data items,
        files w !! path = Some text -> json_decode text = inr (VDict data) ->
        dict_lookup "conversation_history" data = Some (VList items) ->
        Exists (fun item => loaded_exchange item = None) items ->
        is_ok (fst run) = false).
Proof.
  intros Hh run. unfold run, InteractiveQA.load_conversation, Eff.bind, Eff.read_file,
    Eff.lift, json_loads.
  assert (Hw : set_heap (heap w) w = w) by now destruct w.
  destruct (files w !! path) as [text|] eqn:Hfile.
  2:{ cbn [fst snd]. repeat split; try assumption; intros; simplify_eq. }
  destruct (json_decode text) as [msg|data] eqn:Hjson.
  { cbn [fst snd]. repeat split; try assumption; intros; simplify_eq; congruence. }
  assert (Hcases :
    forall (r : result InteractiveQA.t) w1,
      (forall items : list value,
         Py.getitem data "conversation_history" = Ok (VList items) ->
         Exists (fun item => loaded_exchange item = None) items -> is_ok r = false) ->
      (forall e, Py.getitem data "conversation_history" = Raise e -> r = Raise e) ->
      holds self (heap w1) exs -> set_heap (heap w) w1 = w ->
      holds self (heap w1) exs
      /\ set_heap (heap w) w1 = w
      /\ (Some text = None -> r = Raise (FileNotFoundError path))
      /\ (forall text' msg,
            Some text = Some text' -> json_decode text' = inl msg ->
            r = Raise (JSONDecodeError msg))
      /\ (forall text' data',
            Some text = Some text' -> json_decode text' = inr (VDict data') ->
            dict_lookup "conversation_history" data' = None ->
            r = Raise (KeyError "conversation_history"))
      /\ (forall text' data' items,
            Some text = Some text' -> json_decode text' = inr (VDict data') ->
            dict_lookup "conversation_history" data' = Some (VList items) ->
            Exists (fun item => loaded_exchange item = None) items ->
            is_ok r = false)).
  { intros r w1 Hbad Hraise Hh1 Hf1.
    split; [exact Hh1|]. split; [exact Hf1|]. split; [discriminate|].
    split; [intros text' msg' [= <-]; congruence|]. split.
    - intros text' data' [= <-] Hd Hnone. rewrite Hjson in Hd. injection Hd as ->.
      apply Hraise. cbn [Py.getitem]. rewrite Hnone. reflexivity.
    - intros text' data' items [= <-] Hd Hsome. rewrite Hjson in Hd.
      injection Hd as ->. apply Hbad. cbn [Py.getitem]. rewrite Hsome. reflexivity. }
  destruct (Py.getitem data "conversation_history") as [saved|e] eqn:Hkey.
  2:{ cbn [fst snd]. apply Hcases; try assumption; [discriminate|].
      intros e' [= <-]. reflexivity. }
  destruct (Py.iter saved) as [items|e] eqn:Hiter.
  2:{ cbn [fst snd]. apply Hcases; try assumption; [|discriminate].
      intros items [= ->]. discriminate. }
  destruct (PyList.traverse InteractiveQA.load_exchange items w)
    as [[ls|e] w1] eqn:Hrun;
    destruct (traverse_load_exchange_frame _ _ _ _ Hrun) as (Hmono & Hframe & Hbad).
  - unfold Eff.alloc, Eff.ret. cbn [fst snd]. apply Hcases.
    + intros items' [= ->]. cbn [Py.iter] in Hiter. injection Hiter as <-.
      intros Hex. specialize (Hbad Hex). discriminate.
    + discriminate.
    + cbn [heap set_heap]. apply (holds_mono self (heap w)); [exact Hh|].
      intros k o Hk. rewrite lookup_insert_ne; [auto|].
      intros <-. assert (fresh (dom (heap w1)) ∉ dom (heap w1)) as Hf by apply is_fresh.
      apply Hf, elem_of_dom. eauto.
    + rewrite <- Hframe at 2. now destruct w1.
  - cbn [fst snd]. apply Hcases.
    + reflexivity.
    + discriminate.
    + apply (holds_mono self (heap w)); assumption.
    + exact Hframe.
Qed.

Lemma loaded_exchange_record e :
  QAExchange.context_used e = InteractiveQA.CONTEXT_USED ->
  loaded_exchange (InteractiveQA.exchange_record e) = Some e.
Proof. destruct e as [q a t c]. cbn. intros ->. reflexivity. Qed.

Lemma omap_loaded_records exs :
  recorded_by_engine exs ->
  omap loaded_exchange (map InteractiveQA.exchange_record exs) = exs
  /\ Forall (fun item => is_Some (loaded_exchange item))
            (map InteractiveQA.exchange_record exs).
Proof.
  induction 1 as [|e exs He _ [IH1 IH2]]; [split; [reflexivity | constructor]|].
  cbn [map omap list_omap]. rewrite (loaded_exchange_record e He), IH1.
  split; [reflexivity|]. constructor; [|exact IH2].
  rewrite (loaded_exchange_record e He). eauto.
Qed.

(** X17.  A conversation that is exported and loaded again is the
    conversation: when the JSON library decodes what it encoded for the
    document, [load_conversation] on the file [export_conversation]
    wrote gives the engine the exchanges it had, in their order, with
    their questions, answers and times.  The context of the engine is
    not read from the file: it stays as it is. *)
Theorem conversation_round_trip path self w exs :
  holds self (heap w) exs ->
  recorded_by_engine exs ->
  json_decode (json_encode (InteractiveQA.export_data self (heap w)))
  = inr (InteractiveQA.export_data self (heap w)) ->
  let w1 := snd (InteractiveQA.export_conversation path self w) in
  fst (InteractiveQA.export_conversation path self w) = Ok tt
  /\ exists self' w2,
       InteractiveQA.load_conversation path self w1 = (Ok self', w2)
       /\ holds self' (heap w2) exs
       /\ InteractiveQA.paper_metadata self' = InteractiveQA.paper_metadata self
       /\ InteractiveQA.extracted_methods self' = InteractiveQA.extracted_methods self.
Proof.
  intros Hh Hrec Hjson w1. split; [reflexivity|].
  destruct (omap_loaded_records exs Hrec) as [Hback Hall].
  destruct (traverse_load_exchange
              (map InteractiveQA.exchange_record exs) w1 Hall)
    as (locs & w2 & Hrun & Hd & _).
  assert (Hfile : files w1 !! path
                  = Some (json_encode (InteractiveQA.export_data self (heap w)))).
  { apply lookup_insert_eq. }
  assert (Hget : Py.getitem (InteractiveQA.export_data self (heap w))
                   "conversation_history"
                 = Ok (VList (map InteractiveQA.exchange_record exs))).
  { unfold InteractiveQA.export_data. rewrite (holds_history _ _ _ Hh). reflexivity. }
  unfold InteractiveQA.load_conversation, Eff.bind, Eff.read_file, Eff.lift,
    json_loads.
  rewrite Hfile, Hjson, Hget. cbn [Py.iter]. rewrite Hrun.
  unfold Eff.alloc, Eff.ret. eexists _, _. split; [reflexivity|].
  cbn [heap set_heap InteractiveQA.conversation_history InteractiveQA.paper_metadata
         InteractiveQA.extracted_methods].
  split; [|split; reflexivity].
  exists locs. split; [apply lookup_insert_eq|].
  rewrite Hback in Hd. apply denotes_alloc; [exact Hd | apply is_fresh].
Qed.

(** X19.  [clear_conversation] empties the history of the engine in
    place, and a list that [get_conversation_history] returned before
    keeps its exchanges. *)
Theorem clear_keeps_copies self w exs :
  holds self (heap w) exs ->
  exists copy w1,
    InteractiveQA.get_conversation_history self w = (Ok copy, w1)
    /\ fst (InteractiveQA.clear_conversation self w1) = Ok tt
    /\ let w2 := snd (InteractiveQA.clear_conversation self w1) in
       InteractiveQA.history self (heap w2) = []
       /\ PyList.exchanges (heap w2) (PyList.items (heap w2) copy) = exs
       /\ set_heap (heap w) w2 = w.
Proof.
  intros (items & Hl & Hd).
  set (lh := InteractiveQA.conversation_history self) in *.
  set (copy := fresh (dom (heap w))).
  assert (Hfresh : copy ∉ dom (heap w)) by apply is_fresh.
  assert (Hne : copy <> lh).
  { intros Heq. apply Hfresh. rewrite Heq. apply elem_of_dom. eauto. }
  unfold InteractiveQA.get_conversation_history, Eff.bind, PyList.load, Eff.alloc.
  fold lh. fold copy. unfold PyList.items at 1. rewrite Hl.
  eexists _, _. split; [reflexivity|]. split; [reflexivity|].
  unfold InteractiveQA.clear_conversation, Eff.store.
  cbn [snd heap set_heap]. fold lh. split; [|split].
  - unfold InteractiveQA.history. fold lh. rewrite items_store. reflexivity.
  - unfold PyList.items. rewrite lookup_insert_ne by congruence.
    rewrite lookup_insert_eq. apply denotes_exchanges.
    apply (denotes_store_list _ lh items).
    + now apply denotes_alloc.
    + rewrite lookup_insert_ne by congruence. exact Hl.
  - now destruct w.
Qed.
End Saved.

Ltac holds_in_store :=
  eexists; split; [vm_compute; reflexivity|];
  repeat (constructor; [vm_compute; reflexivity|]); constructor.

Lemma prompt_holds_last_three_witness :
  let self := InteractiveQA.load_paper_context sample_paper sample_result new_engine in
  let older := [sample_exchange 1; sample_exchange 2] in
  let recent := [sample_exchange 3; sample_exchange 4; sample_exchange 5] in
  holds self (store_of (older ++ recent)) (older ++ recent)
  /\ holds self (store_of recent) recent
  /\ @InteractiveQA._create_qa_prompt Mini.runtime self (store_of (older ++ recent))
       "Which test was used?"
     = @InteractiveQA._create_qa_prompt Mini.runtime self (store_of recent)
         "Which test was used?".
Proof.
  intros self older recent.
  assert (H1 : holds self (store_of (older ++ recent)) (older ++ recent))
    by holds_in_store.
  assert (H2 : holds self (store_of recent) recent) by holds_in_store.
  split; [exact H1 | split; [exact H2|]].
  exact (@prompt_holds_last_three Mini.runtime self self _ _ "Which test was used?"
           older recent eq_refl eq_refl eq_refl H1 H2).
Defined.

Lemma full_text_is_cut_witness :
  let pm := with_full_text sample_paper
              (string_of_list_ascii (repeat "a"%char (Z.to_nat 8000))) in
  let self := InteractiveQA.load_paper_context pm sample_result new_engine in
  8000 <= Z.of_nat (String.length (PaperMetadata.full_text pm))
  /\ @InteractiveQA._create_qa_prompt Mini.runtime
       (InteractiveQA.load_paper_context
          (with_full_text pm (PaperMetadata.full_text pm +:+ " and the rest"))
          sample_result self)
       (store_of []) "Which test was used?"
     = @InteractiveQA._create_qa_prompt Mini.runtime self (store_of [])
         "Which test was used?".
Proof.
  intros pm self.
  assert (Hlen : 8000 <= Z.of_nat (String.length (PaperMetadata.full_text pm)))
    by (vm_compute; discriminate).
  split; [exact Hlen|].
  exact (@full_text_is_cut Mini.runtime self (store_of []) "Which test was used?"
           pm sample_result " and the rest" eq_refl eq_refl Hlen).
Defined.

Lemma conversation_outlives_the_paper_witness :
  let self := InteractiveQA.load_paper_context sample_paper sample_result new_engine in
  let other := with_full_text sample_paper "Another text." in
  Typed.extracted_methods sample_result = true
  /\ holds self (store_of [sample_exchange 1]) [sample_exchange 1]
  /\ exists before after,
       @InteractiveQA._create_qa_prompt Mini.runtime
         (InteractiveQA.load_paper_context other sample_result self)
         (store_of [sample_exchange 1]) "Which test was used?"
       = Ok (before +:+ @InteractiveQA.history_context Mini.runtime [sample_exchange 1]
             +:+ after).
Proof.
  intros self other.
  assert (Ht : Typed.extracted_methods sample_result = true) by reflexivity.
  assert (Hh : holds self (store_of [sample_exchange 1]) [sample_exchange 1])
    by holds_in_store.
  split; [exact Ht | split; [exact Hh|]].
  destruct (@conversation_outlives_the_paper Mini.runtime self other sample_result
              "Which test was used?" Ht) as (_ & before & after & Hprompt).
  exists before, after. exact (Hprompt _ _ Hh).
Defined.

Lemma failed_load_keeps_history_witness :
  let w := world_with_file "chat.json" conversation_without_answer in
  holds new_engine (heap w) []
  /\ is_ok (fst (@InteractiveQA.load_conversation Mini.runtime "chat.json"
                   new_engine w)) = false
  /\ holds new_engine
       (heap (snd (@InteractiveQA.load_conversation Mini.runtime "chat.json"
                     new_engine w))) [].
Proof.
  intros w.
  assert (Hh : holds new_engine (heap w) []) by holds_in_store.
  destruct (@failed_load_keeps_history Mini.runtime "chat.json" new_engine w [] Hh)
    as (Hkept & _ & _ & _ & _ & Hbad).
  split; [exact Hh | split; [|exact Hkept]].
  apply (Hbad (Mini.encode conversation_without_answer)
           [("conversation_history",
             VList [saved_exchange 1; VDict [("question", VStr "question 2")]])]
           [saved_exchange 1; VDict [("question", VStr "question 2")]]).
  - reflexivity.
  - vm_compute. reflexivity.
  - reflexivity.
  - apply Exists_cons_tl, Exists_cons_hd. reflexivity.
Defined.

Lemma conversation_round_trip_witness :
  let exs := [sample_exchange 1; sample_exchange 2] in
  let w := world_of exs in
  holds new_engine (heap w) exs
  /\ recorded_by_engine exs
  /\ exists self' w2,
       @InteractiveQA.load_conversation Mini.runtime "chat.json" new_engine
         (snd (@InteractiveQA.export_conversation Mini.runtime "chat.json"
                 new_engine w))
       = (Ok self', w2)
       /\ holds self' (heap w2) exs.
Proof.
  intros exs w.
  assert (Hh : holds new_engine (heap w) exs) by holds_in_store.
  assert (Hrec : recorded_by_engine exs) by (repeat constructor).
  split; [exact Hh | split; [exact Hrec|]].
  destruct (@conversation_round_trip Mini.runtime "chat.json" new_engine w exs Hh Hrec)
    as (_ & self' & w2 & Hrun & Hh' & _).
  { vm_compute. reflexivity. }
  exists self', w2. split; [exact Hrun | exact Hh'].
Defined.

Lemma clear_keeps_copies_witness :
  let exs := [sample_exchange 1; sample_exchange 2] in
  let w := world_of exs in
  holds new_engine (heap w) exs
  /\ exists copy w1,
       InteractiveQA.get_conversation_history new_engine w = (Ok copy, w1)
       /\ let w2 := snd (InteractiveQA.clear_conversation new_engine w1) in
          InteractiveQA.history new_engine (heap w2) = []
          /\ PyList.exchanges (heap w2) (PyList.items (heap w2) copy) = exs.
Proof.
  intros exs w.
  assert (Hh : holds new_engine (heap w) exs) by holds_in_store.
  split; [exact Hh|].
  destruct (clear_keeps_copies new_engine w exs Hh)
    as (copy & w1 & Hget & _ & Hempty & Hcopy & _).
  exists copy, w1. split; [exact Hget | split; [exact Hempty | exact Hcopy]].
Defined.

(** * Ingestion: the text of a PDF *)

Section PdfText.
Context `{PyRuntime}.
Variable pdfplumber : string -> result (list (result (option string))).
Variable pypdf2 : string -> result (list (result string)).

Lemma plumber_pages_read read tail : forall text,
  PaperIngestionEngine.plumber_pages (map Ok read ++ tail) text
  = PaperIngestionEngine.plumber_pages tail (text +:+ page_lines read).
Proof.
  induction read as [|page read IH]; intros text; cbn [map app page_lines fold_right].
  - now rewrite append_nil_r.
  - cbn [PaperIngestionEngine.plumber_pages]. rewrite IH. fold (page_lines read).
    destruct page as [t|]; [|reflexivity].
    destruct (String.eqb t EmptyString); [reflexivity|].
    rewrite !append_assoc. reflexivity.
Qed.

Lemma pypdf2_pages_read pages : forall text,
  PaperIngestionEngine.pypdf2_pages (map Ok pages) text
  = (text +:+ MethodExtractor.unlines pages, None).
Proof.
  induction pages as [|page pages IH]; intros text; cbn [map].
  - cbn. now rewrite append_nil_r.
  - cbn [PaperIngestionEngine.pypdf2_pages]. rewrite IH.
    unfold MethodExtractor.unlines. cbn [fold_right].
    rewrite !append_assoc. reflexivity.
Qed.

Lemma pypdf2_pages_app read tail : forall text,
  PaperIngestionEngine.pypdf2_pages (map Ok read ++ tail) text
  = PaperIngestionEngine.pypdf2_pages tail (text +:+ MethodExtractor.unlines read).
Proof.
  induction read as [|page read IH]; intros text; cbn [map app].
  - cbn. now rewrite append_nil_r.
  - cbn [PaperIngestionEngine.pypdf2_pages]. rewrite IH.
    unfold MethodExtractor.unlines. cbn [fold_right].
    rewrite !append_assoc. reflexivity.
Qed.

(** X20.  [extract_text_from_pdf] returns a text without spaces around
    it.  When the first reader reads every page, the text is that of
    its pages that have one, and the second reader is not consulted.
    When the first reader fails on a page, the text of the pages it
    read before is kept, and the pages of the second reader, all of
    them, come after it.  When the second reader fails too, on the
    file or on one of its pages, an [Exception] is raised that carries
    the message of the second failure only. *)
Theorem pdf_text_falls_back pdf_path :
  (forall text,
     PaperIngestionEngine.extract_text_from_pdf pdfplumber pypdf2 pdf_path = Ok text ->
     PyStr.strip text = text)
  /\ (forall pages,
        pdfplumber pdf_path = Ok (map Ok pages) ->
        PaperIngestionEngine.extract_text_from_pdf pdfplumber pypdf2 pdf_path
        = Ok (PyStr.strip (page_lines pages)))
  /\ (forall read e rest pages2,
        pdfplumber pdf_path = Ok (map Ok read ++ Raise e :: rest) ->
        pypdf2 pdf_path = Ok (map Ok pages2) ->
        PaperIngestionEngine.extract_text_from_pdf pdfplumber pypdf2 pdf_path
        = Ok (PyStr.strip (page_lines read +:+ MethodExtractor.unlines pages2)))
  /\ (forall read e rest read2 e2 rest2,
        pdfplumber pdf_path = Raise e
        \/ pdfplumber pdf_path = Ok (map Ok read ++ Raise e :: rest) ->
        pypdf2 pdf_path = Raise e2
        \/ pypdf2 pdf_path = Ok (map Ok read2 ++ Raise e2 :: rest2) ->
        PaperIngestionEngine.extract_text_from_pdf pdfplumber pypdf2 pdf_path
        = Raise (Exception ("Failed to extract text from PDF: " +:+ exn_str e2))).
Proof.
  unfold PaperIngestionEngine.extract_text_from_pdf.
  split; [|split; [|split]].
  - intros text.
    destruct (match pdfplumber pdf_path with
              | Ok pages => PaperIngestionEngine.plumber_pages pages EmptyString
              | Raise e => (EmptyString, Some e)
              end) as [t [e|]].
    + destruct (match pypdf2 pdf_path with
                | Ok pages => PaperIngestionEngine.pypdf2_pages pages t
                | Raise e2 => (t, Some e2)
                end) as [t2 [e2|]]; [discriminate|].
      intros [= <-]. apply strip_strip.
    + intros [= <-]. apply strip_strip.
  - intros pages ->. rewrite <- (app_nil_r (map Ok pages)), plumber_pages_read.
    reflexivity.
  - intros read e rest pages2 -> ->. rewrite plumber_pages_read.
    cbn [PaperIngestionEngine.plumber_pages]. rewrite pypdf2_pages_read.
    rewrite append_nil_l. reflexivity.
  - intros read e rest read2 e2 rest2 [->| ->] [->| ->];
      rewrite ?plumber_pages_read; cbn [PaperIngestionEngine.plumber_pages];
      rewrite ?pypdf2_pages_app; reflexivity.
Qed.
End PdfText.

Lemma pdf_text_falls_back_witness :
  @PaperIngestionEngine.extract_text_from_pdf Mini.runtime
    (reads [Ok (Some "Page one"); Ok None; Raise (Exception "bad page"); Ok (Some "Page four")])
    (reads [Ok "Page one"; Ok "Page three"]) "paper.pdf"
  = Ok ("Page one" +:+ PyStr.newline +:+ "Page one" +:+ PyStr.newline +:+ "Page three")
  /\ @PaperIngestionEngine.extract_text_from_pdf Mini.runtime
       (unreadable "not a PDF") (unreadable "no such file") "paper.pdf"
     = Raise (Exception "Failed to extract text from PDF: no such file").
Proof.
  split.
  - exact (proj1 (proj2 (proj2
             (@pdf_text_falls_back Mini.runtime _ _ "paper.pdf")))
             [Some "Page one"; None] (Exception "bad page") [Ok (Some "Page four")]
             ["Page one"; "Page three"] eq_refl eq_refl).
  - exact (proj2 (proj2 (proj2
             (@pdf_text_falls_back Mini.runtime _ _ "paper.pdf")))
             [] (Exception "not a PDF") [] [] (Exception "no such file") []
             (or_introl eq_refl) (or_introl eq_refl)).
Defined.

(** * Ingestion: the lookups in PubMed *)

Section Lookup.
Context `{PyRuntime}.
Variable pdfplumber : string -> result (list (result (option string))).
Variable pypdf2 : string -> result (list (result string)).
Variable web : Web.

Lemma search_pubmed_by_doi_run doi log :
  PaperIngestionEngine.search_pubmed_by_doi web doi log
  = (match web log (search_request doi) with
     | Ok root =>
         match ET.find_below "Id" root with
         | Some id_elem => Ok (ET.text_value id_elem)
         | None =>
             Raise (Exception
               "Failed to search PubMed by DOI: No PubMed ID found for the given DOI")
         end
     | Raise e => Raise (Exception ("Failed to search PubMed by DOI: " +:+ exn_str e))
     end, log ++ [search_request doi]).
Proof.
  unfold PaperIngestionEngine.search_pubmed_by_doi, Net.try_except, Net.bind,
    Net.get, Net.raise, Net.ret.
  change (mk_web_request _ _) with (search_request doi).
  destruct (web log (search_request doi)) as [root|e]; [|reflexivity].
  destruct (ET.find_below "Id" root); reflexivity.
Qed.

Lemma fetch_pubmed_metadata_run pubmed_id log :
  PaperIngestionEngine.fetch_pubmed_metadata web pubmed_id log
  = (match web log (fetch_request pubmed_id) with
     | Ok root =>
         match ET.find_below "Article" root with
         | Some article => Ok (PaperIngestionEngine.article_record article)
         | None =>
             Raise (Exception
               "Failed to fetch PubMed metadata: Article not found in PubMed response")
         end
     | Raise e => Raise (Exception ("Failed to fetch PubMed metadata: " +:+ exn_str e))
     end, log ++ [fetch_request pubmed_id]).
Proof.
  unfold PaperIngestionEngine.fetch_pubmed_metadata, Net.try_except, Net.bind,
    Net.get, Net.raise, Net.ret.
  change (mk_web_request _ _) with (fetch_request pubmed_id).
  destruct (web log (fetch_request pubmed_id)) as [root|e]; [|reflexivity].
  destruct (ET.find_below "Article" root); reflexivity.
Qed.

(** X21.  [process_doi] never raises.  It asks PubMed for the
    identifier of the DOI and, when it gets one, for the record of that
    identifier, and makes no other request.  When either answer fails
    or lacks what is looked for, the paper returned has the title
    "Unknown Title" and the DOI that was given.  Otherwise the paper is
    made of the record: its DOI is the one of the record, an empty
    string when the record has none, and not the DOI that was given.
    The full text is empty in every case. *)
Theorem doi_lookup_never_fails doi log :
  let run := PaperIngestionEngine.process_doi web doi log in
  let log1 := log ++ [search_request doi] in
  exists paper,
    fst run = Ok paper
    /\ IngestedPaper.full_text paper = EmptyString
    /\ (forall e, web log (search_request doi) = Raise e ->
          paper = PaperIngestionEngine.unknown_paper doi /\ snd run = log1)
    /\ (forall root,
          web log (search_request doi) = Ok root ->
          ET.find_below "Id" root = None ->
          paper = PaperIngestionEngine.unknown_paper doi /\ snd run = log1)
    /\ (forall root id_elem,
          web log (search_request doi) = Ok root ->
          ET.find_below "Id" root = Some id_elem ->
          let pubmed_id := ET.text_value id_elem in
          snd run = log1 ++ [fetch_request pubmed_id]
          /\ (forall e, web log1 (fetch_request pubmed_id) = Raise e ->
                paper = PaperIngestionEngine.unknown_paper doi)
          /\ (forall answer,
                web log1 (fetch_request pubmed_id) = Ok answer ->
                ET.find_below "Article" answer = None ->
                paper = PaperIngestionEngine.unknown_paper doi)
          /\ (forall answer article,
                web log1 (fetch_request pubmed_id) = Ok answer ->
                ET.find_below "Article" answer = Some article ->
                let r := PaperIngestionEngine.article_record article in
                paper = paper_of_record r (PubMedRecord.doi r) pubmed_id EmptyString)).
Proof.
  cbv zeta.
  unfold PaperIngestionEngine.process_doi, PaperIngestionEngine.process_pubmed_id,
    Net.try_except, Net.bind.
  rewrite search_pubmed_by_doi_run.
  destruct (web log (search_request doi)) as [root|e] eqn:Hsearch.
  - destruct (ET.find_below "Id" root) as [id_elem|] eqn:Hid.
    + rewrite fetch_pubmed_metadata_run.
      destruct (web (log ++ [search_request doi])
                  (fetch_request (ET.text_value id_elem))) as [answer|e] eqn:Hfetch.
      * destruct (ET.find_below "Article" answer) as [article|] eqn:Harticle.
        -- eexists; split; [reflexivity|]. split; [reflexivity|].
           split; [discriminate|]. split; [intros; simplify_eq|].
           intros; simplify_eq. split; [reflexivity|].
           rewrite Hfetch.
           split; [discriminate|]. split; [intros; simplify_eq|].
           intros; simplify_eq. reflexivity.
        -- eexists; split; [reflexivity|]. split; [reflexivity|].
           split; [discriminate|]. split; [intros; simplify_eq|].
           intros; simplify_eq. split; [reflexivity|].
           rewrite Hfetch.
           split; [discriminate|]. split; [reflexivity|].
           intros; simplify_eq.
      * eexists; split; [reflexivity|]. split; [reflexivity|].
        split; [discriminate|]. split; [intros; simplify_eq|].
        intros; simplify_eq. split; [reflexivity|].
        rewrite Hfetch.
        split; [reflexivity|]. split; discriminate.
    + eexists; split; [reflexivity|]. split; [reflexivity|].
      split; [discriminate|]. split; [intros; now split|].
      intros; simplify_eq.
  - eexists; split; [reflexivity|]. split; [reflexivity|].
    split; [intros; now split|]. split; discriminate.
Qed.

Lemma doi_group_not_empty s g : Re.doi_group s = Some g -> g <> EmptyString.
Proof.
  unfold Re.doi_group.
  destruct (Re.match_literal true "doi" s) as [after_doi|]; [|discriminate].
  destruct (Re.match_literal true "10." _) as [after_prefix|]; [|discriminate].
  destruct (Re.span Re.is_digit after_prefix) as [registrant after_digits].
  destruct registrant; [discriminate|].
  destruct after_digits as [|c after_slash]; [discriminate|].
  destruct (Ascii.eqb c "/"); [|discriminate].
  destruct (Re.span _ after_slash) as [suffix ?].
  destruct suffix; [discriminate|].
  intros [= <-]. discriminate.
Qed.

(** X22.  [process_pdf_upload] raises exactly when the text of the PDF
    cannot be read, with that exception and without a request.
    Otherwise it returns a paper whose full text is the text that was
    read, whatever PubMed answers.  Without a DOI in the text no
    request is made and the paper is made of the text alone.  With a
    DOI, a failed search or an identifier that is empty or [None]
    gives the paper of the text with that DOI, and a failed lookup of
    the record does too; a record that is found gives its fields, with
    the DOI of the text where the record has none. *)
Theorem upload_keeps_the_text pdf_path log :
  let run := PaperIngestionEngine.process_pdf_upload pdfplumber pypdf2 web pdf_path log in
  (forall e,
     PaperIngestionEngine.extract_text_from_pdf pdfplumber pypdf2 pdf_path = Raise e ->
     run = (Raise e, log))
  /\ (forall text,
        PaperIngestionEngine.extract_text_from_pdf pdfplumber pypdf2 pdf_path = Ok text ->
        exists paper,
          fst run = Ok paper
          /\ IngestedPaper.full_text paper = text
          /\ (Re.search Re.doi_group text = None ->
                run = (Ok (PaperIngestionEngine.paper_from_text text EmptyString
                             (VStr EmptyString)), log))
          /\ (forall doi,
                Re.search Re.doi_group text = Some doi ->
                let log1 := log ++ [search_request doi] in
                let found :=
                  match web log (search_request doi) with
                  | Ok root =>
                      match ET.find_below "Id" root with
                      | Some id_elem => ET.text_value id_elem
                      | None => VStr EmptyString
                      end
                  | Raise _ => VStr EmptyString
                  end in
                IngestedPaper.pubmed_id paper = found
                /\ (Py.truthy found = false ->
                      run = (Ok (PaperIngestionEngine.paper_from_text text doi found), log1))
                /\ (Py.truthy found = true ->
                      snd run = log1 ++ [fetch_request found]
                      /\ (forall e,
                            web log1 (fetch_request found) = Raise e ->
                            paper = PaperIngestionEngine.paper_from_text text doi found)
                      /\ (forall answer,
                            web log1 (fetch_request found) = Ok answer ->
                            ET.find_below "Article" answer = None ->
                            paper = PaperIngestionEngine.paper_from_text text doi found)
                      /\ (forall answer article,
                            web log1 (fetch_request found) = Ok answer ->
                            ET.find_below "Article" answer = Some article ->
                            let r := PaperIngestionEngine.article_record article in
                            paper = paper_of_record r
                                      (PaperIngestionEngine.or_else (PubMedRecord.doi r)
                                         (VStr doi))
                                      found text)))).
Proof.
  cbv zeta. unfold PaperIngestionEngine.process_pdf_upload.
  split; [intros e ->; reflexivity|].
  intros text ->.
  destruct (Re.search Re.doi_group text) as [doi|] eqn:Hdoi.
  - assert (Hne : String.eqb doi EmptyString = false).
    { apply String.eqb_neq. destruct (search_split _ _ _ Hdoi) as (? & ? & _ & Hg).
      exact (doi_group_not_empty _ _ Hg). }
    unfold Net.bind, Net.try_except. rewrite Hne. cbn [negb].
    rewrite search_pubmed_by_doi_run.
    set (found := match web log (search_request doi) with
                  | Ok root =>
                      match ET.find_below "Id" root with
                      | Some id_elem => ET.text_value id_elem
                      | None => VStr EmptyString
                      end
                  | Raise _ => VStr EmptyString
                  end).
    assert (Hrun :
      (let '(r, log') :=
         (match web log (search_request doi) with
          | Ok root =>
              match ET.find_below "Id" root with
              | Some id_elem => Ok (ET.text_value id_elem)
              | None =>
                  Raise (Exception
                    "Failed to search PubMed by DOI: No PubMed ID found for the given DOI")
              end
          | Raise e => Raise (Exception ("Failed to search PubMed by DOI: " +:+ exn_str e))
          end, log ++ [search_request doi]) in
       match r with
       | Ok a => (Ok a, log')
       | Raise e => Net.ret (VStr EmptyString) log'
       end) = (Ok found, log ++ [search_request doi])).
    { subst found. destruct (web log (search_request doi)) as [root|e]; [|reflexivity].
      destruct (ET.find_below "Id" root); reflexivity. }
    cbv zeta in Hrun. cbv beta iota in Hrun.
    match goal with
    | |- context [match ?scrut with (r, log') => _ end] =>
        match scrut with
        | context [Net.ret] =>
            replace scrut with (Ok found, log ++ [search_request doi])
              by (symmetry; exact Hrun)
        end
    end.
    destruct (Py.truthy found) eqn:Htruthy.
    + rewrite fetch_pubmed_metadata_run.
      destruct (web (log ++ [search_request doi]) (fetch_request found))
        as [answer|e] eqn:Hfetch.
      * destruct (ET.find_below "Article" answer) as [article|] eqn:Harticle.
        -- eexists; split; [reflexivity|]. split; [reflexivity|].
           split; [discriminate|]. intros ? [= <-]. fold found.
           rewrite Htruthy, Hfetch.
           split; [reflexivity|]. split; [discriminate|]. intros _.
           split; [reflexivity|]. split; [discriminate|].
           split; [intros; simplify_eq|]. intros; simplify_eq. reflexivity.
        -- eexists; split; [reflexivity|]. split; [reflexivity|].
           split; [discriminate|]. intros ? [= <-]. fold found.
           rewrite Htruthy, Hfetch.
           split; [reflexivity|]. split; [discriminate|]. intros _.
           split; [reflexivity|]. split; [discriminate|].
           split; [reflexivity|]. intros; simplify_eq.
      * eexists; split; [reflexivity|]. split; [reflexivity|].
        split; [discriminate|]. intros ? [= <-]. fold found.
        rewrite Htruthy, Hfetch.
        split; [reflexivity|]. split; [discriminate|]. intros _.
        split; [reflexivity|]. split; [reflexivity|]. split; discriminate.
    + eexists; split; [reflexivity|]. split; [reflexivity|].
      split; [discriminate|]. intros ? [= <-]. fold found.
      rewrite Htruthy.
      split; [reflexivity|]. split; [reflexivity|]. discriminate.
  - eexists; split; [reflexivity|]. split; [reflexivity|].
    split; [reflexivity|]. discriminate.
Qed.

(** X23.  [process_pubmed_id] makes one request, the lookup of the
    identifier.  When the request fails, whatever the exception, or the
    answer holds no [Article], it raises an [Exception] whose message
    starts with "Failed to fetch PubMed metadata: " and goes on with
    the message of the cause.  Otherwise it returns the record found,
    with the identifier given and an empty full text. *)
Theorem lookup_errors_are_wrapped pubmed_id log :
  let run := PaperIngestionEngine.process_pubmed_id web pubmed_id log in
  snd run = log ++ [fetch_request pubmed_id]
  /\ (forall e,
        web log (fetch_request pubmed_id) = Raise e ->
        fst run = Raise (Exception ("Failed to fetch PubMed metadata: " +:+ exn_str e)))
  /\ (forall answer,
        web log (fetch_request pubmed_id) = Ok answer ->
        ET.find_below "Article" answer = None ->
        fst run = Raise (Exception
                    "Failed to fetch PubMed metadata: Article not found in PubMed response"))
  /\ (forall answer article,
        web log (fetch_request pubmed_id) = Ok answer ->
        ET.find_below "Article" answer = Some article ->
        let r := PaperIngestionEngine.article_record article in
        fst run = Ok (paper_of_record r (PubMedRecord.doi r) pubmed_id EmptyString))
  /\ (forall e, fst run = Raise e ->
        exists cause, e = Exception ("Failed to fetch PubMed metadata: " +:+ cause)).
Proof.
  cbv zeta. unfold PaperIngestionEngine.process_pubmed_id, Net.bind.
  rewrite fetch_pubmed_metadata_run.
  destruct (web log (fetch_request pubmed_id)) as [answer|e0].
  - destruct (ET.find_below "Article" answer) as [article|] eqn:Harticle.
    + split; [reflexivity|]. split; [discriminate|].
      split; [intros; simplify_eq|]. split; [intros; simplify_eq; reflexivity|].
      discriminate.
    + split; [reflexivity|]. split; [discriminate|].
      split; [reflexivity|]. split; [intros; simplify_eq|].
      intros e [= <-]. now eexists.
  - split; [reflexivity|]. split; [intros ? [= <-]; reflexivity|].
    split; [discriminate|]. split; [discriminate|].
    intros e [= <-]. now eexists.
Qed.
End Lookup.

Lemma doi_lookup_never_fails_witness :
  fst (@PaperIngestionEngine.process_doi Mini.runtime offline "10.1000/xyz" [])
  = Ok (PaperIngestionEngine.unknown_paper "10.1000/xyz")
  /\ exists paper,
       fst (@PaperIngestionEngine.process_doi Mini.runtime sample_pubmed "10.1000/xyz" [])
       = Ok paper
       /\ IngestedPaper.title paper = VStr "A study of examples"
       /\ IngestedPaper.doi paper = VStr EmptyString
       /\ IngestedPaper.pubmed_id paper = VStr "12345".
Proof.
  split.
  - destruct (@doi_lookup_never_fails Mini.runtime offline "10.1000/xyz" [])
      as (paper & -> & _ & Hdown & _).
    now destruct (Hdown _ eq_refl) as [-> _].
  - destruct (@doi_lookup_never_fails Mini.runtime sample_pubmed "10.1000/xyz" [])
      as (paper & Hrun & _ & _ & _ & Hfound).
    exists paper. split; [exact Hrun|].
    destruct (Hfound _ (leaf "Id" "12345") eq_refl eq_refl) as (_ & _ & _ & Hrecord).
    rewrite (Hrecord _ sample_article eq_refl eq_refl). now vm_compute.
Defined.

Lemma upload_keeps_the_text_witness :
  @PaperIngestionEngine.process_pdf_upload Mini.runtime
    (reads [Ok (Some "A study of examples"); Ok (Some "No identifier is printed here.")])
    (unreadable "not consulted") offline "paper.pdf" []
  = (Ok (IngestedPaper.mk (VStr "A study of examples") [] (VStr EmptyString)
           (VStr EmptyString) (VStr EmptyString) (VStr EmptyString) (VStr EmptyString)
           ("A study of examples" +:+ PyStr.newline +:+ "No identifier is printed here.")),
     [])
  /\ @PaperIngestionEngine.process_pdf_upload Mini.runtime
       (unreadable "not a PDF") (unreadable "no such file") offline "paper.pdf" []
     = (Raise (Exception "Failed to extract text from PDF: no such file"), []).
Proof.
  split.
  - destruct (proj2 (@upload_keeps_the_text Mini.runtime
                (reads [Ok (Some "A study of examples");
                        Ok (Some "No identifier is printed here.")])
                (unreadable "not consulted") offline "paper.pdf" []) _ eq_refl)
      as (paper & _ & _ & Hnone & _).
    exact (Hnone eq_refl).
  - exact (proj1 (@upload_keeps_the_text Mini.runtime
             (unreadable "not a PDF") (unreadable "no such file") offline
             "paper.pdf" []) _ eq_refl).
Defined.

Lemma lookup_errors_are_wrapped_witness :
  fst (@PaperIngestionEngine.process_pubmed_id Mini.runtime offline (VStr "12345") [])
  = Raise (Exception "Failed to fetch PubMed metadata: no network")
  /\ snd (@PaperIngestionEngine.process_pubmed_id Mini.runtime offline (VStr "12345") [])
     = [fetch_request (VStr "12345")].
Proof.
  destruct (@lookup_errors_are_wrapped Mini.runtime offline (VStr "12345") [])
    as (Hlog & Hdown & _).
  split; [exact (Hdown _ eq_refl)|exact Hlog].
Defined.

(** * Ingestion: what is read in a record and in a text *)

Section Records.
Context `{PyRuntime}.

Lemma findall_authors people attributes text :
  ET.findall_below "Author"
    (ET.Element "AuthorList" attributes text (map author_element people))
  = map author_element people.
Proof.
  unfold ET.findall_below. cbn [ET.descendants].
  induction people as [|a people IH]; [reflexivity|].
  cbn [map flat_map]. rewrite List.filter_app, IH.
  now destruct a.
Qed.

Lemma author_name_listed a :
  PaperIngestionEngine.author_name (author_element a) = listed_name a.
Proof. now destruct a. Qed.

Lemma authors_listed people :
  omap PaperIngestionEngine.author_name (map author_element people)
  = omap listed_name people.
Proof.
  induction people as [|a people IH]; [reflexivity|].
  change (match PaperIngestionEngine.author_name (author_element a) with
          | Some y => y :: omap PaperIngestionEngine.author_name (map author_element people)
          | None => omap PaperIngestionEngine.author_name (map author_element people)
          end
          = match listed_name a with
            | Some y => y :: omap listed_name people
            | None => omap listed_name people
            end).
  now rewrite author_name_listed, IH.
Qed.

Lemma find_below_skips name before e after attributes tag text :
  Forall (without_tag name) before ->
  ET.has_tag name e = true ->
  ET.find_below name (ET.Element tag attributes text (before ++ e :: after)) = Some e.
Proof.
  intros Hbefore He. unfold ET.find_below, ET.findall_below. cbn [ET.descendants].
  induction Hbefore as [|b before Hb _ IH].
  - cbn [app flat_map List.filter]. now rewrite He.
  - rewrite <- app_comm_cons. cbn [flat_map]. rewrite List.filter_app.
    unfold without_tag in Hb. rewrite Hb. exact IH.
Qed.

(** X24.  The authors of a record are those of the first [AuthorList]
    of the article, in the order of the document: the fore name, a
    space and the last name of a person, the last name alone of one
    without a fore name.  An author without a last name, such as a
    group, is left out. *)
Theorem authors_are_read_in_order people before after tag attributes text
    list_attributes list_text :
  Forall (without_tag "AuthorList") before ->
  PubMedRecord.authors
    (PaperIngestionEngine.article_record
       (ET.Element tag attributes text
          (before
           ++ ET.Element "AuthorList" list_attributes list_text
                (map author_element people)
           :: after)))
  = omap listed_name people.
Proof.
  intros Hbefore. unfold PaperIngestionEngine.article_record.
  cbn [PubMedRecord.authors].
  rewrite (find_below_skips "AuthorList" before _ after) by easy.
  rewrite findall_authors.
  destruct people as [|a people]; [reflexivity|].
  change (ET.truthy _) with true. cbv iota.
  apply authors_listed.
Qed.
End Records.

Lemma authors_are_read_in_order_witness :
  PubMedRecord.authors (@PaperIngestionEngine.article_record Mini.runtime sample_article)
  = [VStr "Ada Lovelace"; VStr "Turing"].
Proof.
  apply (@authors_are_read_in_order Mini.runtime
           [Person "Lovelace" "Ada"; Collective "The Example Group"; Surname "Turing"]
           [ET.Element "Journal" [] None
              [leaf "Title" "Journal of Examples";
               ET.Element "JournalIssue" [] None
                 [ET.Element "PubDate" [] None [leaf "Year" "2021"]]];
            leaf "ArticleTitle" "A study of examples";
            ET.Element "Abstract" [] None [leaf "AbstractText" "We study examples."]]
           []).
  repeat constructor.
Defined.

Lemma match_doi_prefix s r :
  Re.match_literal true "10." s = Some r -> s = "10." +:+ r.
Proof.
  destruct s as [|a [|b [|c s]]]; try discriminate.
  - cbn [Re.match_literal]. now destruct (Re.char_match true "1" a).
  - cbn [Re.match_literal]. destruct (Re.char_match true "1" a); [|discriminate].
    now destruct (Re.char_match true "0" b).
  - cbn [Re.match_literal].
    destruct (Re.char_match true "1" a) eqn:Ha; [|discriminate].
    destruct (Re.char_match true "0" b) eqn:Hb; [|discriminate].
    destruct (Re.char_match true "." c) eqn:Hc; [|discriminate].
    intros [= <-].
    assert (a = "1"%char) as ->.
    { revert Ha. destruct a as [[] [] [] [] [] [] [] []]; vm_compute; congruence. }
    assert (b = "0"%char) as ->.
    { revert Hb. destruct b as [[] [] [] [] [] [] [] []]; vm_compute; congruence. }
    assert (c = "."%char) as ->.
    { revert Hc. destruct c as [[] [] [] [] [] [] [] []]; vm_compute; congruence. }
    reflexivity.
Qed.

Lemma span_spec class : forall s run rest,
  Re.span class s = (run, rest) ->
  s = run +:+ rest
  /\ all_chars class run = true
  /\ (rest = EmptyString \/ exists c r, rest = String c r /\ class c = false).
Proof.
  induction s as [|c s IH]; intros run rest; cbn [Re.span].
  - intros [= <- <-]. repeat split. now left.
  - destruct (class c) eqn:Hc.
    + destruct (Re.span class s) as [run' rest'] eqn:Hs. intros [= <- <-].
      destruct (IH _ _ eq_refl) as (-> & Hall & Hrest).
      repeat split; [|exact Hrest].
      unfold all_chars in *. cbn [list_ascii_of_string forallb]. now rewrite Hc.
    + intros [= <- <-]. repeat split. right. eauto.
Qed.

Lemma lstrip_spaces s :
  exists spaces, s = spaces +:+ PyStr.lstrip s /\ all_chars PyStr.isspace spaces = true.
Proof.
  induction s as [|c s (spaces & IH & Hall)]; [now exists EmptyString|].
  cbn [PyStr.lstrip]. destruct (PyStr.isspace c) eqn:Hc.
  - exists (String c spaces). split; [rewrite append_cons; f_equal; exact IH|].
    unfold all_chars in *. cbn [list_ascii_of_string forallb]. now rewrite Hc.
  - now exists EmptyString.
Qed.

(** X25.  The DOI that [process_pdf_upload] takes from a text stands in
    it right after a label: the word "doi" in any case of its letters,
    then a colon or none, then spaces or none.  The DOI is "10.", one
    digit or more, a slash and the characters that follow up to the
    next white space or the end of the text, at least one: what is
    printed right after the DOI, a full stop or a bracket, is part of
    it. *)
Theorem found_doi_runs_to_the_space text doi :
  Re.search Re.doi_group text = Some doi ->
  exists before word colon spaces registrant suffix rest,
    text = before +:+ (word +:+ colon +:+ spaces) +:+ doi +:+ rest
    /\ same_text true "doi" word
    /\ (colon = EmptyString \/ colon = ":")
    /\ all_chars PyStr.isspace spaces = true
    /\ doi = "10." +:+ registrant +:+ "/" +:+ suffix
    /\ registrant <> EmptyString
    /\ all_chars Re.is_digit registrant = true
    /\ suffix <> EmptyString
    /\ all_chars (fun c => negb (PyStr.isspace c)) suffix = true
    /\ (rest = EmptyString
        \/ exists c r, rest = String c r /\ PyStr.isspace c = true).
Proof.
  intros Hsearch. destruct (search_split _ _ _ Hsearch) as (before & found & -> & Hg).
  revert Hg. unfold Re.doi_group.
  destruct (Re.match_literal true "doi" found) as [after_doi|] eqn:Hdoi; [|discriminate].
  destruct (match_literal_split _ _ _ _ Hdoi) as (word & -> & Hword).
  set (after_colon := match after_doi with
                      | String c r => if Ascii.eqb c ":" then r else after_doi
                      | EmptyString => after_doi
                      end).
  assert (Hcolon : exists colon,
            after_doi = colon +:+ after_colon
            /\ (colon = EmptyString \/ colon = ":")).
  { subst after_colon. destruct after_doi as [|c r]; [exists EmptyString; auto|].
    destruct (Ascii.eqb c ":") eqn:Hc.
    - apply Ascii.eqb_eq in Hc as ->. exists ":". auto.
    - exists EmptyString. auto. }
  destruct Hcolon as (colon & Hl2 & Hcolon).
  destruct (lstrip_spaces after_colon) as (spaces & Hws & Hspaces).
  destruct (Re.match_literal true "10." (PyStr.lstrip after_colon)) as [after_prefix|]
    eqn:Hprefix; [|discriminate].
  apply match_doi_prefix in Hprefix.
  destruct (Re.span Re.is_digit after_prefix) as [registrant after_digits] eqn:Hdigits.
  destruct (span_spec _ _ _ _ Hdigits) as (Hsplit1 & Hall1 & _).
  destruct registrant as [|d registrant]; [discriminate|].
  destruct after_digits as [|c after_slash]; [discriminate|].
  destruct (Ascii.eqb c "/") eqn:Hc; [|discriminate].
  apply Ascii.eqb_eq in Hc. subst c.
  destruct (Re.span (fun c => negb (PyStr.isspace c)) after_slash) as [suffix rest]
    eqn:Hsuffix.
  destruct (span_spec _ _ _ _ Hsuffix) as (Hsplit2 & Hall2 & Hrest).
  destruct suffix as [|x suffix]; [discriminate|].
  intros [= <-].
  exists before, word, colon, spaces, (String d registrant), (String x suffix), rest.
  split.
  - rewrite Hl2, Hws, Hprefix, Hsplit1, Hsplit2.
    rewrite !append_assoc. reflexivity.
  - split; [exact Hword|]. split; [exact Hcolon|]. split; [exact Hspaces|].
    split; [reflexivity|]. split; [discriminate|]. split; [exact Hall1|].
    split; [discriminate|]. split; [exact Hall2|].
    destruct Hrest as [->|(c & r & -> & Hcr)]; [now left|].
    right. exists c, r. split; [reflexivity|].
    now destruct (PyStr.isspace c).
Qed.

Lemma found_doi_runs_to_the_space_witness :
  exists before word colon spaces registrant suffix rest,
    ("See DOI: 10.1000/xyz123. The data are public." : string)
    = before +:+ (word +:+ colon +:+ spaces) +:+ "10.1000/xyz123." +:+ rest
    /\ same_text true "doi" word
    /\ (colon = EmptyString \/ colon = ":")
    /\ all_chars PyStr.isspace spaces = true
    /\ ("10.1000/xyz123." : string) = "10." +:+ registrant +:+ "/" +:+ suffix
    /\ registrant <> EmptyString
    /\ all_chars Re.is_digit registrant = true
    /\ suffix <> EmptyString
    /\ all_chars (fun c => negb (PyStr.isspace c)) suffix = true
    /\ (rest = EmptyString
        \/ exists c r, rest = String c r /\ PyStr.isspace c = true).
Proof.
  apply (found_doi_runs_to_the_space
           "See DOI: 10.1000/xyz123. The data are public." "10.1000/xyz123.").
  vm_compute. reflexivity.
Defined.

Lemma first_line_span : forall s,
  fst (Re.span (fun c => negb (Ascii.eqb c (ascii_of_nat 10))) s) = first_line s.
Proof.
  unfold first_line. induction s as [|c s IH]; [reflexivity|].
  cbn [Re.span PyStr.split].
  destruct (Ascii.eqb c (ascii_of_nat 10)); cbn [negb]; [reflexivity|].
  destruct (Re.span _ s) as [run rest]. cbn [fst] in *.
  destruct (PyStr.split (ascii_of_nat 10) s) as [|h t]; cbn [hd] in *; now subst.
Qed.

(** X26.  The title of a paper made of its text alone comes from the
    first line of the stripped text and from no other line.  A first
    line of fewer than 10 characters gives "Unknown Title", whatever
    follows it; otherwise the title is the first 200 characters of
    that line at most, stripped. *)
Theorem title_is_the_first_line full_text doi pubmed_id :
  let line := first_line (PyStr.strip full_text) in
  IngestedPaper.title (PaperIngestionEngine.paper_from_text full_text doi pubmed_id)
  = VStr (if (String.length line <? 10)%nat then "Unknown Title"
          else PyStr.strip (PyStr.take 200 line)).
Proof.
  cbv zeta. unfold PaperIngestionEngine.paper_from_text, Re.title_group.
  cbn [IngestedPaper.title]. rewrite first_line_span.
  rewrite Nat.leb_antisym.
  now destruct (String.length (first_line (PyStr.strip full_text)) <? 10)%nat.
Qed.

(** * A block with the tag of another language *)

Section ForeignTag.
Context `{PyRuntime}.

Lemma search_any_block_located intro body tail :
  ~ occurs "`" intro -> ~ occurs "`" body ->
  Re.search Re.any_block (intro +:+ Re.fence +:+ body +:+ Re.fence +:+ tail)
  = Some body.
Proof.
  intros Hintro Hbody. unfold Re.any_block, Re.fenced_block.
  rewrite search_skip.
  2:{ intros a u Ha Hu. rewrite <- (append_nil_r Re.fence) at 1.
      now rewrite (no_fence_start false EmptyString intro a u _ Hintro Ha Hu). }
  apply search_here.
  rewrite (match_literal_app _ _ _ _ (same_text_refl false Re.fence)).
  apply lazy_until_exact.
  - apply looking_at_app, same_text_refl.
  - intros a u Ha Hu. unfold Re.looking_at.
    rewrite <- (append_nil_r Re.fence) at 1.
    now rewrite (no_fence_start false EmptyString body a u _ Hbody Ha Hu).
Qed.

(** X27.  When the first fenced block of a reply is not tagged with the
    requested language and no block of the reply is, the script is all
    that stands between the fences of that first block, stripped: the
    tag of the other language is the start of the script. *)
Theorem foreign_tag_stays_in_the_script category language intro tag code tail :
  Re.literal language = true ->
  ~ occurs "`" intro -> ~ occurs "`" (tag +:+ code) ->
  let reply := intro +:+ Re.fence +:+ tag +:+ code +:+ Re.fence +:+ tail in
  ~ has_block true (Re.fence +:+ language) reply ->
  exists script,
    CodeGenerator._parse_code_generation_result reply category language = Ok script
    /\ GeneratedCode.script_content script = PyStr.strip (tag +:+ code).
Proof.
  intros Hlit Hintro Hbody reply Hnone.
  unfold CodeGenerator._parse_code_generation_result, CodeGenerator.search_tagged_block.
  rewrite Hlit. cbn [Res.bind].
  eexists. split; [reflexivity|]. cbn [GeneratedCode.script_content].
  destruct (Re.search (Re.tagged_block language) reply) as [g|] eqn:Htagged.
  - destruct Hnone. exists g. now apply search_block_some.
  - unfold reply.
    replace (intro +:+ Re.fence +:+ tag +:+ code +:+ Re.fence +:+ tail)
      with (intro +:+ Re.fence +:+ (tag +:+ code) +:+ Re.fence +:+ tail)
      by (rewrite !append_assoc; reflexivity).
    now rewrite search_any_block_located.
Qed.
End ForeignTag.

Lemma foreign_tag_stays_in_the_script_witness :
  exists script,
    @CodeGenerator._parse_code_generation_result Mini.runtime
      ("Here is the script:" +:+ PyStr.newline +:+ Re.fence +:+ "r"
       +:+ (PyStr.newline +:+ "x <- 1" +:+ PyStr.newline) +:+ Re.fence
       +:+ (PyStr.newline +:+ "USAGE: Rscript x.R"))
      (VStr "statistical") "python"
    = Ok script
    /\ GeneratedCode.script_content script = "r" +:+ PyStr.newline +:+ "x <- 1".
Proof.
  apply (@foreign_tag_stays_in_the_script Mini.runtime (VStr "statistical") "python"
           ("Here is the script:" +:+ PyStr.newline) "r"
           (PyStr.newline +:+ "x <- 1" +:+ PyStr.newline)
           (PyStr.newline +:+ "USAGE: Rscript x.R")).
  - reflexivity.
  - vm_compute. intuition discriminate.
  - vm_compute. intuition discriminate.
  - apply search_block_none. vm_compute. reflexivity.
Defined.

(** * Prompts that cannot be built *)

Section PromptErrors.
Context `{PyRuntime}.
Variable client : Gateway.

Lemma join_raises_type_error sep v e :
  Py.join sep v = Raise e -> exists reason, e = TypeError reason.
Proof.
  destruct v as [| | | | |items|]; cbn [Py.join]; try discriminate;
    try (intros [= <-]; eauto).
  destruct (Py.join_items 0 items) eqn:Hitems; [discriminate|].
  intros [= <-]. revert Hitems. generalize 0%nat.
  induction items as [|x items IH]; intros i; cbn [Py.join_items]; [discriminate|].
  destruct x; try (intros [= <-]; eauto).
  destruct (Py.join_items (S i) items) eqn:Hrest; [discriminate|].
  intros [= <-]. eauto.
Qed.

Lemma method_context_raises m e :
  InteractiveQA.method_context m = Raise e -> exists reason, e = TypeError reason.
Proof.
  unfold InteractiveQA.method_context, Res.bind.
  destruct (Py.join ", " (ComputationalMethod.software_tools m)) eqn:Htools.
  - destruct (Py.join ", " (ComputationalMethod.programming_languages m)) eqn:Hlangs;
      [discriminate|].
    intros [= <-]. eapply join_raises_type_error, Hlangs.
  - intros [= <-]. eapply join_raises_type_error, Htools.
Qed.

Lemma traverse_raises {A B} (f : A -> result B) (P : exn -> Prop) l x :
  In x l -> is_ok (f x) = false ->
  (forall y e, f y = Raise e -> P e) ->
  exists e, Res.traverse f l = Raise e /\ P e.
Proof.
  intros Hin Hx HP. induction l as [|a l IH]; [destruct Hin|].
  cbn [Res.traverse]. destruct (f a) as [y|e] eqn:Hfa.
  - destruct Hin as [->|Hin]; [rewrite Hfa in Hx; discriminate|].
    destruct (IH Hin) as (e & -> & He). eauto.
  - exists e. split; [reflexivity|]. eapply HP, Hfa.
Qed.

(** X28.  The prompt of a question is built before the [try] block of
    [ask_question].  When the tools of one of the methods cannot be
    joined, the field being [None], a number, or a list with an item
    that is not a string, [ask_question] raises a [TypeError] instead
    of returning a text: no request is made and nothing is recorded. *)
Theorem prompt_errors_escape question self w pm em m e :
  InteractiveQA.paper_metadata self = Some pm ->
  InteractiveQA.extracted_methods self = Some em ->
  In m (ExtractedMethods.computational_methods em) ->
  Py.join ", " (ComputationalMethod.software_tools m) = Raise e ->
  exists reason,
    InteractiveQA.ask_question client question self w = (Raise (TypeError reason), w).
Proof.
  intros Hpm Hem Hin Hjoin.
  assert (Hm : is_ok (InteractiveQA.method_context m) = false).
  { unfold InteractiveQA.method_context, Res.bind. now rewrite Hjoin. }
  destruct (traverse_raises InteractiveQA.method_context
              (fun e => exists reason, e = TypeError reason) _ _ Hin Hm
              method_context_raises) as (e' & Htraverse & reason & ->).
  exists reason.
  unfold InteractiveQA.ask_question, InteractiveQA._create_qa_prompt.
  rewrite Hpm, Hem. unfold Eff.bind. cbn [Res.bind].
  rewrite Htraverse. reflexivity.
Qed.
End PromptErrors.

Lemma prompt_errors_escape_witness :
  exists reason,
    @InteractiveQA.ask_question Mini.runtime (Mini.answering "Yes.")
      "Which test was used?"
      (InteractiveQA.load_paper_context sample_paper untyped_result new_engine)
      Mini.empty_world
    = (Raise (TypeError reason), Mini.empty_world).
Proof.
  apply (@prompt_errors_escape Mini.runtime (Mini.answering "Yes.")
           "Which test was used?"
           (InteractiveQA.load_paper_context sample_paper untyped_result new_engine)
           Mini.empty_world sample_paper untyped_result
           (ComputationalMethod.mk (VStr "t-test") (VStr "two-sample test") VNone
              (VList [VStr "R"]) (VDict []) (VStr "statistical_analysis"))
           (TypeError JoinNotIterable)).
  - reflexivity.
  - reflexivity.
  - left. reflexivity.
  - reflexivity.
Defined.
